(** * Record fusion: conflict resolution over matched record pairs

    A shallow embedding of [recordlinkage/fuse.py] (classes [FuseCore] and
    [FuseLinks]) together with the part of pandas the module relies on:
    label-indexed series, data frames, [MultiIndex.to_frame], [Series.loc]
    with a list of labels, [Series.apply] and [concat] along the column axis.

    Python objects are modelled by the type [value]; exceptions by [exn];
    code that may raise returns a [result]; code that additionally calls
    caller-supplied strategies (which may consume the process-wide random
    generator, as [choose_random] does) lives in the monad [M].

    Conventions of the pandas model: labels are compared structurally and
    the column labels of a frame are distinct;
    [Series.loc] with a list raises [KeyError] for a label that is absent
    and returns every row that carries a requested label; the pair index is
    a two-level [MultiIndex]; transforms are functions of one value that
    return or raise; the warnings written by [logging.warn] are not
    modelled.  [concat] keeps the cells of a column whose index is the
    index of the result; the cells of a column that it has to reindex
    (filled with [NaN] and converted to a type that holds them) are a
    parameter of the model. *)

From Stdlib Require Import String ZArith Bool Lia Arith PeanoNat List.
Import ListNotations.
Open Scope string_scope.
Open Scope list_scope.
Open Scope Z_scope.

(* ================================================================== *)
(** ** Python values *)

(** The objects that appear as record ids, column names, cells, static
    metadata constants and aligned pair records. *)
Unset Elimination Schemes.
Inductive value : Type :=
| VNone
| VNaN
| VInt (z : Z)
| VStr (s : string)
| VTuple (items : list value)
| VList (items : list value).
Set Elimination Schemes.

(** Equality of labels, as used by index lookups. *)
Fixpoint value_eqb (x y : value) {struct x} : bool :=
  let fix items_eqb (xs ys : list value) {struct xs} : bool :=
    match xs, ys with
    | [], [] => true
    | x' :: xs', y' :: ys' => value_eqb x' y' && items_eqb xs' ys'
    | _, _ => false
    end in
  match x, y with
  | VNone, VNone => true
  | VNaN, VNaN => true
  | VInt a, VInt b => Z.eqb a b
  | VStr a, VStr b => String.eqb a b
  | VTuple a, VTuple b => items_eqb a b
  | VList a, VList b => items_eqb a b
  | _, _ => false
  end.

Definition is_none (v : value) : bool :=
  match v with VNone => true | _ => false end.

(** What a caller-supplied function does when it is called: it returns a
    value or an exception leaves it. *)
Inductive outcome : Type :=
| Returns (v : value)
| Raises (what : string).

(** An argument that is expected to be a function or [None]. *)
Inductive pyobj : Type :=
| PyNone
| PyCallable (f : value -> outcome)
| PyOther (v : value).

Definition callable (o : pyobj) : bool :=
  match o with PyCallable _ => true | _ => false end.

Definition py_is_none (o : pyobj) : bool :=
  match o with PyNone => true | _ => false end.

(* ================================================================== *)
(** ** Exceptions and the error monad *)

Inductive exn : Type :=
| AssertionError (msg : string)
| ValueError (msg : string)
| KeyError
| IndexError
| TypeError
| Raised (what : string).   (* left a caller-supplied function *)

(** Python's [LookupError] is the common base of [KeyError] and
    [IndexError]. *)
Definition is_lookup_error (e : exn) : bool :=
  match e with KeyError | IndexError => true | _ => false end.

Inductive result (A : Type) : Type :=
| Ok (a : A)
| Err (e : exn).
Arguments Ok {A} a.
Arguments Err {A} e.

Definition rbind {A B} (r : result A) (k : A -> result B) : result B :=
  match r with Ok a => k a | Err e => Err e end.

Declare Scope result_scope.
Delimit Scope result_scope with result.
Notation "x <- r ;; k" := (rbind r (fun x => k))
  (at level 61, r at next level, right associativity) : result_scope.

(** The state of the [random] module's generator. *)
Definition rng := N.

(** Computations that may raise and may advance the random generator; the
    generator state survives an exception. *)
Definition M (A : Type) : Type := rng -> result A * rng.

Definition mret {A} (a : A) : M A := fun g => (Ok a, g).
Definition mraise {A} (e : exn) : M A := fun g => (Err e, g).
Definition mbind {A B} (m : M A) (k : A -> M B) : M B :=
  fun g => match m g with
           | (Ok a, g') => k a g'
           | (Err e, g') => (Err e, g')
           end.
Definition lift {A} (r : result A) : M A := fun g => (r, g).

Declare Scope M_scope.
Delimit Scope M_scope with M.
Notation "x <~ m ;; k" := (mbind m (fun x => k))
  (at level 61, m at next level, right associativity) : M_scope.

(** A conflict resolution function: called with one aligned pair record and
    the extra positional arguments. *)
Definition strategy : Type := value -> list value -> rng -> outcome * rng.

(* ================================================================== *)
(** ** Series and data frames *)

(** A series: cells with their index labels, in row order. *)
Definition Series : Type := list (value * value).

Definition series_index (s : Series) : list value := map fst s.
Definition series_values (s : Series) : list value := map snd s.

(** A data frame: the row labels and the named columns, each holding one
    cell per row. *)
Record DataFrame : Type := {
  df_index : list value;
  df_columns : list (value * list value)
}.

Fixpoint assoc {B} (k : value) (l : list (value * B)) : option B :=
  match l with
  | [] => None
  | (k', b) :: rest => if value_eqb k' k then Some b else assoc k rest
  end.

(** [df[key]] *)
Definition df_getitem (df : DataFrame) (key : value) : result Series :=
  match assoc key (df_columns df) with
  | Some cells => Ok (combine (df_index df) cells)
  | None => Err KeyError
  end.

(** [len(df)] *)
Definition df_len (df : DataFrame) : nat := length (df_index df).

(** The rows of [s] that carry label [k]. *)
Definition rows_at (s : Series) (k : value) : Series :=
  filter (fun e => value_eqb (fst e) k) s.

(** [s.loc[keys]]: for each key in turn the rows labelled with it; a key
    that labels no row is a [KeyError]. *)
Fixpoint loc (s : Series) (keys : list value) : result Series :=
  match keys with
  | [] => Ok []
  | k :: ks =>
      match rows_at s k with
      | [] => Err KeyError
      | hits => (rest <- loc s ks ;; Ok (hits ++ rest))%result
      end
  end.

(** [s.apply(f)] for a one-argument function. *)
Fixpoint series_apply (f : value -> outcome) (s : Series) : result Series :=
  match s with
  | [] => Ok []
  | (l, v) :: rest =>
      match f v with
      | Raises w => Err (Raised w)
      | Returns v' => (rest' <- series_apply f rest ;; Ok ((l, v') :: rest'))%result
      end
  end.

(** [[s.apply(f) for s in cols]] *)
Fixpoint apply_each (f : value -> outcome) (cols : list Series)
  : result (list Series) :=
  match cols with
  | [] => Ok []
  | s :: rest =>
      (s' <- series_apply f s ;;
       rest' <- apply_each f rest ;;
       Ok (s' :: rest'))%result
  end.

(** [s.apply(f, args=args)] for a strategy. *)
Fixpoint series_apply_args (f : strategy) (args : list value) (s : Series)
  : M Series :=
  match s with
  | [] => mret []
  | (l, v) :: rest =>
      fun g =>
        match f v args g with
        | (Raises w, g') => (Err (Raised w), g')
        | (Returns r, g') =>
            (rest' <~ series_apply_args f args rest ;; mret ((l, r) :: rest'))%M g'
        end
  end.

(** [RangeIndex(n)] *)
Definition range_index (n : nat) : list value :=
  map (fun i => VInt (Z.of_nat i)) (seq 0 n).

(** [pd.Series(data)]: the default index numbers the rows from 0. *)
Definition series_of_list (data : list value) : Series :=
  combine (range_index (length data)) data.

(** [pd.Series(data, index=index)] *)
Definition series_with_index (data index : list value) : result Series :=
  if Nat.eqb (length data) (length index)
  then Ok (combine index data)
  else Err (ValueError "Length of values does not match length of index").

(** Python's zip over the unpacked list [cols]: one tuple per position, up to the end of the shortest
    column; no tuple at all when there is no column. *)
Fixpoint zip_star (cols : list (list value)) : list (list value) :=
  match cols with
  | [] => []
  | c :: rest =>
      match rest with
      | [] => map (fun x => [x]) c
      | _ => map (fun p => fst p :: snd p) (combine c (zip_star rest))
      end
  end.

(** A two-level [MultiIndex]: the optional level names and the tuples. *)
Record MultiIndex : Type := {
  mi_names : option value * option value;
  mi_tuples : list (value * value)
}.

(** The comparison vectors: a frame whose row index is the pair index. *)
Record Vectors : Type := {
  vec_index : MultiIndex;
  vec_columns : list (value * list value)
}.

(** The column label [to_frame] gives a level: its name, or its position
    when it has none. *)
Definition level_label (i : Z) (name : option value) : value :=
  match name with Some n => n | None => VInt i end.

(** The frame [to_frame] builds: the tuples as row labels and one column
    per level. *)
Definition index_frame (mi : MultiIndex) : DataFrame :=
  {| df_index := map (fun p => VTuple [fst p; snd p]) (mi_tuples mi);
     df_columns :=
       [ (level_label 0 (fst (mi_names mi)), map fst (mi_tuples mi));
         (level_label 1 (snd (mi_names mi)), map snd (mi_tuples mi)) ] |}.

(** The two column labels of the frame differ. *)
Definition labels_distinct (mi : MultiIndex) : bool :=
  negb (value_eqb (level_label 0 (fst (mi_names mi)))
                  (level_label 1 (snd (mi_names mi)))).

(** The error of [to_frame] for two equal column labels. *)
Definition duplicate_labels : exn :=
  ValueError
    "Cannot create duplicate column labels if allow_duplicates is False".

(** [MultiIndex.to_frame()]: two equal column labels are refused. *)
Definition to_frame (mi : MultiIndex) : result DataFrame :=
  if labels_distinct mi then Ok (index_frame mi) else Err duplicate_labels.

(** Union of two indexes, in order of first appearance. *)
Definition index_union (a b : list value) : list value :=
  a ++ filter (fun l => negb (existsb (value_eqb l) a)) b.

(** The cells [concat] gives a column that it has to reindex to the labels
    [idx]: rows that the series lacks are filled with [NaN], and pandas
    converts the other cells to a type that can hold [NaN] beside them.
    That conversion lies outside this model; the engine is parametric in
    it. *)
Class Alignment : Type := align_cells : list value -> Series -> list value.

(** Equality of two indexes, label by label. *)
Fixpoint index_eqb (xs ys : list value) : bool :=
  match xs, ys with
  | [], [] => true
  | x :: xs', y :: ys' => value_eqb x y && index_eqb xs' ys'
  | _, _ => false
  end.

(** The cells of [s] as a column of a frame with the row labels [idx]: its
    own cells when its index is [idx], the aligned cells otherwise. *)
Definition reindex {P : Alignment} (idx : list value) (s : Series)
  : list value :=
  if index_eqb (series_index s) idx then series_values s
  else align_cells idx s.

(** [pd.concat(objs, axis=1)] for unnamed series of unique labels (those
    of [fuse] carry a range index): the rows are the union of the indexes,
    the columns are numbered in list order. *)
Definition concat_axis1 {P : Alignment} (objs : list Series)
  : result DataFrame :=
  match objs with
  | [] => Err (ValueError "No objects to concatenate")
  | _ =>
      let idx := fold_left index_union (map series_index objs) [] in
      Ok {| df_index := idx;
            df_columns := combine (range_index (length objs))
                                  (map (reindex idx) objs) |}
  end.

(* ================================================================== *)
(** ** The fusion engine: [FuseCore] as inherited by [FuseLinks] *)

(** [listify] is imported from [recordlinkage.utils]; its definition lies
    outside [fuse.py], and the engine is parametric in it. *)
Class Listify : Type := listify : value -> list value.

(** One entry of [resolution_queue]: the dictionary built by
    [queue_resolve]. *)
Record Job : Type := {
  job_fun : strategy;
  job_values_a : value;
  job_values_b : value;
  job_meta_a : value;
  job_meta_b : value;
  job_transform_vals : pyobj;
  job_transform_meta : pyobj;
  job_static_meta : bool;
  job_params : option (list value);
  job_kwargs : list (string * value)
}.

(** The attributes of a [FuseLinks] object; [None] attributes are [None]
    or [VNone]. *)
Record FuseLinks : Type := {
  vectors : option Vectors;
  index : option DataFrame;
  predictions : value;
  df_a : option DataFrame;
  df_b : option DataFrame;
  suffix_a : value;
  suffix_b : value;
  resolution_queue : list Job;
  unique_a : bool;
  unique_b : bool
}.

(** [FuseLinks(unique_a, unique_b)] *)
Definition FuseLinks_init (unique_a unique_b : bool) : FuseLinks :=
  {| vectors := None; index := None; predictions := VNone;
     df_a := None; df_b := None; suffix_a := VNone; suffix_b := VNone;
     resolution_queue := [];
     unique_a := unique_a; unique_b := unique_b |}.

(** [self.resolution_queue = q] *)
Definition set_queue (self : FuseLinks) (q : list Job) : FuseLinks :=
  {| vectors := vectors self; index := index self;
     predictions := predictions self;
     df_a := df_a self; df_b := df_b self;
     suffix_a := suffix_a self; suffix_b := suffix_b self;
     resolution_queue := q;
     unique_a := unique_a self; unique_b := unique_b self |}.

(** [queue_resolve(fun, values_a, values_b, meta_a, meta_b, transform_vals,
    transform_meta, static_meta, params, **kwargs)] (lines 49-68): the job
    is appended to the queue as it is given. *)
Definition queue_resolve (self : FuseLinks) (fun_ : strategy)
    (values_a values_b meta_a meta_b : value)
    (transform_vals transform_meta : pyobj) (static_meta : bool)
    (params : option (list value)) (kwargs : list (string * value))
  : FuseLinks :=
  set_queue self
    (resolution_queue self ++
       [ {| job_fun := fun_;
            job_values_a := values_a;
            job_values_b := values_b;
            job_meta_a := meta_a;
            job_meta_b := meta_b;
            job_transform_vals := transform_vals;
            job_transform_meta := transform_meta;
            job_static_meta := static_meta;
            job_params := params;
            job_kwargs := kwargs |} ]).

(** The call [queue_resolve(fun, values_a, values_b)]: every other argument
    takes the default value of the signature. *)
Definition queue_resolve_defaults (self : FuseLinks) (fun_ : strategy)
    (values_a values_b : value) : FuseLinks :=
  queue_resolve self fun_ values_a values_b
    VNone VNone PyNone PyNone false None [].

(** The extra positional arguments [Series.apply] passes for [args=params]:
    none when [params] is [None]. *)
Definition extra_args (params : option (list value)) : list value :=
  match params with Some ps => ps | None => [] end.

(** [resolve(fun, data, params)] (lines 38-47):
    [data.apply(fun, args=params)]. *)
Definition resolve (fun_ : strategy) (data : Series)
    (params : option (list value)) : M Series :=
  series_apply_args fun_ (extra_args params) data.

(** The object after [_fusion_init] ran to its end: every input is
    stored, and [index] holds the frame of the pair index. *)
Definition initialized (self : FuseLinks) (vectors_ : Vectors)
    (df_a_ df_b_ : option DataFrame) (predictions_ suffix_a_ suffix_b_ : value)
  : FuseLinks :=
  {| vectors := Some vectors_;
     index := Some (index_frame (vec_index vectors_));
     predictions := predictions_;
     df_a := df_a_; df_b := df_b_;
     suffix_a := suffix_a_; suffix_b := suffix_b_;
     resolution_queue := resolution_queue self;
     unique_a := unique_a self; unique_b := unique_b self |}.

(** [self.vectors = vectors] *)
Definition set_vectors (self : FuseLinks) (vectors_ : Vectors) : FuseLinks :=
  {| vectors := Some vectors_; index := index self;
     predictions := predictions self;
     df_a := df_a self; df_b := df_b self;
     suffix_a := suffix_a self; suffix_b := suffix_b self;
     resolution_queue := resolution_queue self;
     unique_a := unique_a self; unique_b := unique_b self |}.

(** [_fusion_init] (lines 95-102): [vectors] is stored first; when the
    conversion of the pair index raises, nothing else is stored. *)
Definition fusion_init (self : FuseLinks) (vectors_ : Vectors)
    (df_a_ df_b_ : option DataFrame) (predictions_ suffix_a_ suffix_b_ : value)
  : result unit * FuseLinks :=
  let self := set_vectors self vectors_ in
  match to_frame (vec_index vectors_) with
  | Err e => (Err e, self)
  | Ok frame =>
      (Ok tt,
       {| vectors := vectors self;
          index := Some frame;
          predictions := predictions_;
          df_a := df_a_; df_b := df_b_;
          suffix_a := suffix_a_; suffix_b := suffix_b_;
          resolution_queue := resolution_queue self;
          unique_a := unique_a self; unique_b := unique_b self |})
  end.

(** [_fusion_setup] of [FuseLinks]: [pass]. *)
Definition fusion_setup (self : FuseLinks) : FuseLinks := self.

(** *** [FuseLinks._make_resolution_series] *)

(** [self.index[key]] and [len(self.index)]; [self.index] is [None] until
    [_fusion_init] ran. *)
Definition index_getitem (idx : option DataFrame) (key : value)
  : result Series :=
  match idx with
  | None => Err TypeError
  | Some frame => df_getitem frame key
  end.

Definition index_len (idx : option DataFrame) : result nat :=
  match idx with
  | None => Err TypeError
  | Some frame => Ok (df_len frame)
  end.

(** [names[0]] *)
Definition first_name (names : list value) : result value :=
  match names with
  | [] => Err IndexError
  | n :: _ => Ok n
  end.

(** The loop [for _ in range(n): data.append(df[names[0]])]. *)
Fixpoint repeat_first_column (df : DataFrame) (names : list value) (n : nat)
  : result (list Series) :=
  match n with
  | O => Ok []
  | S n' =>
      (name <- first_name names ;;
       s <- df_getitem df name ;;
       rest <- repeat_first_column df names n' ;;
       Ok (s :: rest))%result
  end.

(** The loop [for name in names:
    data.append(df[name].loc[list(self.index[level])])]. *)
Fixpoint fetch_columns (df : DataFrame) (idx : option DataFrame) (level : Z)
    (names : list value) : result (list Series) :=
  match names with
  | [] => Ok []
  | name :: rest =>
      (col <- df_getitem df name ;;
       ids <- index_getitem idx (VInt level) ;;
       s <- loc col (series_values ids) ;;
       rest' <- fetch_columns df idx level rest ;;
       Ok (s :: rest'))%result
  end.

(** The loop [for _ in range(n): metadata.append(pd.Series(
    [const for _ in range(len(self.index))], index=self.index[level]))]. *)
Fixpoint static_columns (idx : option DataFrame) (level : Z) (const : value)
    (n : nat) : result (list Series) :=
  match n with
  | O => Ok []
  | S n' =>
      (len <- index_len idx ;;
       ids <- index_getitem idx (VInt level) ;;
       s <- series_with_index (repeat const len) (series_values ids) ;;
       rest <- static_columns idx level const n' ;;
       Ok (s :: rest))%result
  end.

(** [x is True] for a flag that is [True], [False] or [None]. *)
Definition is_True (flag : option bool) : bool :=
  match flag with Some true => true | _ => false end.

(** The value / metadata column correspondence of one side (lines
    198-232): [(generalize_values, generalize_meta)]. *)
Definition generalize_flags (use_meta static_meta : bool)
    (n_values n_meta : nat) : option bool * option bool :=
  if use_meta && negb static_meta then
    if (n_values <? n_meta)%nat then (Some true, Some false)
    else if (n_meta <? n_values)%nat then (Some false, Some true)
    else (Some false, Some false)
  else (None, None).

(** The value series of one side (lines 234-258). *)
Definition value_columns (df : DataFrame) (idx : option DataFrame) (level : Z)
    (generalize_values : option bool) (values meta : list value)
  : result (list Series) :=
  if is_True generalize_values
  then repeat_first_column df values (length meta)
  else fetch_columns df idx level values.

(** The metadata series of one side (lines 274-308). *)
Definition metadata_columns (df : DataFrame) (idx : option DataFrame)
    (level : Z) (static_meta : bool) (generalize_meta : option bool)
    (values : list value) (const : value) (meta : list value)
  : result (list Series) :=
  if static_meta then static_columns idx level const (length values)
  else if is_True generalize_meta
       then repeat_first_column df meta (length values)
       else fetch_columns df idx level meta.

(** [[s.apply(transform) for s in cols]] when [transform] is not [None]. *)
Definition transform_columns (transform : pyobj) (cols : list Series)
  : result (list Series) :=
  match transform with
  | PyNone => Ok cols
  | PyCallable f => apply_each f cols
  | PyOther _ => Err TypeError
  end.

(** The guards that open [_make_resolution_series] (lines 169-187); they
    return the two source tables. *)
Definition check_inputs (self : FuseLinks) (meta_a meta_b : value)
    (transform_vals transform_meta : pyobj)
  : result (DataFrame * DataFrame) :=
  match df_a self with
  | None => Err (AssertionError "df_a is None")
  | Some table_a =>
  match df_b self with
  | None => Err (AssertionError "df_b is None")
  | Some table_b =>
  if negb (py_is_none transform_vals) && negb (callable transform_vals)
  then Err (ValueError "transform_vals must be callable.")
  else if negb (py_is_none transform_meta) && negb (callable transform_meta)
  then Err (ValueError "transform_meta must be callable.")
  else if (is_none meta_a && negb (is_none meta_b))
          || (is_none meta_b && negb (is_none meta_a))
  then Err (AssertionError
              "Metadata was given for one Data Frame but not the other.")
  else Ok (table_a, table_b)
  end end.

(** The body of [_make_resolution_series] after the guards (lines
    181-328), in the order of the source: value series of A, of B, the
    value transform, then the metadata series of A, of B, the metadata
    transform, and the output series over the default index. *)
Definition align {L : Listify} (idx : option DataFrame)
    (table_a table_b : DataFrame)
    (values_a values_b meta_a meta_b : value)
    (transform_vals transform_meta : pyobj) (static_meta : bool)
  : result Series :=
  let values_a := listify values_a in
  let values_b := listify values_b in
  let use_meta := negb (is_none meta_a && is_none meta_b) in
  let cols_a := if use_meta && negb static_meta then listify meta_a else [] in
  let cols_b := if use_meta && negb static_meta then listify meta_b else [] in
  let '(generalize_values_a, generalize_meta_a) :=
    generalize_flags use_meta static_meta (length values_a) (length cols_a) in
  let '(generalize_values_b, generalize_meta_b) :=
    generalize_flags use_meta static_meta (length values_b) (length cols_b) in
  (data_a <- value_columns table_a idx 0 generalize_values_a values_a cols_a ;;
   data_b <- value_columns table_b idx 1 generalize_values_b values_b cols_b ;;
   value_data <- transform_columns transform_vals (data_a ++ data_b) ;;
   let value_data := zip_star (map series_values value_data) in
   if use_meta then
     metadata_a <- metadata_columns table_a idx 0 static_meta
                     generalize_meta_a values_a meta_a cols_a ;;
     metadata_b <- metadata_columns table_b idx 1 static_meta
                     generalize_meta_b values_b meta_b cols_b ;;
     metadata <- transform_columns transform_meta (metadata_a ++ metadata_b) ;;
     let metadata := zip_star (map series_values metadata) in
     Ok (series_of_list
           (map (fun p => VTuple [VTuple (fst p); VTuple (snd p)])
                (combine value_data metadata)))
   else
     Ok (series_of_list (map (fun t => VTuple [VTuple t]) value_data)))%result.

Definition make_resolution_series {L : Listify} (self : FuseLinks)
    (values_a values_b meta_a meta_b : value)
    (transform_vals transform_meta : pyobj) (static_meta : bool)
  : result Series :=
  (tables <- check_inputs self meta_a meta_b transform_vals transform_meta ;;
   align (index self) (fst tables) (snd tables)
         values_a values_b meta_a meta_b
         transform_vals transform_meta static_meta)%result.

(** *** [FuseCore.fuse] *)

(** The loop over [resolution_queue] that fills [fused] (lines 120-133). *)
Fixpoint resolve_queue {L : Listify} (self : FuseLinks) (queue : list Job)
  : M (list Series) :=
  match queue with
  | [] => mret []
  | job :: rest =>
      (data <~ lift (make_resolution_series self
                       (job_values_a job) (job_values_b job)
                       (job_meta_a job) (job_meta_b job)
                       (job_transform_vals job) (job_transform_meta job)
                       (job_static_meta job)) ;;
       col <~ resolve (job_fun job) data (job_params job) ;;
       cols <~ resolve_queue self rest ;;
       mret (col :: cols))%M
  end.

(** [fuse(vectors, df_a, df_b, predictions, suffix_a, suffix_b)] (lines
    104-135) on the object [self] with the generator in state [g]: the returned table or the
    exception, the object afterwards, and the generator afterwards. *)
Definition fuse {L : Listify} {P : Alignment} (self : FuseLinks)
    (vectors_ : Vectors) (df_a_ df_b_ : option DataFrame)
    (predictions_ suffix_a_ suffix_b_ : value) (g : rng)
  : result DataFrame * FuseLinks * rng :=
  match fusion_init self vectors_ df_a_ df_b_
                    predictions_ suffix_a_ suffix_b_ with
  | (Err e, self) => (Err e, self, g)
  | (Ok _, self) =>
      let self := fusion_setup self in
      let '(r, g') :=
        (fused <~ resolve_queue self (resolution_queue self) ;;
         lift (concat_axis1 fused))%M g in
      (r, self, g')
  end.

(* ================================================================== *)
(** ** Sample data *)

(** Modelled from the spec: [listify] of [recordlinkage.utils] is missing
    from the module's sources; the spec types [values_a] and [meta_a] as
    lists of column names, and the helper's use here is to accept a single
    name as well: a list is returned as it is, anything else becomes a
    one-element list. *)
Definition listify_list : Listify :=
  fun x => match x with VList items => items | _ => [x] end.

(** A sample alignment, that of columns of Python objects (strings,
    tuples): a reindexed column keeps its cells and is filled with [NaN]. *)
Definition object_padding : Alignment :=
  fun idx s =>
    map (fun l => match assoc l s with Some v => v | None => VNaN end) idx.

(** Table A: two records with a name and three trust columns. *)
Definition sample_a : DataFrame :=
  {| df_index := [VStr "a1"; VStr "a2"];
     df_columns :=
       [ (VStr "name", [VStr "Jon"; VStr "Ann"]);
         (VStr "t1", [VInt 1; VInt 4]);
         (VStr "t2", [VInt 2; VInt 5]);
         (VStr "t3", [VInt 3; VInt 6]) ] |}.

(** Table B: two records with a name and one trust column. *)
Definition sample_b : DataFrame :=
  {| df_index := [VStr "b1"; VStr "b2"];
     df_columns :=
       [ (VStr "name", [VStr "John"; VStr "Anne"]);
         (VStr "t", [VInt 7; VInt 8]) ] |}.

Definition unnamed_pairs (tuples : list (value * value)) : Vectors :=
  {| vec_index := {| mi_names := (None, None); mi_tuples := tuples |};
     vec_columns := [] |}.

Definition named_pairs (tuples : list (value * value)) : Vectors :=
  {| vec_index := {| mi_names := (Some (VStr "id_a"), Some (VStr "id_b"));
                     mi_tuples := tuples |};
     vec_columns := [] |}.

(** Pairs whose two levels carry the same name. *)
Definition same_named_pairs (tuples : list (value * value)) : Vectors :=
  {| vec_index := {| mi_names := (Some (VStr "id"), Some (VStr "id"));
                     mi_tuples := tuples |};
     vec_columns := [] |}.

(** Pairs whose second level only carries a name. *)
Definition half_named_pairs (tuples : list (value * value)) : Vectors :=
  {| vec_index := {| mi_names := (None, Some (VStr "id_b"));
                     mi_tuples := tuples |};
     vec_columns := [] |}.

(** A strategy that keeps the first candidate value of the record. *)
Definition first_value : strategy :=
  fun record _ g =>
    match record with
    | VTuple (VTuple (v :: _) :: _) => (Returns v, g)
    | _ => (Raises "IndexError", g)
    end.

(** A strategy that returns the aligned pair record as it is. *)
Definition keep_record : strategy := fun record _ g => (Returns record, g).

(** A strategy that returns the tuple of its extra arguments. *)
Definition keep_params : strategy := fun _ args g => (Returns (VTuple args), g).

(** A randomized strategy: it picks a candidate value by the generator
    state and advances the generator. *)
Definition pick_random : strategy :=
  fun record _ g =>
    match record with
    | VTuple (VTuple vs :: _) =>
        (Returns (nth (N.to_nat g mod length vs) vs VNone), N.succ g)
    | _ => (Raises "TypeError", g)
    end.

(** The faults the guards of [_make_resolution_series] look for: a missing
    source table, a transform that is given and is not callable, metadata
    given for exactly one side. *)
Definition misconfigured (table_a table_b : option DataFrame)
    (meta_a meta_b : value) (transform_vals transform_meta : pyobj) : bool :=
  match table_a with None => true | Some _ => false end
  || match table_b with None => true | Some _ => false end
  || (negb (py_is_none transform_vals) && negb (callable transform_vals))
  || (negb (py_is_none transform_meta) && negb (callable transform_meta))
  || xorb (is_none meta_a) (is_none meta_b).

(** The exceptions the guards raise. *)
Definition config_errors : list exn :=
  [ AssertionError "df_a is None";
    AssertionError "df_b is None";
    ValueError "transform_vals must be callable.";
    ValueError "transform_meta must be callable.";
    AssertionError "Metadata was given for one Data Frame but not the other." ].

(** The exceptions that can leave the body after the guards. *)
Definition alignment_error (e : exn) : bool :=
  match e with
  | KeyError | IndexError | TypeError | Raised _ => true
  | ValueError msg =>
      String.eqb msg "Length of values does not match length of index"
  | AssertionError _ => false
  end.


(** The calls made while a strategy is applied along a series: row by row,
    each call with the row's cell and the same extra arguments, the
    generator handed from one call to the next. *)
Inductive applied (f : strategy) (args : list value)
  : rng -> Series -> Series -> rng -> Prop :=
| applied_nil (g : rng) : applied f args g [] [] g
| applied_cons (g g1 g2 : rng) (l v r : value) (rest rest' : Series) :
    f v args g = (Returns r, g1) ->
    applied f args g1 rest rest' g2 ->
    applied f args g ((l, v) :: rest) ((l, r) :: rest') g2.

(** The job's arguments handed to [_make_resolution_series] by [fuse]. *)
Definition job_series {L : Listify} (self : FuseLinks) (job : Job)
  : result Series :=
  make_resolution_series self
    (job_values_a job) (job_values_b job) (job_meta_a job) (job_meta_b job)
    (job_transform_vals job) (job_transform_meta job) (job_static_meta job).

(** A strategy is pure when it leaves the random generator alone and its
    result does not depend on the generator. *)
Definition pure_strategy (f : strategy) : Prop :=
  forall v args g,
    snd (f v args g) = g /\ forall g', fst (f v args g') = fst (f v args g).

(** The result of a call of [fuse], without the states it leaves behind. *)
Definition fuse_result {A B C} (run : A * B * C) : A := fst (fst run).
Definition fuse_object {A B C} (run : A * B * C) : B := snd (fst run).

(** The levels of a pair index carry names when [to_frame] labels neither
    of its columns 0 or 1. *)
Definition levels_named (mi : MultiIndex) : bool :=
  forallb (fun l => negb (value_eqb l (VInt 0)) && negb (value_eqb l (VInt 1)))
          [ level_label 0 (fst (mi_names mi));
            level_label 1 (snd (mi_names mi)) ].

(** The value columns of a side are fetched at the pair index: there is at
    least one and the generalization of values does not apply. *)
Definition fetches_side {L : Listify} (values meta meta_a meta_b : value)
    (static_meta : bool) : bool :=
  let use_meta := negb (is_none meta_a && is_none meta_b) in
  let cols := if use_meta && negb static_meta then listify meta else [] in
  negb (is_True (fst (generalize_flags use_meta static_meta
                        (length (listify values)) (length cols))))
  && match listify values with [] => false | _ => true end.

(** A job that passes the guards and fetches value columns of a side at the
    pair index. *)
Definition fetches_values {L : Listify} (table_a table_b : option DataFrame)
    (job : Job) : bool :=
  negb (misconfigured table_a table_b (job_meta_a job) (job_meta_b job)
          (job_transform_vals job) (job_transform_meta job))
  && (fetches_side (job_values_a job) (job_meta_a job)
        (job_meta_a job) (job_meta_b job) (job_static_meta job)
      || fetches_side (job_values_b job) (job_meta_b job)
           (job_meta_a job) (job_meta_b job) (job_static_meta job)).

(** [name in df.columns] *)
Definition has_column (df : DataFrame) (name : value) : bool :=
  match assoc name (df_columns df) with Some _ => true | None => false end.

(** The frame of the pair index has no column labelled [level]. *)
Definition level_missing (mi : MultiIndex) (level : Z) : bool :=
  negb (has_column (index_frame mi) (VInt level)).

(** A job that passes the guards and fetches, at the pair index, value
    columns of a side whose label (0 for side A, 1 for side B) the frame
    of the pair index does not have. *)
Definition fetches_unaddressed {L : Listify} (mi : MultiIndex)
    (table_a table_b : option DataFrame) (job : Job) : bool :=
  negb (misconfigured table_a table_b (job_meta_a job) (job_meta_b job)
          (job_transform_vals job) (job_transform_meta job))
  && (fetches_side (job_values_a job) (job_meta_a job)
        (job_meta_a job) (job_meta_b job) (job_static_meta job)
      && level_missing mi 0
      || fetches_side (job_values_b job) (job_meta_b job)
           (job_meta_a job) (job_meta_b job) (job_static_meta job)
         && level_missing mi 1).

Definition is_empty {A} (l : list A) : bool :=
  match l with [] => true | _ => false end.

(** Every key the job looks up is there: the labels 0 and 1 in the frame of
    the pair index, the declared value columns in their tables and, when
    metadata is looked up per record, the declared metadata columns; a side
    that declares metadata columns declares a value column and conversely,
    so the broadcast column exists. *)
Definition lookups_resolve {L : Listify} (frame table_a table_b : DataFrame)
    (job : Job) : bool :=
  let values_a := listify (job_values_a job) in
  let values_b := listify (job_values_b job) in
  let use_meta := negb (is_none (job_meta_a job) && is_none (job_meta_b job)) in
  has_column frame (VInt 0) && has_column frame (VInt 1)
  && forallb (has_column table_a) values_a
  && forallb (has_column table_b) values_b
  && (if use_meta && negb (job_static_meta job) then
        let cols_a := listify (job_meta_a job) in
        let cols_b := listify (job_meta_b job) in
        forallb (has_column table_a) cols_a
        && forallb (has_column table_b) cols_b
        && Bool.eqb (is_empty values_a) (is_empty cols_a)
        && Bool.eqb (is_empty values_b) (is_empty cols_b)
      else true).

(** A transform that returns a value for every argument. *)
Definition returns_always (transform : pyobj) : Prop :=
  match transform with
  | PyCallable f => forall v, exists w, f v = Returns w
  | _ => True
  end.

(** A valid job for the given inputs: it passes the guards, its lookups
    resolve and its transforms return. *)
Definition valid_job {L : Listify} (frame : DataFrame)
    (table_a table_b : option DataFrame) (job : Job) : Prop :=
  match table_a, table_b with
  | Some ta, Some tb =>
      misconfigured table_a table_b (job_meta_a job) (job_meta_b job)
        (job_transform_vals job) (job_transform_meta job) = false
      /\ lookups_resolve frame ta tb job = true
      /\ returns_always (job_transform_vals job)
      /\ returns_always (job_transform_meta job)
  | _, _ => False
  end.

(** The lengths of a list of series. *)
Definition lens (cols : list Series) : list nat := map (@length _) cols.

(** An engine with one job: keep the first of the two names. *)
Definition names_engine : FuseLinks :=
  queue_resolve_defaults (FuseLinks_init false false)
    first_value (VStr "name") (VStr "name").

(** The job that [names_engine] holds. *)
Definition names_job : Job :=
  {| job_fun := first_value;
     job_values_a := VStr "name";
     job_values_b := VStr "name";
     job_meta_a := VNone;
     job_meta_b := VNone;
     job_transform_vals := PyNone;
     job_transform_meta := PyNone;
     job_static_meta := false;
     job_params := None;
     job_kwargs := [] |}.

(** A job that reads the name of side A only. *)
Definition name_a_job : Job :=
  {| job_fun := first_value;
     job_values_a := VStr "name";
     job_values_b := VList [];
     job_meta_a := VNone;
     job_meta_b := VNone;
     job_transform_vals := PyNone;
     job_transform_meta := PyNone;
     job_static_meta := false;
     job_params := None;
     job_kwargs := [] |}.

(** Two matched pairs, in an order that differs from the tables' order. *)
Definition two_pairs : Vectors :=
  unnamed_pairs [(VStr "a2", VStr "b1"); (VStr "a1", VStr "b2")].

(** The table [fuse] returns for [names_engine] on [two_pairs]. *)
Definition names_table : DataFrame :=
  {| df_index := [VInt 0; VInt 1];
     df_columns := [(VInt 0, [VStr "Ann"; VStr "Jon"])] |}.

(** What a transform makes of a cell: nothing when it is [None], the value
    it returns when it is a function. *)
Definition transformed (transform : pyobj) (raw cell : value) : Prop :=
  match transform with
  | PyNone => cell = raw
  | PyCallable f => f raw = Returns cell
  | PyOther _ => False
  end.

(** A transform of metadata that ranks every source 0. *)
Definition rank_zero : pyobj := PyCallable (fun _ => Returns (VInt 0)).

(** An object in the state [fuse] puts it in before it builds the series:
    the sample tables and [two_pairs] are stored. *)
Definition loaded : FuseLinks :=
  initialized (FuseLinks_init false false) two_pairs
    (Some sample_a) (Some sample_b) VNone (VStr "_a") (VStr "_b").

(** The cell that column [name] of table [df] holds for record [id], as the
    value transform leaves it. *)
Definition fetched (df : DataFrame) (transform : pyobj) (id name cell : value)
  : Prop :=
  exists col raw,
    df_getitem df name = Ok col
    /\ In (id, raw) col
    /\ transformed transform raw cell.

(** No generalization applies to the job: it has no metadata, or static
    metadata, or as many metadata columns as value columns on each side. *)
Definition no_generalization {L : Listify}
    (values_a values_b meta_a meta_b : value) (static_meta : bool) : Prop :=
  is_none meta_a && is_none meta_b = true
  \/ static_meta = true
  \/ (length (listify values_a) = length (listify meta_a)
      /\ length (listify values_b) = length (listify meta_b)).

(** A job whose columns are fetched directly: no generalization applies
    and it declares a value column. *)
Definition direct_job {L : Listify} (job : Job) : Prop :=
  no_generalization (job_values_a job) (job_values_b job)
                    (job_meta_a job) (job_meta_b job) (job_static_meta job)
  /\ listify (job_values_a job) ++ listify (job_values_b job) <> [].

(** Row [res] of the output column of [job] holds what the strategy of the
    job returned on the record of the pair [matched]: a record whose values
    tuple lists the cells of the job's side-A columns at the pair's A record
    followed by those of its side-B columns at the pair's B record. *)
Definition resolved_for {L : Listify} (table_a table_b : DataFrame)
    (job : Job) (matched res : value * value) : Prop :=
  exists cells_a cells_b rest gi gi',
    Forall2 (fetched table_a (job_transform_vals job) (fst matched))
            (listify (job_values_a job)) cells_a
    /\ Forall2 (fetched table_b (job_transform_vals job) (snd matched))
               (listify (job_values_b job)) cells_b
    /\ job_fun job (VTuple (VTuple (cells_a ++ cells_b) :: rest))
                (extra_args (job_params job)) gi
       = (Returns (snd res), gi').

(* ================================================================== *)
(** ** The conflict resolution realizations of [FuseCore] *)

(** The conflict resolution functions the realizations name are imported
    from [recordlinkage.algorithms.conflict_resolution]; their definitions
    lie outside [fuse.py], and the realizations are parametric in them. *)
Class Strategies : Type := {
  choose : strategy;
  no_gossip : strategy;
  choose_random : strategy;
  vote : strategy
}.

(** [trust_your_friends(c1, c2, trusted)] (lines 78-79) *)
Definition trust_your_friends {S : Strategies} (self : FuseLinks)
    (c1 c2 trusted : value) : FuseLinks :=
  queue_resolve self choose c1 c2 (VStr "a") (VStr "b")
    PyNone PyNone true (Some [trusted]) [].

(** [no_gossiping(c1, c2)] (lines 81-82) *)
Definition no_gossiping {S : Strategies} (self : FuseLinks) (c1 c2 : value)
  : FuseLinks :=
  queue_resolve_defaults self no_gossip c1 c2.

(** [roll_the_dice(c1, c2)] (lines 84-85) *)
Definition roll_the_dice {S : Strategies} (self : FuseLinks) (c1 c2 : value)
  : FuseLinks :=
  queue_resolve_defaults self choose_random c1 c2.

(** [cry_with_the_wolves(c1, c2)] (lines 87-88) *)
Definition cry_with_the_wolves {S : Strategies} (self : FuseLinks)
    (c1 c2 : value) : FuseLinks :=
  queue_resolve_defaults self vote c1 c2.

(** The number of slots a side contributes to the values tuple and to the
    metadata tuple of a record that carries metadata: the value columns
    when the metadata is static, and otherwise the larger of the value and
    metadata column counts. *)
Definition side_slots (static_meta : bool) (n_values n_meta : nat) : nat :=
  if static_meta then n_values else Nat.max n_values n_meta.

(** Sample realizations: every imported function is [first_value]. *)
Definition sample_strategies : Strategies :=
  {| choose := first_value; no_gossip := first_value;
     choose_random := pick_random; vote := first_value |}.
(* ================================================================== *)
(** ** Basic facts *)

Lemma value_ind (P : value -> Prop)
    (HNone : P VNone) (HNaN : P VNaN)
    (HInt : forall z, P (VInt z)) (HStr : forall s, P (VStr s))
    (HTuple : forall items, Forall P items -> P (VTuple items))
    (HList : forall items, Forall P items -> P (VList items)) :
  forall v, P v.
Proof.
  fix IH 1.
  intros [ | | z | s | items | items].
  - exact HNone.
  - exact HNaN.
  - apply HInt.
  - apply HStr.
  - apply HTuple. induction items as [|x xs IHxs]; constructor.
    + apply IH.
    + exact IHxs.
  - apply HList. induction items as [|x xs IHxs]; constructor.
    + apply IH.
    + exact IHxs.
Qed.

Lemma value_eqb_true_eq (x y : value) : value_eqb x y = true -> x = y.
Proof.
  revert y. induction x as [ | | z | s | items IH | items IH] using value_ind;
    intros [ | | z' | s' | items' | items']; simpl; try discriminate; auto.
  - intros H. apply Z.eqb_eq in H. now subst.
  - intros H. apply String.eqb_eq in H. now subst.
  - intros H. f_equal. revert items' H.
    induction IH as [|x xs Hx _ IHxs]; intros [|y ys] H; try discriminate; auto.
    apply andb_true_iff in H as [H1 H2].
    f_equal; auto.
  - intros H. f_equal. revert items' H.
    induction IH as [|x xs Hx _ IHxs]; intros [|y ys] H; try discriminate; auto.
    apply andb_true_iff in H as [H1 H2].
    f_equal; auto.
Qed.

Lemma value_eqb_refl (x : value) : value_eqb x x = true.
Proof.
  induction x as [ | | z | s | items IH | items IH] using value_ind;
    simpl; auto using Z.eqb_refl, String.eqb_refl.
  - induction IH as [|x xs Hx _ IHxs]; auto. now rewrite Hx, IHxs.
  - induction IH as [|x xs Hx _ IHxs]; auto. now rewrite Hx, IHxs.
Qed.

Lemma value_eqb_false_neq (x y : value) : value_eqb x y = false -> x <> y.
Proof.
  intros H ->. rewrite value_eqb_refl in H. discriminate.
Qed.

Lemma rbind_Ok {A B} (r : result A) (k : A -> result B) (b : B) :
  rbind r k = Ok b -> exists a, r = Ok a /\ k a = Ok b.
Proof. destruct r; simpl; intros H; [eauto | discriminate]. Qed.

Lemma rbind_Err {A B} (r : result A) (k : A -> result B) (e : exn) :
  rbind r k = Err e -> r = Err e \/ exists a, r = Ok a /\ k a = Err e.
Proof. destruct r; simpl; intros H; [eauto | left; congruence]. Qed.

(** Splits a successful sequence of binds into its steps. *)
Ltac ok_steps H :=
  repeat match type of H with
         | rbind _ _ = Ok _ =>
             let a := fresh "a" in
             let Ha := fresh "Ha" in
             apply rbind_Ok in H as (a & Ha & H)
         end.

(** Follows a failing sequence of binds to the step that failed. *)
Ltac err_steps H :=
  repeat match type of H with
         | rbind _ _ = Err _ =>
             let a := fresh "a" in
             let Ha := fresh "Ha" in
             apply rbind_Err in H as [H | (a & Ha & H)]
         end.

(* ================================================================== *)
(** ** Which exceptions each step can raise *)

Lemma df_getitem_error (df : DataFrame) (key : value) (e : exn) :
  df_getitem df key = Err e -> e = KeyError.
Proof.
  unfold df_getitem. destruct (assoc key (df_columns df)); congruence.
Qed.

Lemma index_getitem_error (idx : option DataFrame) (key : value) (e : exn) :
  index_getitem idx key = Err e ->
  e = KeyError \/ (idx = None /\ e = TypeError).
Proof.
  destruct idx as [frame|]; simpl.
  - intros H. left. eapply df_getitem_error; eauto.
  - intros H. right. split; congruence.
Qed.

Lemma loc_error (s : Series) (keys : list value) (e : exn) :
  loc s keys = Err e -> e = KeyError.
Proof.
  induction keys as [|k ks IH]; simpl; [discriminate|].
  destruct (rows_at s k); [congruence|].
  intros H. err_steps H; auto. discriminate.
Qed.

Lemma first_name_error (names : list value) (e : exn) :
  first_name names = Err e -> e = IndexError.
Proof. destruct names; simpl; congruence. Qed.

Lemma series_apply_error (f : value -> outcome) (s : Series) (e : exn) :
  series_apply f s = Err e -> exists w, e = Raised w.
Proof.
  induction s as [|[l v] rest IH]; simpl; [discriminate|].
  destruct (f v) as [v'|w].
  - intros H. err_steps H; auto. discriminate.
  - intros H. exists w. congruence.
Qed.

Lemma apply_each_error (f : value -> outcome) (cols : list Series) (e : exn) :
  apply_each f cols = Err e -> exists w, e = Raised w.
Proof.
  induction cols as [|s rest IH]; simpl; [discriminate|].
  intros H. err_steps H; eauto using series_apply_error. discriminate.
Qed.

Lemma transform_columns_error (t : pyobj) (cols : list Series) (e : exn) :
  transform_columns t cols = Err e ->
  (exists w, e = Raised w) \/ (callable t = false /\ e = TypeError).
Proof.
  destruct t as [|f|v]; simpl.
  - discriminate.
  - intros H. left. eapply apply_each_error; eauto.
  - intros H. right. split; congruence.
Qed.

Lemma repeat_first_column_error (df : DataFrame) (names : list value)
    (n : nat) (e : exn) :
  repeat_first_column df names n = Err e -> is_lookup_error e = true.
Proof.
  induction n as [|n IH]; simpl; [discriminate|].
  intros H. err_steps H; auto.
  - apply first_name_error in H. now subst.
  - apply df_getitem_error in H. now subst.
  - discriminate.
Qed.

Lemma fetch_columns_error (df : DataFrame) (idx : option DataFrame)
    (level : Z) (names : list value) (e : exn) :
  fetch_columns df idx level names = Err e ->
  e = KeyError \/ (idx = None /\ e = TypeError).
Proof.
  induction names as [|name rest IH]; simpl; [discriminate|].
  intros H. err_steps H; auto.
  - left. eapply df_getitem_error; eauto.
  - eapply index_getitem_error; eauto.
  - left. eapply loc_error; eauto.
  - discriminate.
Qed.

Lemma static_columns_error (idx : option DataFrame) (level : Z)
    (const : value) (n : nat) (e : exn) :
  static_columns idx level const n = Err e -> alignment_error e = true.
Proof.
  induction n as [|n IH]; simpl; [discriminate|].
  intros H. err_steps H; auto.
  - destruct idx; simpl in H; [discriminate|]. now inversion H.
  - apply index_getitem_error in H as [->|[_ ->]]; reflexivity.
  - unfold series_with_index in H.
    destruct (Nat.eqb _ _); [discriminate|]. now inversion H.
  - discriminate.
Qed.

Lemma value_columns_error (df : DataFrame) (idx : option DataFrame)
    (level : Z) (flag : option bool) (values meta : list value) (e : exn) :
  value_columns df idx level flag values meta = Err e ->
  is_lookup_error e = true \/ (idx = None /\ e = TypeError).
Proof.
  unfold value_columns. destruct (is_True flag); intros H.
  - left. eapply repeat_first_column_error; eauto.
  - apply fetch_columns_error in H as [->|H]; auto.
Qed.

Lemma metadata_columns_error (df : DataFrame) (idx : option DataFrame)
    (level : Z) (static_meta : bool) (flag : option bool)
    (values : list value) (const : value) (meta : list value) (e : exn) :
  metadata_columns df idx level static_meta flag values const meta = Err e ->
  alignment_error e = true.
Proof.
  unfold metadata_columns. destruct static_meta.
  - apply static_columns_error.
  - destruct (is_True flag); intros H.
    + apply repeat_first_column_error in H. now destruct e.
    + apply fetch_columns_error in H as [->|[_ ->]]; reflexivity.
Qed.

Lemma lookup_error_alignment (e : exn) :
  is_lookup_error e = true -> alignment_error e = true.
Proof. destruct e; simpl; congruence. Qed.

Lemma align_error {L : Listify} (idx : option DataFrame)
    (table_a table_b : DataFrame) (values_a values_b meta_a meta_b : value)
    (transform_vals transform_meta : pyobj) (static_meta : bool) (e : exn) :
  align idx table_a table_b values_a values_b meta_a meta_b
        transform_vals transform_meta static_meta = Err e ->
  alignment_error e = true.
Proof.
  unfold align.
  destruct (generalize_flags _ _ (length (listify values_a)) _) as [gva gma].
  destruct (generalize_flags _ _ (length (listify values_b)) _) as [gvb gmb].
  intros H. err_steps H.
  - apply value_columns_error in H as [H|[_ ->]];
      auto using lookup_error_alignment.
  - apply value_columns_error in H as [H|[_ ->]];
      auto using lookup_error_alignment.
  - apply transform_columns_error in H as [[w ->]|[_ ->]]; reflexivity.
  - destruct (negb (is_none meta_a && is_none meta_b)); [|discriminate].
    err_steps H; eauto using metadata_columns_error.
    + apply transform_columns_error in H as [[w ->]|[_ ->]]; reflexivity.
    + discriminate.
Qed.

Lemma alignment_error_not_config (e : exn) :
  alignment_error e = true -> ~ In e config_errors.
Proof.
  intros He Hin. unfold config_errors in Hin. simpl in Hin.
  repeat match goal with
         | H : _ \/ _ |- _ => destruct H as [H|H]
         end;
    try contradiction; subst e; discriminate He.
Qed.

Lemma check_inputs_spec (self : FuseLinks) (meta_a meta_b : value)
    (transform_vals transform_meta : pyobj) :
  match check_inputs self meta_a meta_b transform_vals transform_meta with
  | Ok (table_a, table_b) =>
      misconfigured (df_a self) (df_b self) meta_a meta_b
        transform_vals transform_meta = false
      /\ df_a self = Some table_a /\ df_b self = Some table_b
  | Err e =>
      misconfigured (df_a self) (df_b self) meta_a meta_b
        transform_vals transform_meta = true
      /\ In e config_errors
  end.
Proof.
  unfold check_inputs, misconfigured, config_errors.
  destruct (df_a self) as [ta|]; [|simpl; auto].
  destruct (df_b self) as [tb|]; [|simpl; auto].
  destruct transform_vals as [|fv|ov]; simpl;
    destruct transform_meta as [|fm|om]; simpl;
    destruct (is_none meta_a), (is_none meta_b); simpl; auto 10.
Qed.

(* ================================================================== *)
(** ** The guards of [_make_resolution_series] *)

(** C5: building the resolution series fails fast.  Whenever a source table
    is missing, a supplied transform is not callable, or metadata is given
    for exactly one side, the call raises one of the guards' exceptions, and
    it is raised by the guards themselves, which read neither the value
    columns nor the pair index, so nothing is produced for the job; when
    none of these faults is present, no exception of the guards is raised. *)
Theorem validation_fails_fast {L : Listify} (self : FuseLinks)
    (values_a values_b meta_a meta_b : value)
    (transform_vals transform_meta : pyobj) (static_meta : bool) :
  (misconfigured (df_a self) (df_b self) meta_a meta_b
     transform_vals transform_meta = true ->
   exists e,
     In e config_errors
     /\ check_inputs self meta_a meta_b transform_vals transform_meta = Err e
     /\ make_resolution_series self values_a values_b meta_a meta_b
          transform_vals transform_meta static_meta = Err e)
  /\
  (misconfigured (df_a self) (df_b self) meta_a meta_b
     transform_vals transform_meta = false ->
   forall e,
     make_resolution_series self values_a values_b meta_a meta_b
       transform_vals transform_meta static_meta = Err e ->
     ~ In e config_errors).
Proof.
  pose proof (check_inputs_spec self meta_a meta_b
                transform_vals transform_meta) as Hc.
  unfold make_resolution_series.
  destruct (check_inputs self meta_a meta_b transform_vals transform_meta)
    as [[ta tb]|e0].
  - destruct Hc as (Hm & _ & _). split; [congruence|].
    intros _ e He. simpl in He.
    apply alignment_error_not_config. eapply align_error; eauto.
  - destruct Hc as (Hm & Hin). split; [|congruence].
    intros _. exists e0. auto.
Qed.

Lemma validation_fails_fast_witness :
  (exists e,
      In e config_errors
      /\ check_inputs (FuseLinks_init false false) (VStr "t") VNone
           PyNone PyNone = Err e
      /\ make_resolution_series (L:=listify_list) (FuseLinks_init false false)
           (VStr "name") (VStr "name") (VStr "t") VNone
           PyNone PyNone false = Err e)
  /\
  (forall e,
      make_resolution_series (L:=listify_list)
        (initialized (FuseLinks_init false false) (named_pairs [])
           (Some sample_a) (Some sample_b) VNone (VStr "_a") (VStr "_b"))
        (VStr "name") (VStr "name") VNone VNone PyNone PyNone false = Err e ->
      ~ In e config_errors).
Proof.
  split.
  - apply (validation_fails_fast (L:=listify_list)). reflexivity.
  - apply (validation_fails_fast (L:=listify_list)). reflexivity.
Defined.

(* ================================================================== *)
(** ** Applying the strategy *)

Lemma series_apply_args_applied (f : strategy) (args : list value)
    (data col : Series) (g g' : rng) :
  series_apply_args f args data g = (Ok col, g') <->
  applied f args g data col g'.
Proof.
  split.
  - revert col g. induction data as [|[l v] rest IH]; intros col g H.
    + simpl in H. unfold mret in H. inversion H; subst. constructor.
    + simpl in H. destruct (f v args g) as [[r|w] g1] eqn:Hf; [|discriminate].
      unfold mbind in H.
      destruct (series_apply_args f args rest g1) as [[rest'|e] g2] eqn:Hr;
        [|discriminate].
      unfold mret in H. inversion H; subst.
      econstructor; eauto.
  - induction 1 as [g|g g1 g2 l v r rest rest' Hf _ IH]; simpl.
    + reflexivity.
    + rewrite Hf. unfold mbind. now rewrite IH.
Qed.

Lemma resolve_queue_cons_Ok {L : Listify} (self : FuseLinks) (job : Job)
    (rest : list Job) (g g' : rng) (cols : list Series) :
  resolve_queue self (job :: rest) g = (Ok cols, g') ->
  exists data col cols' g1,
    job_series self job = Ok data
    /\ resolve (job_fun job) data (job_params job) g = (Ok col, g1)
    /\ resolve_queue self rest g1 = (Ok cols', g')
    /\ cols = col :: cols'.
Proof.
  simpl. unfold mbind, lift, job_series.
  destruct (make_resolution_series self _ _ _ _ _ _ _) as [data|e];
    [|discriminate].
  destruct (resolve (job_fun job) data (job_params job) g)
    as [[col|e] g1] eqn:Hcol; [|discriminate].
  destruct (resolve_queue self rest g1) as [[cols'|e] g2] eqn:Hrest;
    [|discriminate].
  unfold mret. intros H. inversion H; subst.
  exists data, col, cols', g1. auto.
Qed.

Lemma resolve_queue_Ok_jobs {L : Listify} (self : FuseLinks)
    (queue : list Job) (g g' : rng) (cols : list Series) :
  resolve_queue self queue g = (Ok cols, g') ->
  Forall2 (fun job col =>
             exists data gi gi',
               job_series self job = Ok data
               /\ applied (job_fun job) (extra_args (job_params job))
                          gi data col gi')
          queue cols.
Proof.
  revert g cols. induction queue as [|job rest IH]; intros g cols H.
  - simpl in H. unfold mret in H. inversion H. constructor.
  - apply resolve_queue_cons_Ok in H
      as (data & col & cols' & g1 & Hd & Hc & Hr & ->).
    constructor; eauto.
    exists data, g, g1. split; auto.
    now apply series_apply_args_applied.
Qed.

(** *** The conversion of the pair index *)

Lemma to_frame_converted (mi : MultiIndex) :
  labels_distinct mi = true -> to_frame mi = Ok (index_frame mi).
Proof. unfold to_frame. now intros ->. Qed.

Lemma to_frame_refused (mi : MultiIndex) :
  labels_distinct mi = false -> to_frame mi = Err duplicate_labels.
Proof. unfold to_frame. now intros ->. Qed.

Lemma to_frame_Ok (mi : MultiIndex) (frame : DataFrame) :
  to_frame mi = Ok frame ->
  labels_distinct mi = true /\ frame = index_frame mi.
Proof.
  unfold to_frame. destruct (labels_distinct mi); [|discriminate].
  intros H. injection H as <-. auto.
Qed.

Lemma fusion_init_converted (self : FuseLinks) (vectors_ : Vectors)
    (df_a_ df_b_ : option DataFrame)
    (predictions_ suffix_a_ suffix_b_ : value) :
  labels_distinct (vec_index vectors_) = true ->
  fusion_init self vectors_ df_a_ df_b_ predictions_ suffix_a_ suffix_b_
  = (Ok tt,
     initialized self vectors_ df_a_ df_b_ predictions_ suffix_a_ suffix_b_).
Proof.
  intros Hd. unfold fusion_init. now rewrite (to_frame_converted _ Hd).
Qed.

Lemma fusion_init_refused (self : FuseLinks) (vectors_ : Vectors)
    (df_a_ df_b_ : option DataFrame)
    (predictions_ suffix_a_ suffix_b_ : value) :
  labels_distinct (vec_index vectors_) = false ->
  fusion_init self vectors_ df_a_ df_b_ predictions_ suffix_a_ suffix_b_
  = (Err duplicate_labels, set_vectors self vectors_).
Proof.
  intros Hd. unfold fusion_init. now rewrite (to_frame_refused _ Hd).
Qed.

(** After a conversion that succeeds, [fuse] runs the queue on the
    initialized object. *)
Lemma fuse_converted {L : Listify} {P : Alignment} (self : FuseLinks)
    (vectors_ : Vectors) (df_a_ df_b_ : option DataFrame)
    (predictions_ suffix_a_ suffix_b_ : value) (g : rng) :
  labels_distinct (vec_index vectors_) = true ->
  fuse self vectors_ df_a_ df_b_ predictions_ suffix_a_ suffix_b_ g
  = let object := initialized self vectors_ df_a_ df_b_
                    predictions_ suffix_a_ suffix_b_ in
    let '(r, g') :=
      (fused <~ resolve_queue object (resolution_queue object) ;;
       lift (concat_axis1 fused))%M g in
    (r, object, g').
Proof.
  intros Hd. unfold fuse.
  now rewrite (fusion_init_converted _ _ _ _ _ _ _ Hd).
Qed.

(** A conversion that fails ends [fuse]: the queue is not read. *)
Lemma fuse_refused {L : Listify} {P : Alignment} (self : FuseLinks)
    (vectors_ : Vectors) (df_a_ df_b_ : option DataFrame)
    (predictions_ suffix_a_ suffix_b_ : value) (g : rng) :
  labels_distinct (vec_index vectors_) = false ->
  fuse self vectors_ df_a_ df_b_ predictions_ suffix_a_ suffix_b_ g
  = (Err duplicate_labels, set_vectors self vectors_, g).
Proof.
  intros Hd. unfold fuse.
  now rewrite (fusion_init_refused _ _ _ _ _ _ _ Hd).
Qed.

Lemma fuse_Ok_converted {L : Listify} {P : Alignment} (self : FuseLinks)
    (vectors_ : Vectors) (df_a_ df_b_ : option DataFrame)
    (predictions_ suffix_a_ suffix_b_ : value) (g : rng) (table : DataFrame) :
  fuse_result (fuse self vectors_ df_a_ df_b_
                 predictions_ suffix_a_ suffix_b_ g) = Ok table ->
  labels_distinct (vec_index vectors_) = true.
Proof.
  destruct (labels_distinct (vec_index vectors_)) eqn:Hd; [reflexivity|].
  rewrite (fuse_refused _ _ _ _ _ _ _ _ Hd). discriminate.
Qed.

Lemma fuse_Ok_columns {L : Listify} {P : Alignment} (self : FuseLinks)
    (vectors_ : Vectors) (df_a_ df_b_ : option DataFrame)
    (predictions_ suffix_a_ suffix_b_ : value) (g : rng) (table : DataFrame) :
  fuse_result (fuse self vectors_ df_a_ df_b_
                 predictions_ suffix_a_ suffix_b_ g) = Ok table ->
  exists cols g',
    resolve_queue (initialized self vectors_ df_a_ df_b_
                     predictions_ suffix_a_ suffix_b_)
                  (resolution_queue self) g = (Ok cols, g')
    /\ concat_axis1 cols = Ok table.
Proof.
  intros H. pose proof (fuse_Ok_converted _ _ _ _ _ _ _ _ _ H) as Hd.
  rewrite (fuse_converted _ _ _ _ _ _ _ _ Hd) in H. revert H.
  unfold fuse_result, mbind. simpl.
  destruct (resolve_queue _ (resolution_queue self) g)
    as [[cols|e] g1] eqn:Hrun; [|discriminate].
  unfold lift. simpl. intros Hcat. eauto.
Qed.

(** C6 (amended): for every queued job, [fuse] applies the job's strategy to
    each aligned pair record, passing the job's parameters as extra
    positional arguments on every call; a job queued without parameters
    stores [None] (not the empty tuple), which is applied like the empty
    tuple, so the strategy receives only the aligned pair record. *)
Theorem strategy_receives_params {L : Listify} {P : Alignment} :
  (forall f data params g col g',
      resolve f data params g = (Ok col, g') <->
      applied f (extra_args params) g data col g')
  /\
  (forall self vectors_ df_a_ df_b_ predictions_ suffix_a_ suffix_b_ g table,
      fuse_result (fuse self vectors_ df_a_ df_b_
                     predictions_ suffix_a_ suffix_b_ g) = Ok table ->
      exists cols,
        Forall2 (fun job col =>
                   exists data gi gi',
                     job_series (initialized self vectors_ df_a_ df_b_
                                   predictions_ suffix_a_ suffix_b_) job
                     = Ok data
                     /\ applied (job_fun job) (extra_args (job_params job))
                                gi data col gi')
                (resolution_queue self) cols
        /\ concat_axis1 cols = Ok table)
  /\
  (forall self f values_a values_b,
      exists job,
        resolution_queue (queue_resolve_defaults self f values_a values_b)
        = resolution_queue self ++ [job]
        /\ job_fun job = f
        /\ job_params job = None
        /\ extra_args (job_params job) = []).
Proof.
  split; [|split].
  - intros. unfold resolve. apply series_apply_args_applied.
  - intros self vectors_ df_a_ df_b_ predictions_ suffix_a_ suffix_b_ g table H.
    apply fuse_Ok_columns in H as (cols & g' & Hrun & Hcat).
    exists cols. split; [|exact Hcat].
    eapply resolve_queue_Ok_jobs; eauto.
  - intros. eexists. simpl. repeat split.
Qed.

Lemma strategy_receives_params_witness :
  applied keep_params (extra_args None) 0%N
    [(VInt 0, VStr "Jon"); (VInt 1, VStr "Ann")]
    [(VInt 0, VTuple []); (VInt 1, VTuple [])] 0%N.
Proof.
  apply (proj1 (strategy_receives_params (L:=listify_list)
                  (P:=object_padding))).
  reflexivity.
Defined.

(** C6 (as stated) fails: the job queued without explicit parameters stores
    [None], not the empty tuple. *)
Lemma default_params_not_empty_tuple :
  map job_params
      (resolution_queue
         (queue_resolve_defaults (FuseLinks_init false false)
            keep_record (VStr "name") (VStr "name")))
  <> [Some []].
Proof. simpl. discriminate. Qed.

(* ================================================================== *)
(** ** The empty queue *)

(** C10 (amended): for every input, [fuse] on an engine whose resolution
    queue is empty returns no table.  When the pair index converts to a
    frame (its two column labels differ) the error is that of the final
    column concatenation, there being nothing to concatenate, and the
    inputs are stored; when the two labels are equal the error is that of
    the conversion, raised before the queue is read. *)
Theorem fuse_empty_queue_raises {L : Listify} {P : Alignment}
    (self : FuseLinks) (vectors_ : Vectors) (df_a_ df_b_ : option DataFrame)
    (predictions_ suffix_a_ suffix_b_ : value) (g : rng) :
  resolution_queue self = [] ->
  let run := fuse self vectors_ df_a_ df_b_
               predictions_ suffix_a_ suffix_b_ g in
  (forall table, fuse_result run <> Ok table)
  /\ (labels_distinct (vec_index vectors_) = true ->
      run = (Err (ValueError "No objects to concatenate"),
             initialized self vectors_ df_a_ df_b_
               predictions_ suffix_a_ suffix_b_,
             g))
  /\ (labels_distinct (vec_index vectors_) = false ->
      run = (Err duplicate_labels, set_vectors self vectors_, g)).
Proof.
  intros Hq run.
  assert (Hc : labels_distinct (vec_index vectors_) = true ->
               run = (Err (ValueError "No objects to concatenate"),
                      initialized self vectors_ df_a_ df_b_
                        predictions_ suffix_a_ suffix_b_,
                      g)).
  { intros Hd. unfold run. rewrite (fuse_converted _ _ _ _ _ _ _ _ Hd).
    simpl. rewrite Hq. reflexivity. }
  assert (Hr : labels_distinct (vec_index vectors_) = false ->
               run = (Err duplicate_labels, set_vectors self vectors_, g)).
  { intros Hd. unfold run. now apply fuse_refused. }
  split; [|split; assumption].
  intros table.
  destruct (labels_distinct (vec_index vectors_)).
  - rewrite (Hc eq_refl). discriminate.
  - rewrite (Hr eq_refl). discriminate.
Qed.

Lemma fuse_empty_queue_raises_witness :
  resolution_queue (FuseLinks_init false false) = []
  /\ fuse (L:=listify_list) (P:=object_padding) (FuseLinks_init false false)
       (unnamed_pairs [(VStr "a1", VStr "b1")])
       (Some sample_a) (Some sample_b) VNone (VStr "_a") (VStr "_b") 0%N
     = (Err (ValueError "No objects to concatenate"),
        initialized (FuseLinks_init false false)
          (unnamed_pairs [(VStr "a1", VStr "b1")])
          (Some sample_a) (Some sample_b) VNone (VStr "_a") (VStr "_b"),
        0%N).
Proof.
  split; [reflexivity|].
  apply (fuse_empty_queue_raises (L:=listify_list) (P:=object_padding)
           (FuseLinks_init false false)
           (unnamed_pairs [(VStr "a1", VStr "b1")])
           (Some sample_a) (Some sample_b) VNone (VStr "_a") (VStr "_b") 0%N
           eq_refl).
  reflexivity.
Defined.

(** C10 (as stated) fails: on a pair index whose two levels carry the same
    name, [fuse] with an empty queue raises the error of the conversion of
    the index, not that of the column concatenation. *)
Lemma empty_queue_conversion_error :
  resolution_queue (FuseLinks_init false false) = []
  /\ fuse_result
       (fuse (L:=listify_list) (P:=object_padding)
          (FuseLinks_init false false)
          (same_named_pairs [(VStr "a1", VStr "b1")])
          (Some sample_a) (Some sample_b) VNone (VStr "_a") (VStr "_b") 0%N)
     = Err duplicate_labels
  /\ duplicate_labels <> ValueError "No objects to concatenate".
Proof. split; [|split]; [reflexivity|reflexivity|discriminate]. Qed.

(* ================================================================== *)
(** ** Determinism *)

Lemma job_series_reads_tables {L : Listify} (s1 s2 : FuseLinks) (job : Job) :
  df_a s1 = df_a s2 -> df_b s1 = df_b s2 -> index s1 = index s2 ->
  job_series s1 job = job_series s2 job.
Proof.
  intros Ha Hb Hi.
  unfold job_series, make_resolution_series, check_inputs.
  now rewrite Ha, Hb, Hi.
Qed.

Lemma resolve_queue_reads_tables {L : Listify} (s1 s2 : FuseLinks)
    (queue : list Job) (g : rng) :
  df_a s1 = df_a s2 -> df_b s1 = df_b s2 -> index s1 = index s2 ->
  resolve_queue s1 queue g = resolve_queue s2 queue g.
Proof.
  intros Ha Hb Hi. revert g.
  induction queue as [|job rest IH]; intros g; simpl; [reflexivity|].
  pose proof (job_series_reads_tables s1 s2 job Ha Hb Hi) as Hj.
  unfold job_series in Hj. rewrite Hj.
  unfold mbind, lift.
  destruct (make_resolution_series s2 _ _ _ _ _ _ _) as [data|e]; auto.
  destruct (resolve (job_fun job) data (job_params job) g) as [[col|e] g1];
    auto.
  now rewrite IH.
Qed.

Lemma fuse_result_queue {L : Listify} {P : Alignment}
    (self self' : FuseLinks)
    (vectors_ : Vectors) (df_a_ df_b_ : option DataFrame)
    (predictions_ suffix_a_ suffix_b_ : value) (g : rng) :
  resolution_queue self' = resolution_queue self ->
  fuse_result (fuse self' vectors_ df_a_ df_b_
                 predictions_ suffix_a_ suffix_b_ g)
  = fuse_result (fuse self vectors_ df_a_ df_b_
                   predictions_ suffix_a_ suffix_b_ g).
Proof.
  intros Hq.
  destruct (labels_distinct (vec_index vectors_)) eqn:Hd;
    [|now rewrite !(fuse_refused _ _ _ _ _ _ _ _ Hd)].
  rewrite !(fuse_converted _ _ _ _ _ _ _ _ Hd).
  unfold fuse_result, mbind. simpl.
  rewrite Hq.
  rewrite (resolve_queue_reads_tables
             (initialized self' vectors_ df_a_ df_b_
                predictions_ suffix_a_ suffix_b_)
             (initialized self vectors_ df_a_ df_b_
                predictions_ suffix_a_ suffix_b_)) by reflexivity.
  destruct (resolve_queue _ (resolution_queue self) g) as [[cols|e] g1];
    reflexivity.
Qed.

Lemma fuse_keeps_queue {L : Listify} {P : Alignment} (self : FuseLinks)
    (vectors_ : Vectors) (df_a_ df_b_ : option DataFrame)
    (predictions_ suffix_a_ suffix_b_ : value) (g : rng) :
  resolution_queue
    (fuse_object (fuse self vectors_ df_a_ df_b_
                    predictions_ suffix_a_ suffix_b_ g))
  = resolution_queue self.
Proof.
  destruct (labels_distinct (vec_index vectors_)) eqn:Hd;
    [|now rewrite (fuse_refused _ _ _ _ _ _ _ _ Hd)].
  rewrite (fuse_converted _ _ _ _ _ _ _ _ Hd).
  unfold fuse_object, mbind. simpl.
  destruct (resolve_queue _ (resolution_queue self) g) as [[cols|e] g1];
    reflexivity.
Qed.

Lemma series_apply_args_pure (f : strategy) (args : list value) (s : Series)
    (g g' : rng) :
  pure_strategy f ->
  snd (series_apply_args f args s g) = g
  /\ fst (series_apply_args f args s g') = fst (series_apply_args f args s g).
Proof.
  intros Hf. revert g g'.
  induction s as [|[l v] rest IH]; intros g g'; simpl; [auto|].
  destruct (Hf v args g) as [Hs Hg]. specialize (Hg g').
  destruct (Hf v args g') as [Hs' _].
  destruct (f v args g) as [o g1], (f v args g') as [o' g1'].
  simpl in *. subst g1 g1' o'.
  destruct o as [r|w]; simpl; [|auto].
  unfold mbind.
  destruct (IH g g') as [IH1 IH2].
  destruct (IH g' g') as [IH1' _].
  destruct (series_apply_args f args rest g) as [[rest1|e1] g2],
           (series_apply_args f args rest g') as [[rest2|e2] g2'];
    simpl in *; subst; split; auto; congruence.
Qed.

Lemma resolve_queue_pure {L : Listify} (self : FuseLinks) (queue : list Job)
    (g g' : rng) :
  Forall (fun job => pure_strategy (job_fun job)) queue ->
  snd (resolve_queue self queue g) = g
  /\ fst (resolve_queue self queue g') = fst (resolve_queue self queue g).
Proof.
  intros Hq. revert g g'.
  induction Hq as [|job rest Hf _ IH]; intros g g'; simpl; [auto|].
  unfold mbind, lift, mret.
  destruct (make_resolution_series self _ _ _ _ _ _ _) as [data|e]; [|auto].
  unfold resolve.
  destruct (series_apply_args_pure (job_fun job)
              (extra_args (job_params job)) data g g' Hf)
    as [H1 H2].
  destruct (series_apply_args_pure (job_fun job)
              (extra_args (job_params job)) data g' g' Hf)
    as [H1' _].
  destruct (series_apply_args (job_fun job) _ data g) as [[col|e] g1],
           (series_apply_args (job_fun job) _ data g') as [[col'|e'] g1'];
    simpl in *; subst; try discriminate; [|split; [auto|congruence]].
  injection H2 as ->.
  destruct (IH g g') as [IH1 IH2].
  destruct (IH g' g') as [IH1' _].
  destruct (resolve_queue self rest g) as [[cols|e] g2],
           (resolve_queue self rest g') as [[cols'|e'] g2'];
    simpl in *; subst; split; auto; congruence.
Qed.

(** C7: two calls of [fuse] with identical inputs and an identical queue
    yield identical tables.  Calling [fuse] again on the same object with
    the generator seeded as before gives the same result; so does any object
    holding the same queue; and when every strategy of the queue is pure the
    result does not depend on the generator at all. *)
Theorem fuse_deterministic {L : Listify} {P : Alignment} (self : FuseLinks)
    (vectors_ : Vectors) (df_a_ df_b_ : option DataFrame)
    (predictions_ suffix_a_ suffix_b_ : value) (g : rng) :
  let call := fun object seed =>
    fuse object vectors_ df_a_ df_b_ predictions_ suffix_a_ suffix_b_ seed in
  fuse_result (call (fuse_object (call self g)) g) = fuse_result (call self g)
  /\
  (forall self',
      resolution_queue self' = resolution_queue self ->
      fuse_result (call self' g) = fuse_result (call self g))
  /\
  (Forall (fun job => pure_strategy (job_fun job)) (resolution_queue self) ->
   forall self' g',
     resolution_queue self' = resolution_queue self ->
     fuse_result (call self' g') = fuse_result (call self g)).
Proof.
  intros call. unfold call. split; [|split].
  - apply fuse_result_queue. apply fuse_keeps_queue.
  - intros self' Hq. now apply fuse_result_queue.
  - intros Hpure self' g' Hq.
    rewrite (fuse_result_queue self self' _ _ _ _ _ _ g' Hq).
    destruct (labels_distinct (vec_index vectors_)) eqn:Hd;
      [|now rewrite !(fuse_refused _ _ _ _ _ _ _ _ Hd)].
    rewrite !(fuse_converted _ _ _ _ _ _ _ _ Hd).
    unfold fuse_result, mbind. simpl.
    destruct (resolve_queue_pure
                (initialized self vectors_ df_a_ df_b_
                   predictions_ suffix_a_ suffix_b_)
                (resolution_queue self) g g' Hpure) as [_ H].
    destruct (resolve_queue _ (resolution_queue self) g) as [[cols|e] g1],
             (resolve_queue _ (resolution_queue self) g') as [[cols'|e'] g1'];
      simpl in *; try discriminate; congruence.
Qed.

Lemma fuse_deterministic_witness :
  let pairs := unnamed_pairs [(VStr "a2", VStr "b1"); (VStr "a1", VStr "b2")] in
  let call := fun object seed =>
    fuse (L:=listify_list) (P:=object_padding) object pairs
      (Some sample_a) (Some sample_b) VNone (VStr "_a") (VStr "_b") seed in
  let randomized :=
    queue_resolve_defaults (FuseLinks_init false false)
      pick_random (VStr "name") (VStr "name") in
  let plain :=
    queue_resolve_defaults (FuseLinks_init false false)
      keep_record (VStr "name") (VStr "name") in
  fuse_result (call (fuse_object (call randomized 5%N)) 5%N)
  = fuse_result (call randomized 5%N)
  /\ Forall (fun job => pure_strategy (job_fun job)) (resolution_queue plain)
  /\ fuse_result (call (fuse_object (call plain 5%N)) 8%N)
     = fuse_result (call plain 5%N).
Proof.
  split; [|split].
  - exact (proj1 (fuse_deterministic (L:=listify_list) (P:=object_padding)
                    _ _ _ _ _ _ _ _)).
  - repeat constructor.
  - refine (proj2 (proj2 (fuse_deterministic (L:=listify_list)
                           (P:=object_padding) _ _ _ _ _ _ _ _))
              _ _ _ _).
    + repeat constructor.
    + reflexivity.
Defined.

(* ================================================================== *)
(** ** Addressing the pair index *)

Lemma has_column_false_getitem (df : DataFrame) (name : value) :
  has_column df name = false -> df_getitem df name = Err KeyError.
Proof.
  unfold has_column, df_getitem.
  destruct (assoc name (df_columns df)); [discriminate|reflexivity].
Qed.

Lemma level_missing_getitem (mi : MultiIndex) (level : Z) :
  level_missing mi level = true ->
  df_getitem (index_frame mi) (VInt level) = Err KeyError.
Proof.
  unfold level_missing. intros H. apply negb_true_iff in H.
  now apply has_column_false_getitem.
Qed.

Lemma levels_named_missing (mi : MultiIndex) :
  levels_named mi = true ->
  level_missing mi 0 = true /\ level_missing mi 1 = true.
Proof.
  unfold levels_named, level_missing, has_column, index_frame. simpl.
  rewrite !andb_true_iff, !negb_true_iff.
  intros ((Ha0 & Ha1) & (Hb0 & Hb1) & _).
  now rewrite Ha0, Ha1, Hb0, Hb1.
Qed.

Lemma fetch_columns_no_level (df : DataFrame) (idx : option DataFrame)
    (level : Z) (names : list value) :
  index_getitem idx (VInt level) = Err KeyError ->
  names <> [] ->
  fetch_columns df idx level names = Err KeyError.
Proof.
  intros Hidx Hn. destruct names as [|name rest]; [contradiction|].
  simpl. destruct (df_getitem df name) as [col|e] eqn:Hcol; simpl.
  - now rewrite Hidx.
  - apply df_getitem_error in Hcol. now subst.
Qed.

Lemma fetches_side_columns {L : Listify} (df : DataFrame) (frame : DataFrame)
    (level : Z) (values meta meta_a meta_b : value) (static_meta : bool) :
  fetches_side values meta meta_a meta_b static_meta = true ->
  df_getitem frame (VInt level) = Err KeyError ->
  let use_meta := negb (is_none meta_a && is_none meta_b) in
  let cols := if use_meta && negb static_meta then listify meta else [] in
  value_columns df (Some frame) level
    (fst (generalize_flags use_meta static_meta
            (length (listify values)) (length cols)))
    (listify values) cols
  = Err KeyError.
Proof.
  unfold fetches_side. intros H Hidx. simpl.
  apply andb_true_iff in H as [Hflag Hne].
  apply negb_true_iff in Hflag.
  unfold value_columns. rewrite Hflag.
  apply fetch_columns_no_level; auto.
  destruct (listify values); [discriminate|congruence].
Qed.

Lemma align_unaddressed_lookup_error {L : Listify} (mi : MultiIndex)
    (table_a table_b : DataFrame) (values_a values_b meta_a meta_b : value)
    (transform_vals transform_meta : pyobj) (static_meta : bool) :
  fetches_side values_a meta_a meta_a meta_b static_meta
  && level_missing mi 0
  || fetches_side values_b meta_b meta_a meta_b static_meta
     && level_missing mi 1 = true ->
  exists e,
    align (Some (index_frame mi)) table_a table_b
          values_a values_b meta_a meta_b
          transform_vals transform_meta static_meta = Err e
    /\ is_lookup_error e = true.
Proof.
  intros Hfetch.
  unfold align.
  pose proof (fun H H0 => fetches_side_columns table_a (index_frame mi) 0
                            values_a meta_a meta_a meta_b static_meta H
                            (level_missing_getitem mi 0 H0)) as HA.
  pose proof (fun H H1 => fetches_side_columns table_b (index_frame mi) 1
                            values_b meta_b meta_a meta_b static_meta H
                            (level_missing_getitem mi 1 H1)) as HB.
  simpl in HA, HB.
  destruct (generalize_flags _ _ (length (listify values_a)) _) as [gva gma].
  destruct (generalize_flags _ _ (length (listify values_b)) _) as [gvb gmb].
  simpl in HA, HB.
  destruct (value_columns table_a _ 0 gva _ _) as [data_a|ea] eqn:Ea.
  - apply orb_true_iff in Hfetch as [H|H];
      apply andb_true_iff in H as [Hf Hm].
    + specialize (HA Hf Hm). discriminate.
    + rewrite (HB Hf Hm). simpl. eauto.
  - simpl. exists ea. split; auto.
    apply value_columns_error in Ea as [Ea|[Ea _]]; [auto|discriminate].
Qed.

Lemma job_series_unaddressed_lookup_error {L : Listify} (self : FuseLinks)
    (vectors_ : Vectors) (df_a_ df_b_ : option DataFrame)
    (predictions_ suffix_a_ suffix_b_ : value) (job : Job) :
  fetches_unaddressed (vec_index vectors_) df_a_ df_b_ job = true ->
  exists e,
    job_series (initialized self vectors_ df_a_ df_b_
                  predictions_ suffix_a_ suffix_b_) job = Err e
    /\ is_lookup_error e = true.
Proof.
  intros Hfetch. unfold fetches_unaddressed in Hfetch.
  apply andb_true_iff in Hfetch as [Hcfg Hfetch].
  apply negb_true_iff in Hcfg.
  unfold job_series, make_resolution_series.
  pose proof (check_inputs_spec
                (initialized self vectors_ df_a_ df_b_
                   predictions_ suffix_a_ suffix_b_)
                (job_meta_a job) (job_meta_b job)
                (job_transform_vals job) (job_transform_meta job)) as Hc.
  destruct (check_inputs _ _ _ _ _) as [[ta tb]|e0].
  - simpl. apply align_unaddressed_lookup_error; auto.
  - simpl in Hc. destruct Hc as [Hm _]. congruence.
Qed.

(** The queue stops at the first job whose series cannot be built. *)
Lemma resolve_queue_stops {L : Listify} (self : FuseLinks)
    (before rest : list Job) (job : Job) (g g1 : rng) (cols : list Series)
    (e : exn) :
  resolve_queue self before g = (Ok cols, g1) ->
  job_series self job = Err e ->
  resolve_queue self (before ++ job :: rest) g = (Err e, g1).
Proof.
  intros Hrun He. revert g cols Hrun.
  induction before as [|first others IH]; intros g cols Hrun.
  - simpl in Hrun. unfold mret in Hrun. injection Hrun as _ <-.
    simpl. unfold job_series in He. unfold mbind, lift. now rewrite He.
  - apply resolve_queue_cons_Ok in Hrun
      as (data & col & cols' & g2 & Hd & Hc & Hr & _).
    change ((first :: others) ++ job :: rest)
      with (first :: (others ++ job :: rest)).
    cbn [resolve_queue]. unfold job_series in Hd. unfold mbind, lift.
    rewrite Hd, Hc. now rewrite (IH _ _ Hr).
Qed.

(** C9 (amended): the two halves of the pair index are addressed by the
    column labels 0 and 1 of the index converted to a frame.  When the two
    levels give equal column labels, the conversion fails and [fuse] raises
    its [ValueError], whatever the queue holds.  Otherwise a job that
    passes the guards and fetches value columns of a side whose label is
    not a column of the frame (for a pair index with both levels named:
    every job that fetches values) makes [fuse] return no table, and raise
    a lookup error when the jobs queued before it complete.  [fuse] returns
    a table only when the conversion succeeds and no job of the queue
    fetched values through a missing label. *)
Theorem unaddressed_half_lookup_error {L : Listify} {P : Alignment}
    (self : FuseLinks) (vectors_ : Vectors) (df_a_ df_b_ : option DataFrame)
    (predictions_ suffix_a_ suffix_b_ : value) (g : rng) :
  let mi := vec_index vectors_ in
  let object := initialized self vectors_ df_a_ df_b_
                  predictions_ suffix_a_ suffix_b_ in
  let run := fuse self vectors_ df_a_ df_b_
               predictions_ suffix_a_ suffix_b_ g in
  (labels_distinct mi = false -> fuse_result run = Err duplicate_labels)
  /\
  (levels_named mi = true ->
   forall job,
     fetches_unaddressed mi df_a_ df_b_ job = fetches_values df_a_ df_b_ job)
  /\
  (labels_distinct mi = true ->
   forall before job rest cols g1,
     resolution_queue self = before ++ job :: rest ->
     resolve_queue object before g = (Ok cols, g1) ->
     fetches_unaddressed mi df_a_ df_b_ job = true ->
     exists e, fuse_result run = Err e /\ is_lookup_error e = true)
  /\
  (forall job,
      In job (resolution_queue self) ->
      fetches_unaddressed mi df_a_ df_b_ job = true ->
      exists e, fuse_result run = Err e)
  /\
  (forall table,
      fuse_result run = Ok table ->
      labels_distinct mi = true
      /\ Forall (fun job => fetches_unaddressed mi df_a_ df_b_ job = false)
                (resolution_queue self)).
Proof.
  intros mi object run.
  assert (Hok : forall table,
             fuse_result run = Ok table ->
             labels_distinct mi = true
             /\ Forall (fun job =>
                          fetches_unaddressed mi df_a_ df_b_ job = false)
                       (resolution_queue self)).
  { intros table Hok. split; [exact (fuse_Ok_converted _ _ _ _ _ _ _ _ _ Hok)|].
    apply fuse_Ok_columns in Hok as (cols & g' & Hrun & _).
    apply resolve_queue_Ok_jobs in Hrun.
    induction Hrun as [|job col rest cols' Hjob _ IH]; constructor; auto.
    destruct Hjob as (data & _ & _ & Hdata & _).
    destruct (fetches_unaddressed mi df_a_ df_b_ job) eqn:Hfetch; auto.
    destruct (job_series_unaddressed_lookup_error self vectors_ df_a_ df_b_
                predictions_ suffix_a_ suffix_b_ job Hfetch)
      as (e & He & _).
    congruence. }
  split; [|split; [|split; [|split]]].
  - intros Hd. unfold run. now rewrite (fuse_refused _ _ _ _ _ _ _ _ Hd).
  - intros Hnamed job.
    destruct (levels_named_missing mi Hnamed) as [H0 H1].
    unfold fetches_unaddressed, fetches_values.
    now rewrite H0, H1, !andb_true_r.
  - intros Hd before job rest cols g1 Hq Hbefore Hfetch.
    destruct (job_series_unaddressed_lookup_error self vectors_ df_a_ df_b_
                predictions_ suffix_a_ suffix_b_ job Hfetch)
      as (e & He & Hlook).
    exists e. split; auto.
    unfold run. rewrite (fuse_converted _ _ _ _ _ _ _ _ Hd).
    unfold fuse_result, mbind.
    change (resolution_queue
              (initialized self vectors_ df_a_ df_b_
                 predictions_ suffix_a_ suffix_b_))
      with (resolution_queue self).
    cbv zeta. rewrite Hq.
    now rewrite (resolve_queue_stops _ _ _ _ _ _ _ _ Hbefore He).
  - intros job Hin Hfetch.
    destruct (fuse_result run) as [table|e] eqn:Hrun; [|eauto].
    destruct (Hok table eq_refl) as [_ Hall].
    rewrite Forall_forall in Hall. specialize (Hall job Hin). congruence.
  - exact Hok.
Qed.

Lemma unaddressed_half_lookup_error_witness :
  labels_distinct (vec_index (half_named_pairs [(VStr "a1", VStr "b1")]))
  = true
  /\ fetches_unaddressed (L:=listify_list)
       (vec_index (half_named_pairs [(VStr "a1", VStr "b1")]))
       (Some sample_a) (Some sample_b) names_job = true
  /\ exists e,
       fuse_result
         (fuse (L:=listify_list) (P:=object_padding)
            (set_queue (FuseLinks_init false false) [name_a_job; names_job])
            (half_named_pairs [(VStr "a1", VStr "b1")])
            (Some sample_a) (Some sample_b)
            VNone (VStr "_a") (VStr "_b") 0%N) = Err e
       /\ is_lookup_error e = true.
Proof.
  split; [reflexivity|]. split; [reflexivity|].
  refine (proj1 (proj2 (proj2
            (unaddressed_half_lookup_error (L:=listify_list)
               (P:=object_padding)
               (set_queue (FuseLinks_init false false) [name_a_job; names_job])
               (half_named_pairs [(VStr "a1", VStr "b1")])
               (Some sample_a) (Some sample_b)
               VNone (VStr "_a") (VStr "_b") 0%N)))
            eq_refl [name_a_job] names_job []
            [[(VInt 0, VStr "Jon")]] 0%N _ _ _);
    reflexivity.
Defined.

(** C9 (as stated) fails: on a pair index whose two levels carry the same
    name, [fuse] with a job that fetches values raises the [ValueError] of
    the conversion of the index, which is no lookup error. *)
Lemma same_named_levels_no_lookup_error :
  levels_named (vec_index (same_named_pairs [(VStr "a1", VStr "b1")])) = true
  /\ resolution_queue names_engine = [names_job]
  /\ fetches_values (L:=listify_list) (Some sample_a) (Some sample_b)
       names_job = true
  /\ fuse_result
       (fuse (L:=listify_list) (P:=object_padding) names_engine
          (same_named_pairs [(VStr "a1", VStr "b1")])
          (Some sample_a) (Some sample_b)
          VNone (VStr "_a") (VStr "_b") 0%N) = Err duplicate_labels
  /\ is_lookup_error duplicate_labels = false.
Proof. repeat split. Qed.

(* ================================================================== *)
(** ** Zero pairs *)

Lemma zip_star_short (cols : list (list value)) :
  In 0%nat (map (@length _) cols) -> zip_star cols = [].
Proof.
  induction cols as [|c rest IH]; simpl; [contradiction|].
  intros [Hc|Hin].
  - apply length_zero_iff_nil in Hc. subst c. now destruct rest.
  - rewrite (IH Hin). destruct rest; [contradiction|].
    now rewrite combine_nil.
Qed.

Lemma zip_star_lens_nil (cols : list Series) :
  lens cols = [] \/ In 0%nat (lens cols) ->
  zip_star (map series_values cols) = [].
Proof.
  unfold lens. intros [H|H].
  - apply map_eq_nil in H. now subst.
  - apply zip_star_short. rewrite map_map.
    erewrite map_ext; [exact H|].
    intros s. unfold series_values. now rewrite length_map.
Qed.

Lemma lens_all_zero (cols : list Series) :
  Forall (fun n => n = 0%nat) (lens cols) ->
  lens cols = [] \/ In 0%nat (lens cols).
Proof.
  destruct (lens cols) as [|n ns]; [auto|].
  intros H. inversion H; subst. right. now left.
Qed.

Lemma series_apply_total (f : value -> outcome) (s : Series) :
  (forall v, exists w, f v = Returns w) ->
  exists s', series_apply f s = Ok s' /\ length s' = length s.
Proof.
  intros Hf. induction s as [|[l v] rest (rest' & IH & Hlen)]; simpl.
  - now exists [].
  - destruct (Hf v) as [w ->]. rewrite IH. simpl.
    exists ((l, w) :: rest'). simpl. auto.
Qed.

Lemma apply_each_total (f : value -> outcome) (cols : list Series) :
  (forall v, exists w, f v = Returns w) ->
  exists cols', apply_each f cols = Ok cols' /\ lens cols' = lens cols.
Proof.
  intros Hf. induction cols as [|s rest (rest' & IH & Hlen)]; simpl.
  - now exists [].
  - destruct (series_apply_total f s Hf) as (s' & -> & Hs). simpl.
    rewrite IH. simpl. exists (s' :: rest'). simpl. now rewrite Hs, Hlen.
Qed.

Lemma transform_columns_total (t : pyobj) (cols : list Series) :
  negb (py_is_none t) && negb (callable t) = false ->
  returns_always t ->
  exists cols', transform_columns t cols = Ok cols' /\ lens cols' = lens cols.
Proof.
  destruct t as [|f|v]; simpl; intros Hc Ht.
  - now exists cols.
  - now apply apply_each_total.
  - discriminate.
Qed.

Lemma has_column_getitem (df : DataFrame) (key : value) :
  has_column df key = true -> exists s, df_getitem df key = Ok s.
Proof.
  unfold has_column, df_getitem.
  destruct (assoc key (df_columns df)); [eauto|discriminate].
Qed.

Lemma getitem_no_rows (frame : DataFrame) (key : value) :
  df_index frame = [] ->
  has_column frame key = true ->
  df_getitem frame key = Ok [].
Proof.
  unfold has_column, df_getitem. intros ->.
  destruct (assoc key (df_columns frame)); [reflexivity|discriminate].
Qed.

Lemma fetch_columns_no_rows (df frame : DataFrame) (level : Z)
    (names : list value) :
  df_getitem frame (VInt level) = Ok [] ->
  forallb (has_column df) names = true ->
  exists data,
    fetch_columns df (Some frame) level names = Ok data
    /\ lens data = map (fun _ => 0%nat) names.
Proof.
  intros Hidx. induction names as [|name rest IH]; simpl.
  - now exists [].
  - intros H. apply andb_true_iff in H as [Hname Hrest].
    destruct (has_column_getitem _ _ Hname) as [col ->]. simpl.
    rewrite Hidx. simpl.
    destruct (IH Hrest) as (data & -> & Hlens). simpl.
    exists ([] :: data). simpl. now rewrite Hlens.
Qed.

Lemma repeat_first_column_resolves (df : DataFrame) (names : list value)
    (n : nat) :
  is_empty names = false ->
  forallb (has_column df) names = true ->
  exists data, repeat_first_column df names n = Ok data.
Proof.
  destruct names as [|name rest]; [discriminate|]. simpl.
  intros _ H. apply andb_true_iff in H as [Hname _].
  destruct (has_column_getitem _ _ Hname) as [col Hcol].
  induction n as [|n [data IH]]; simpl.
  - now exists [].
  - rewrite Hcol. simpl. rewrite IH. simpl. eauto.
Qed.

Lemma static_columns_no_rows (frame : DataFrame) (level : Z) (const : value)
    (n : nat) :
  df_index frame = [] ->
  df_getitem frame (VInt level) = Ok [] ->
  exists data,
    static_columns (Some frame) level const n = Ok data
    /\ Forall (fun k => k = 0%nat) (lens data).
Proof.
  intros Hrows Hidx. induction n as [|n (data & IH & Hlens)]; simpl.
  - exists []. split; [reflexivity|constructor].
  - unfold df_len. rewrite Hrows, Hidx. simpl. rewrite IH. simpl.
    exists ([] :: data). split; [reflexivity|]. now constructor.
Qed.

Lemma generalize_flags_values (use_meta static_meta : bool) (nv nm : nat)
    (gv gm : option bool) :
  generalize_flags use_meta static_meta nv nm = (gv, gm) ->
  is_True gv = true ->
  use_meta && negb static_meta = true /\ (nv < nm)%nat /\ is_True gm = false.
Proof.
  unfold generalize_flags.
  destruct (use_meta && negb static_meta).
  - destruct (nv <? nm)%nat eqn:Hlt.
    + intros H _. inversion H; subst. apply Nat.ltb_lt in Hlt. auto.
    + destruct (nm <? nv)%nat; intros H; inversion H; subst; discriminate.
  - intros H; inversion H; subst; discriminate.
Qed.

Lemma generalize_flags_meta (use_meta static_meta : bool) (nv nm : nat)
    (gv gm : option bool) :
  generalize_flags use_meta static_meta nv nm = (gv, gm) ->
  is_True gm = true ->
  use_meta && negb static_meta = true /\ (nm < nv)%nat /\ is_True gv = false.
Proof.
  unfold generalize_flags.
  destruct (use_meta && negb static_meta).
  - destruct (nv <? nm)%nat eqn:Hlt.
    + intros H; inversion H; subst; discriminate.
    + destruct (nm <? nv)%nat eqn:Hgt; intros H; inversion H; subst;
        try discriminate.
      intros _. apply Nat.ltb_lt in Hgt. auto.
  - intros H; inversion H; subst; discriminate.
Qed.

Arguments value_columns : simpl never.
Arguments metadata_columns : simpl never.
Arguments transform_columns : simpl never.

Lemma value_side_no_rows (df frame : DataFrame) (level : Z)
    (gv : option bool) (values cols : list value) :
  df_getitem frame (VInt level) = Ok [] ->
  forallb (has_column df) values = true ->
  (is_True gv = true -> is_empty values = false) ->
  exists data,
    value_columns df (Some frame) level gv values cols = Ok data
    /\ (is_True gv = false -> Forall (fun k => k = 0%nat) (lens data)).
Proof.
  intros Hidx Hcols Hne. unfold value_columns.
  destruct (is_True gv).
  - destruct (repeat_first_column_resolves df values (length cols)
                (Hne eq_refl) Hcols) as [data Hdata].
    exists data. split; [exact Hdata|discriminate].
  - destruct (fetch_columns_no_rows df frame level values Hidx Hcols)
      as (data & Hdata & Hlens).
    exists data. split; [exact Hdata|]. intros _. rewrite Hlens.
    clear. induction values; simpl; constructor; auto.
Qed.

Lemma meta_side_no_rows (df frame : DataFrame) (level : Z)
    (static_meta : bool) (gm : option bool) (values : list value)
    (const : value) (cols : list value) :
  df_index frame = [] ->
  df_getitem frame (VInt level) = Ok [] ->
  (static_meta = false -> forallb (has_column df) cols = true) ->
  (is_True gm = true -> is_empty cols = false) ->
  exists md,
    metadata_columns df (Some frame) level static_meta gm values const cols
    = Ok md
    /\ (static_meta = false -> is_True gm = false ->
        lens md = map (fun _ => 0%nat) cols).
Proof.
  intros Hrows Hidx Hcols Hne. unfold metadata_columns.
  destruct static_meta.
  - destruct (static_columns_no_rows frame level const (length values)
                Hrows Hidx) as (md & Hmd & _).
    exists md. split; [exact Hmd|discriminate].
  - specialize (Hcols eq_refl). destruct (is_True gm).
    + destruct (repeat_first_column_resolves df cols (length values)
                  (Hne eq_refl) Hcols) as [md Hmd].
      exists md. split; [exact Hmd|discriminate].
    + destruct (fetch_columns_no_rows df frame level cols Hidx Hcols)
        as (md & Hmd & Hlens).
      exists md. split; [exact Hmd|auto].
Qed.

Lemma lens_app (xs ys : list Series) : lens (xs ++ ys) = lens xs ++ lens ys.
Proof. unfold lens. apply map_app. Qed.

Lemma shorter_not_empty {A B} (xs : list A) (ys : list B) :
  (length xs < length ys)%nat -> is_empty ys = false.
Proof. destruct ys; simpl; [lia|reflexivity]. Qed.

Lemma zeros_In {A} (xs : list A) :
  is_empty xs = false -> In 0%nat (map (fun _ => 0%nat) xs).
Proof. destruct xs; simpl; [discriminate|auto]. Qed.

Lemma align_no_rows {L : Listify} (frame table_a table_b : DataFrame)
    (job : Job) :
  df_index frame = [] ->
  misconfigured (Some table_a) (Some table_b)
    (job_meta_a job) (job_meta_b job)
    (job_transform_vals job) (job_transform_meta job) = false ->
  lookups_resolve frame table_a table_b job = true ->
  returns_always (job_transform_vals job) ->
  returns_always (job_transform_meta job) ->
  align (Some frame) table_a table_b
        (job_values_a job) (job_values_b job)
        (job_meta_a job) (job_meta_b job)
        (job_transform_vals job) (job_transform_meta job)
        (job_static_meta job) = Ok [].
Proof.
  intros Hrows Hcfg Hlook Htv Htm.
  unfold misconfigured in Hcfg. simpl in Hcfg.
  apply orb_false_iff in Hcfg as [Hcfg _].
  apply orb_false_iff in Hcfg as [Hctv Hctm].
  unfold lookups_resolve in Hlook.
  rewrite !andb_true_iff in Hlook.
  destruct Hlook as ((((H0 & H1) & Hva) & Hvb) & Hmeta).
  apply (getitem_no_rows _ _ Hrows) in H0.
  apply (getitem_no_rows _ _ Hrows) in H1.
  unfold align.
  set (use_meta := negb (is_none (job_meta_a job) && is_none (job_meta_b job)))
    in *.
  set (va := listify (job_values_a job)) in *.
  set (vb := listify (job_values_b job)) in *.
  destruct (use_meta && negb (job_static_meta job)) eqn:Hmode.
  - (* metadata looked up per record *)
    rewrite !andb_true_iff in Hmeta.
    destruct Hmeta as (((Hma & Hmb) & Hea) & Heb).
    apply eqb_prop in Hea, Heb.
    set (ma := listify (job_meta_a job)) in *.
    set (mb := listify (job_meta_b job)) in *.
    apply andb_true_iff in Hmode as [Huse Hstatic].
    apply negb_true_iff in Hstatic.
    rewrite Huse, Hstatic in *. simpl negb. simpl andb.
    destruct (generalize_flags true false (length va) (length ma))
      as [gva gma] eqn:Fa.
    destruct (generalize_flags true false (length vb) (length mb))
      as [gvb gmb] eqn:Fb.
    assert (Hgva : is_True gva = true ->
                   is_empty va = false /\ is_empty ma = false
                   /\ is_True gma = false).
    { intros Hg. destruct (generalize_flags_values _ _ _ _ _ _ Fa Hg)
        as (_ & Hlt & Hgm).
      pose proof (shorter_not_empty _ _ Hlt). split; [congruence|auto]. }
    assert (Hgvb : is_True gvb = true ->
                   is_empty vb = false /\ is_empty mb = false
                   /\ is_True gmb = false).
    { intros Hg. destruct (generalize_flags_values _ _ _ _ _ _ Fb Hg)
        as (_ & Hlt & Hgm).
      pose proof (shorter_not_empty _ _ Hlt). split; [congruence|auto]. }
    assert (Hgma : is_True gma = true -> is_empty ma = false).
    { intros Hg. destruct (generalize_flags_meta _ _ _ _ _ _ Fa Hg)
        as (_ & Hlt & _).
      pose proof (shorter_not_empty _ _ Hlt). congruence. }
    assert (Hgmb : is_True gmb = true -> is_empty mb = false).
    { intros Hg. destruct (generalize_flags_meta _ _ _ _ _ _ Fb Hg)
        as (_ & Hlt & _).
      pose proof (shorter_not_empty _ _ Hlt). congruence. }
    destruct (value_side_no_rows table_a frame 0 gva va ma H0 Hva)
      as (data_a & -> & Hda); [intros Hg; apply Hgva, Hg|].
    destruct (value_side_no_rows table_b frame 1 gvb vb mb H1 Hvb)
      as (data_b & -> & Hdb); [intros Hg; apply Hgvb, Hg|].
    simpl.
    destruct (transform_columns_total _ (data_a ++ data_b) Hctv Htv)
      as (value_data & -> & Hvd).
    simpl.
    destruct (meta_side_no_rows table_a frame 0 false gma va
                (job_meta_a job) ma Hrows H0 (fun _ => Hma) Hgma)
      as (md_a & -> & Hmda).
    destruct (meta_side_no_rows table_b frame 1 false gmb vb
                (job_meta_b job) mb Hrows H1 (fun _ => Hmb) Hgmb)
      as (md_b & -> & Hmdb).
    simpl.
    destruct (transform_columns_total _ (md_a ++ md_b) Hctm Htm)
      as (metadata & -> & Hmd).
    simpl.
    assert (Hempty : zip_star (map series_values value_data) = []
                     \/ zip_star (map series_values metadata) = []).
    { destruct (is_True gva) eqn:Ga.
      - right. apply zip_star_lens_nil. right.
        rewrite Hmd, lens_app. apply in_or_app. left.
        destruct (Hgva eq_refl) as (_ & Hne & Hgm).
        rewrite (Hmda eq_refl Hgm). now apply zeros_In.
      - destruct (is_True gvb) eqn:Gb.
        + right. apply zip_star_lens_nil. right.
          rewrite Hmd, lens_app. apply in_or_app. right.
          destruct (Hgvb eq_refl) as (_ & Hne & Hgm).
          rewrite (Hmdb eq_refl Hgm). now apply zeros_In.
        + left. apply zip_star_lens_nil, lens_all_zero.
          rewrite Hvd, lens_app. apply Forall_app. auto. }
    destruct Hempty as [-> | ->]; [reflexivity|].
    now rewrite combine_nil.
  - (* no metadata, or static metadata *)
    simpl generalize_flags.
    assert (Hflags : forall n m,
               generalize_flags use_meta (job_static_meta job) n m
               = (None, None)).
    { intros n m. unfold generalize_flags. now rewrite Hmode. }
    rewrite !Hflags.
    destruct (value_side_no_rows table_a frame 0 None va [] H0 Hva)
      as (data_a & -> & Hda); [discriminate|].
    destruct (value_side_no_rows table_b frame 1 None vb [] H1 Hvb)
      as (data_b & -> & Hdb); [discriminate|].
    simpl.
    destruct (transform_columns_total _ (data_a ++ data_b) Hctv Htv)
      as (value_data & -> & Hvd).
    simpl.
    assert (Hvt : zip_star (map series_values value_data) = []).
    { apply zip_star_lens_nil, lens_all_zero.
      rewrite Hvd, lens_app. apply Forall_app. auto. }
    rewrite Hvt.
    destruct use_meta; [|reflexivity].
    simpl in Hmode. apply negb_false_iff in Hmode. rewrite Hmode.
    destruct (meta_side_no_rows table_a frame 0 true None va
                (job_meta_a job) [] Hrows H0)
      as (md_a & -> & _); try discriminate.
    destruct (meta_side_no_rows table_b frame 1 true None vb
                (job_meta_b job) [] Hrows H1)
      as (md_b & -> & _); try discriminate.
    simpl.
    destruct (transform_columns_total _ (md_a ++ md_b) Hctm Htm)
      as (metadata & -> & Hmd).
    reflexivity.
Qed.

Lemma job_series_no_rows {L : Listify} (self : FuseLinks) (vectors_ : Vectors)
    (df_a_ df_b_ : option DataFrame)
    (predictions_ suffix_a_ suffix_b_ : value) (job : Job) :
  mi_tuples (vec_index vectors_) = [] ->
  valid_job (index_frame (vec_index vectors_)) df_a_ df_b_ job ->
  job_series (initialized self vectors_ df_a_ df_b_
                predictions_ suffix_a_ suffix_b_) job = Ok [].
Proof.
  intros Hzero Hvalid. unfold valid_job in Hvalid.
  destruct df_a_ as [ta|]; [|contradiction].
  destruct df_b_ as [tb|]; [|contradiction].
  destruct Hvalid as (Hcfg & Hlook & Htv & Htm).
  unfold job_series, make_resolution_series.
  pose proof (check_inputs_spec
                (initialized self vectors_ (Some ta) (Some tb)
                   predictions_ suffix_a_ suffix_b_)
                (job_meta_a job) (job_meta_b job)
                (job_transform_vals job) (job_transform_meta job)) as Hc.
  destruct (check_inputs _ _ _ _ _) as [[ta' tb']|e0]; simpl in Hc.
  - destruct Hc as (_ & Ha & Hb). inversion Ha; inversion Hb; subst ta' tb'.
    simpl. apply align_no_rows; auto.
    unfold index_frame. simpl. now rewrite Hzero.
  - destruct Hc as [Hm _]. congruence.
Qed.

Lemma resolve_queue_no_rows {L : Listify} (self : FuseLinks)
    (queue : list Job) (g : rng) :
  Forall (fun job => job_series self job = Ok []) queue ->
  resolve_queue self queue g = (Ok (map (fun _ => []) queue), g).
Proof.
  induction 1 as [|job rest Hjob _ IH]; simpl; [reflexivity|].
  unfold job_series in Hjob. rewrite Hjob.
  unfold mbind, lift, resolve. simpl. unfold mret. now rewrite IH.
Qed.

Lemma union_of_empty_indexes {A} (xs : list A) :
  fold_left index_union (map series_index (map (fun _ => []) xs)) [] = [].
Proof. induction xs as [|x rest IH]; simpl; auto. Qed.

Lemma combine_constant {A B C} (labels : list A) (xs : list B) (c : C) :
  length labels = length xs ->
  combine labels (map (fun _ => c) xs) = map (fun j => (j, c)) labels.
Proof.
  revert xs. induction labels as [|l rest IH]; intros [|x xs] H;
    simpl in *; try discriminate; auto.
  f_equal. apply IH. lia.
Qed.

Lemma length_range_index (n : nat) : length (range_index n) = n.
Proof. unfold range_index. now rewrite length_map, length_seq. Qed.

Lemma concat_empty_series {P : Alignment} {A} (xs : list A) :
  xs <> [] ->
  concat_axis1 (map (fun _ => []) xs)
  = Ok {| df_index := [];
          df_columns := map (fun j => (j, [])) (range_index (length xs)) |}.
Proof.
  intros Hne. unfold concat_axis1.
  destruct xs as [|x rest]; [contradiction|].
  cbv zeta. rewrite union_of_empty_indexes.
  change (map (fun _ => []) (x :: rest))
    with (map (fun _ : A => @nil (value * value)) (x :: rest)).
  rewrite map_map. rewrite length_map.
  change (fun x0 : A => reindex [] []) with (fun _ : A => @nil value).
  rewrite combine_constant; [reflexivity|].
  apply length_range_index.
Qed.

Lemma resolved_labels_distinct (mi : MultiIndex) :
  has_column (index_frame mi) (VInt 0) = true ->
  has_column (index_frame mi) (VInt 1) = true ->
  labels_distinct mi = true.
Proof.
  unfold labels_distinct, has_column, index_frame. simpl.
  destruct (value_eqb (level_label 0 (fst (mi_names mi)))
                      (level_label 1 (snd (mi_names mi)))) eqn:Heq;
    [|reflexivity].
  apply value_eqb_true_eq in Heq. rewrite <- Heq.
  destruct (value_eqb (level_label 0 (fst (mi_names mi))) (VInt 0)) eqn:H0.
  - apply value_eqb_true_eq in H0. rewrite H0. simpl. discriminate.
  - discriminate.
Qed.

Lemma valid_jobs_labels_distinct {L : Listify} (mi : MultiIndex)
    (table_a table_b : option DataFrame) (queue : list Job) :
  queue <> [] ->
  Forall (valid_job (index_frame mi) table_a table_b) queue ->
  labels_distinct mi = true.
Proof.
  intros Hne Hvalid.
  destruct Hvalid as [|job rest Hjob _]; [contradiction|].
  unfold valid_job in Hjob.
  destruct table_a as [ta|], table_b as [tb|]; try contradiction.
  destruct Hjob as (_ & Hlook & _).
  unfold lookups_resolve in Hlook.
  rewrite !andb_true_iff in Hlook.
  destruct Hlook as ((((H0 & H1) & _) & _) & _).
  now apply resolved_labels_distinct.
Qed.

(** C8: for every non-empty queue of valid jobs, [fuse] with a pair index
    of zero pairs raises no error: the aligned sequence of each job is
    empty, and the returned table has no row and one column per queued
    job. *)
Theorem fuse_zero_pairs {L : Listify} {P : Alignment} (self : FuseLinks)
    (vectors_ : Vectors) (df_a_ df_b_ : option DataFrame)
    (predictions_ suffix_a_ suffix_b_ : value) (g : rng) :
  resolution_queue self <> [] ->
  mi_tuples (vec_index vectors_) = [] ->
  Forall (valid_job (index_frame (vec_index vectors_)) df_a_ df_b_)
         (resolution_queue self) ->
  let object := initialized self vectors_ df_a_ df_b_
                            predictions_ suffix_a_ suffix_b_ in
  Forall (fun job => job_series object job = Ok []) (resolution_queue self)
  /\ fuse self vectors_ df_a_ df_b_ predictions_ suffix_a_ suffix_b_ g
     = (Ok {| df_index := [];
              df_columns :=
                map (fun j => (j, []))
                    (range_index (length (resolution_queue self))) |},
        object, g).
Proof.
  intros Hne Hzero Hvalid object.
  assert (Hjobs : Forall (fun job => job_series object job = Ok [])
                         (resolution_queue self)).
  { eapply Forall_impl; [|exact Hvalid].
    intros job Hjob. now apply job_series_no_rows. }
  split; [exact Hjobs|].
  rewrite (fuse_converted _ _ _ _ _ _ _ _
             (valid_jobs_labels_distinct _ _ _ _ Hne Hvalid)).
  unfold mbind. cbv zeta.
  change (resolution_queue
            (initialized self vectors_ df_a_ df_b_
               predictions_ suffix_a_ suffix_b_))
    with (resolution_queue self).
  fold object. rewrite (resolve_queue_no_rows object _ g Hjobs).
  unfold lift. now rewrite concat_empty_series.
Qed.

Lemma fuse_zero_pairs_witness :
  let engine :=
    queue_resolve
      (queue_resolve_defaults (FuseLinks_init false false)
         first_value (VStr "name") (VStr "name"))
      keep_record (VStr "name") (VStr "name")
      (VList [VStr "t1"; VStr "t2"; VStr "t3"]) (VStr "t")
      PyNone PyNone false None [] in
  let object :=
    initialized engine (unnamed_pairs []) (Some sample_a) (Some sample_b)
                VNone (VStr "_a") (VStr "_b") in
  resolution_queue engine <> []
  /\ mi_tuples (vec_index (unnamed_pairs [])) = []
  /\ Forall (valid_job (L:=listify_list)
               (index_frame (vec_index (unnamed_pairs [])))
               (Some sample_a) (Some sample_b))
            (resolution_queue engine)
  /\ Forall (fun job => job_series (L:=listify_list) object job = Ok [])
            (resolution_queue engine)
  /\ fuse (L:=listify_list) (P:=object_padding) engine (unnamed_pairs [])
       (Some sample_a) (Some sample_b) VNone (VStr "_a") (VStr "_b") 3%N
     = (Ok {| df_index := [];
              df_columns := [(VInt 0, []); (VInt 1, [])] |},
        object, 3%N).
Proof.
  assert (Hvalid : Forall (valid_job (L:=listify_list)
                             (index_frame (vec_index (unnamed_pairs [])))
                             (Some sample_a) (Some sample_b))
                          (resolution_queue
                             (queue_resolve
                                (queue_resolve_defaults
                                   (FuseLinks_init false false)
                                   first_value (VStr "name") (VStr "name"))
                                keep_record (VStr "name") (VStr "name")
                                (VList [VStr "t1"; VStr "t2"; VStr "t3"])
                                (VStr "t") PyNone PyNone false None []))).
  { repeat (constructor; [vm_compute; repeat split|]). constructor. }
  split; [discriminate|]. split; [reflexivity|]. split; [exact Hvalid|].
  apply (fuse_zero_pairs (L:=listify_list) (P:=object_padding)); auto.
  discriminate.
Defined.

(* ================================================================== *)
(** ** The index of the output *)

Lemma map_fst_combine {A B} (xs : list A) (ys : list B) :
  length xs = length ys -> map fst (combine xs ys) = xs.
Proof.
  revert ys. induction xs as [|x xs IH]; intros [|y ys] H; simpl in *;
    try discriminate; auto.
  f_equal. apply IH. lia.
Qed.

Lemma map_snd_combine {A B} (xs : list A) (ys : list B) :
  length xs = length ys -> map snd (combine xs ys) = ys.
Proof.
  revert ys. induction xs as [|x xs IH]; intros [|y ys] H; simpl in *;
    try discriminate; auto.
  f_equal. apply IH. lia.
Qed.

Lemma combine_fst_snd {A B} (l : list (A * B)) :
  combine (map fst l) (map snd l) = l.
Proof. induction l as [|[a b] l IH]; simpl; congruence. Qed.

Lemma series_of_list_index (data : list value) :
  series_index (series_of_list data) = range_index (length data).
Proof.
  unfold series_index, series_of_list.
  apply map_fst_combine, length_range_index.
Qed.

Lemma series_of_list_values (data : list value) :
  series_values (series_of_list data) = data.
Proof.
  unfold series_values, series_of_list.
  apply map_snd_combine, length_range_index.
Qed.

Lemma series_of_list_length (data : list value) :
  length (series_of_list data) = length data.
Proof.
  unfold series_of_list.
  rewrite length_combine, length_range_index. apply Nat.min_id.
Qed.

Lemma align_Ok_series_of_list {L : Listify} (idx : option DataFrame)
    (table_a table_b : DataFrame) (values_a values_b meta_a meta_b : value)
    (transform_vals transform_meta : pyobj) (static_meta : bool)
    (out : Series) :
  align idx table_a table_b values_a values_b meta_a meta_b
        transform_vals transform_meta static_meta = Ok out ->
  exists records, out = series_of_list records.
Proof.
  unfold align.
  destruct (generalize_flags _ _ (length (listify values_a)) _) as [gva gma].
  destruct (generalize_flags _ _ (length (listify values_b)) _) as [gvb gmb].
  intros H. ok_steps H.
  destruct (negb (is_none meta_a && is_none meta_b)).
  - ok_steps H. inversion H. eauto.
  - inversion H. eauto.
Qed.

Lemma job_series_range_index {L : Listify} (self : FuseLinks) (job : Job)
    (data : Series) :
  job_series self job = Ok data ->
  series_index data = range_index (length data).
Proof.
  unfold job_series, make_resolution_series. intros H. ok_steps H.
  apply align_Ok_series_of_list in H as [records ->].
  now rewrite series_of_list_index, series_of_list_length.
Qed.

Lemma applied_index (f : strategy) (args : list value) (g g' : rng)
    (data col : Series) :
  applied f args g data col g' ->
  series_index col = series_index data /\ length col = length data.
Proof.
  induction 1 as [g|g g1 g2 l v r rest rest' _ _ [IHi IHl]]; simpl; auto.
  split; congruence.
Qed.

Lemma range_index_mem (i n : nat) :
  existsb (value_eqb (VInt (Z.of_nat i))) (range_index n) = (i <? n)%nat.
Proof.
  unfold range_index.
  destruct (i <? n)%nat eqn:Hlt.
  - apply Nat.ltb_lt in Hlt. apply existsb_exists.
    exists (VInt (Z.of_nat i)). split; [|apply value_eqb_refl].
    apply in_map_iff. exists i. split; [reflexivity|].
    apply in_seq. lia.
  - apply Nat.ltb_ge in Hlt.
    destruct (existsb _ _) eqn:Hex; [|reflexivity].
    apply existsb_exists in Hex as (x & Hin & Heq).
    apply value_eqb_true_eq in Heq. subst x.
    apply in_map_iff in Hin as (j & Hj & Hin).
    inversion Hj. apply Nat2Z.inj in H0. subst j.
    apply in_seq in Hin. lia.
Qed.

Lemma filter_beyond (n m : nat) :
  filter (fun i => negb (i <? n)%nat) (seq 0 m) = seq n (m - n).
Proof.
  induction m as [|m IH]; [reflexivity|].
  rewrite seq_S, filter_app, IH.
  change (filter (fun i => negb (i <? n)%nat) [(0 + m)%nat])
    with (if negb (m <? n)%nat then [m] else []).
  destruct (m <? n)%nat eqn:Hlt.
  - apply Nat.ltb_lt in Hlt.
    replace (m - n)%nat with 0%nat by lia.
    replace (S m - n)%nat with 0%nat by lia. reflexivity.
  - apply Nat.ltb_ge in Hlt.
    replace (S m - n)%nat with (S (m - n)) by lia.
    rewrite seq_S. cbn [negb]. repeat f_equal. lia.
Qed.

Lemma filter_map_comm {A B} (p : B -> bool) (f : A -> B) (l : list A) :
  filter p (map f l) = map f (filter (fun x => p (f x)) l).
Proof.
  induction l as [|x l IH]; simpl; [reflexivity|].
  destruct (p (f x)); simpl; now rewrite IH.
Qed.

Lemma index_union_range (n m : nat) :
  index_union (range_index n) (range_index m) = range_index (Nat.max n m).
Proof.
  unfold index_union.
  assert (Hf : filter (fun l => negb (existsb (value_eqb l) (range_index n)))
                      (range_index m)
               = map (fun i => VInt (Z.of_nat i)) (seq n (m - n))).
  { change (range_index m) with (map (fun i => VInt (Z.of_nat i)) (seq 0 m)).
    rewrite filter_map_comm.
    erewrite filter_ext; [now rewrite filter_beyond|].
    intros i. cbv beta. now rewrite range_index_mem. }
  rewrite Hf. unfold range_index. rewrite <- map_app. f_equal.
  replace (Nat.max n m) with (n + (m - n))%nat by lia.
  now rewrite seq_app.
Qed.

Lemma union_of_range_indexes (ks : list nat) (n : nat) :
  fold_left index_union (map range_index ks) (range_index n)
  = range_index (Nat.max n (list_max ks)).
Proof.
  revert n. induction ks as [|k ks IH]; intros n; simpl.
  - now rewrite Nat.max_0_r.
  - rewrite index_union_range, IH. f_equal. lia.
Qed.

Lemma index_eqb_refl (idx : list value) : index_eqb idx idx = true.
Proof.
  induction idx as [|l rest IH]; simpl; [reflexivity|].
  now rewrite value_eqb_refl, IH.
Qed.

Lemma list_max_constant {A} (n : nat) (xs : list A) :
  xs <> [] -> list_max (map (fun _ => n) xs) = n.
Proof.
  assert (Hle : forall ys : list A,
             (list_max (map (fun _ => n) ys) <= n)%nat).
  { induction ys as [|y ys IH]; simpl; lia. }
  destruct xs as [|x xs]; [contradiction|]. intros _.
  simpl. specialize (Hle xs). lia.
Qed.

Lemma union_of_equal_indexes (cols : list Series) (n : nat) :
  cols <> [] ->
  Forall (fun col => series_index col = range_index n) cols ->
  fold_left index_union (map series_index cols) [] = range_index n.
Proof.
  intros Hne Hidx.
  replace (map series_index cols)
    with (map range_index (map (fun _ => n) cols)).
  - change (@nil value) with (range_index 0).
    rewrite union_of_range_indexes, list_max_constant by exact Hne.
    reflexivity.
  - rewrite map_map. apply map_ext_in.
    intros col Hin. rewrite Forall_forall in Hidx. symmetry. now apply Hidx.
Qed.

Lemma concat_axis1_Ok {P : Alignment} (cols : list Series)
    (table : DataFrame) :
  concat_axis1 cols = Ok table ->
  cols <> []
  /\ table = {| df_index :=
                 fold_left index_union (map series_index cols) [];
               df_columns :=
                 combine (range_index (length cols))
                   (map (reindex
                           (fold_left index_union
                              (map series_index cols) []))
                        cols) |}.
Proof.
  destruct cols as [|col rest]; [discriminate|].
  intros H. split; [discriminate|].
  change (concat_axis1 (col :: rest))
    with (Ok {| df_index :=
                  fold_left index_union
                    (map series_index (col :: rest)) [];
                df_columns :=
                  combine (range_index (length (col :: rest)))
                    (map (reindex
                            (fold_left index_union
                               (map series_index (col :: rest)) []))
                         (col :: rest)) |}) in H.
  congruence.
Qed.

(** The columns of the concatenation are numbered in list order. *)
Lemma concat_labels {P : Alignment} (cols : list Series) (table : DataFrame) :
  concat_axis1 cols = Ok table ->
  map fst (df_columns table) = range_index (length cols).
Proof.
  intros H. apply concat_axis1_Ok in H as [_ ->]. cbn [df_columns].
  apply map_fst_combine.
  now rewrite length_range_index, length_map.
Qed.

(** Columns of one common index are put side by side as they are. *)
Lemma concat_equal_indexes {P : Alignment} (cols : list Series) (n : nat)
    (table : DataFrame) :
  Forall (fun col => series_index col = range_index n) cols ->
  concat_axis1 cols = Ok table ->
  df_index table = range_index n
  /\ df_columns table
     = combine (range_index (length cols)) (map series_values cols).
Proof.
  intros Hidx Hcat.
  apply concat_axis1_Ok in Hcat as [Hne ->].
  rewrite (union_of_equal_indexes cols n Hne Hidx).
  cbn [df_index df_columns].
  split; [reflexivity|].
  f_equal. apply map_ext_in. intros col Hin.
  rewrite Forall_forall in Hidx. unfold reindex.
  now rewrite (Hidx col Hin), index_eqb_refl.
Qed.

(* ================================================================== *)
(** ** Tuples and transforms *)

Lemma zip_star_In (cols : list (list value)) (t : list value) :
  In t (zip_star cols) -> Forall2 (fun col x => In x col) cols t.
Proof.
  revert t. induction cols as [|c rest IH]; intros t; simpl; [contradiction|].
  destruct rest as [|c' rest'].
  - intros H. apply in_map_iff in H as (x & <- & Hx).
    repeat constructor. exact Hx.
  - intros H. apply in_map_iff in H as ([x t'] & <- & Hp).
    simpl. constructor.
    + eapply in_combine_l; eauto.
    + apply IH. eapply in_combine_r; eauto.
Qed.

Lemma series_apply_Ok (f : value -> outcome) (s s' : Series) :
  series_apply f s = Ok s' ->
  Forall2 (fun e e' => fst e' = fst e /\ f (snd e) = Returns (snd e')) s s'.
Proof.
  revert s'. induction s as [|[l v] rest IH]; intros s'; simpl.
  - intros H. inversion H. constructor.
  - destruct (f v) as [v'|w] eqn:Hf; [|discriminate].
    intros H. ok_steps H. inversion H; subst. constructor; auto.
Qed.

Lemma apply_each_Ok (f : value -> outcome) (cols cols' : list Series) :
  apply_each f cols = Ok cols' ->
  Forall2 (Forall2 (fun e e' => fst e' = fst e
                                /\ f (snd e) = Returns (snd e')))
          cols cols'.
Proof.
  revert cols'. induction cols as [|s rest IH]; intros cols'; simpl.
  - intros H. inversion H. constructor.
  - intros H. ok_steps H. inversion H; subst.
    constructor; auto using series_apply_Ok.
Qed.

Lemma Forall2_same {A} (R : A -> A -> Prop) (l : list A) :
  (forall x, R x x) -> Forall2 R l l.
Proof. intros HR. induction l; constructor; auto. Qed.

Lemma transform_columns_Ok (t : pyobj) (cols cols' : list Series) :
  transform_columns t cols = Ok cols' ->
  Forall2 (Forall2 (fun e e' => fst e' = fst e
                                /\ transformed t (snd e) (snd e')))
          cols cols'.
Proof.
  unfold transform_columns. destruct t as [|f|v]; simpl.
  - intros H. inversion H; subst.
    apply Forall2_same. intros s. apply Forall2_same. auto.
  - apply apply_each_Ok.
  - discriminate.
Qed.

Lemma static_columns_Ok (idx : option DataFrame) (level : Z) (const : value)
    (n : nat) (cols : list Series) :
  static_columns idx level const n = Ok cols ->
  Forall2 (fun c s => Forall (fun e => snd e = c) s) (repeat const n) cols.
Proof.
  revert cols. induction n as [|n IH]; intros cols; simpl.
  - intros H. inversion H. constructor.
  - intros H. ok_steps H. inversion H; subst. constructor; auto.
    unfold series_with_index in Ha1.
    destruct (Nat.eqb _ _); [|discriminate]. inversion Ha1; subst.
    apply Forall_forall. intros [l v] Hin. simpl.
    apply in_combine_r in Hin. eapply repeat_spec; eauto.
Qed.

Lemma transformed_columns (t : pyobj) (consts : list value)
    (cols cols' : list Series) :
  Forall2 (fun c s => Forall (fun e => snd e = c) s) consts cols ->
  Forall2 (Forall2 (fun e e' : value * value =>
                      fst e' = fst e /\ transformed t (snd e) (snd e')))
          cols cols' ->
  Forall2 (fun c col => Forall (transformed t c) col)
          consts (map series_values cols').
Proof.
  intros Hc. revert cols'.
  induction Hc as [|c s consts cols Hs _ IH]; intros cols' Ht;
    inversion Ht; subst; simpl; constructor; auto.
  match goal with H : Forall2 _ s _ |- _ => rename H into Hrow end.
  clear - Hs Hrow. unfold series_values.
  induction Hrow as [|e e' s s' [_ He] _ IHrow]; simpl; constructor.
  - inversion Hs; subst. exact He.
  - apply IHrow. now inversion Hs.
Qed.

Lemma tuple_of_transformed (t : pyobj) (consts : list value)
    (cols : list (list value)) (tuple : list value) :
  Forall2 (fun c col => Forall (transformed t c) col) consts cols ->
  In tuple (zip_star cols) ->
  Forall2 (transformed t) consts tuple.
Proof.
  intros Hc Hin. apply zip_star_In in Hin.
  revert tuple Hin. induction Hc as [|c col consts cols Hcol _ IH];
    intros tuple Hin; inversion Hin; subst; constructor; auto.
  rewrite Forall_forall in Hcol. auto.
Qed.

Lemma Forall2_eq {A} (xs ys : list A) : Forall2 eq xs ys -> ys = xs.
Proof. induction 1; congruence. Qed.

(** C3 (amended): for every job with static metadata and metadata given for
    both sides, every pair's metadata tuple consists of the side-A constant
    replicated [len(values_a)] times followed by the side-B constant
    replicated [len(values_b)] times, each passed through the metadata
    transform when one is given, with no per-record lookup; so when no
    metadata transform is given, every element of the metadata tuple equals
    the constant supplied for its side, whatever the tables hold. *)
Theorem static_metadata_constant {L : Listify} (self : FuseLinks)
    (values_a values_b meta_a meta_b : value)
    (transform_vals transform_meta : pyobj) (out : Series) :
  is_none meta_a && is_none meta_b = false ->
  make_resolution_series self values_a values_b meta_a meta_b
    transform_vals transform_meta true = Ok out ->
  let constants :=
    repeat meta_a (length (listify values_a))
    ++ repeat meta_b (length (listify values_b)) in
  Forall (fun row =>
            exists values metadata,
              snd row = VTuple [VTuple values; VTuple metadata]
              /\ Forall2 (transformed transform_meta) constants metadata
              /\ (transform_meta = PyNone -> metadata = constants))
         out.
Proof.
  intros Huse Hout constants.
  unfold make_resolution_series in Hout. ok_steps Hout.
  unfold align in Hout. rewrite Huse in Hout. simpl in Hout.
  ok_steps Hout. inversion Hout; subst out; clear Hout.
  match goal with
  | Hma : metadata_columns _ _ 0 true _ _ _ _ = Ok ?mda,
    Hmb : metadata_columns _ _ 1 true _ _ _ _ = Ok ?mdb,
    Htm : transform_columns transform_meta (?mda ++ ?mdb) = Ok ?md |- _ =>
      unfold metadata_columns in Hma, Hmb;
      apply static_columns_Ok in Hma, Hmb;
      apply transform_columns_Ok in Htm;
      assert (Hcols : Forall2 (fun c col =>
                                 Forall (transformed transform_meta c) col)
                              constants (map series_values md))
        by (eapply transformed_columns; [|exact Htm];
            unfold constants; now apply Forall2_app)
  end.
  apply Forall_forall. intros [l record] Hrow.
  unfold series_of_list in Hrow. apply in_combine_r in Hrow.
  apply in_map_iff in Hrow as ([values metadata] & <- & Hpair).
  apply in_combine_r in Hpair.
  exists values, metadata. split; [reflexivity|].
  pose proof (tuple_of_transformed _ _ _ _ Hcols Hpair) as Hmeta.
  split; [exact Hmeta|].
  intros ->. simpl in Hmeta.
  apply Forall2_eq. clear - Hmeta.
  induction Hmeta; constructor; auto.
Qed.

Lemma static_metadata_constant_witness :
  let out :=
    [ (VInt 0, VTuple [VTuple [VStr "Ann"; VStr "John"];
                       VTuple [VStr "a"; VStr "b"]]);
      (VInt 1, VTuple [VTuple [VStr "Jon"; VStr "Anne"];
                       VTuple [VStr "a"; VStr "b"]]) ] in
  is_none (VStr "a") && is_none (VStr "b") = false
  /\ make_resolution_series (L:=listify_list) loaded
       (VStr "name") (VStr "name") (VStr "a") (VStr "b")
       PyNone PyNone true = Ok out
  /\ Forall (fun row =>
               exists values metadata,
                 snd row = VTuple [VTuple values; VTuple metadata]
                 /\ Forall2 (transformed PyNone)
                            [VStr "a"; VStr "b"] metadata
                 /\ (PyNone = PyNone -> metadata = [VStr "a"; VStr "b"]))
            out.
Proof.
  split; [reflexivity|]. split; [reflexivity|].
  apply (static_metadata_constant (L:=listify_list) loaded
           (VStr "name") (VStr "name") (VStr "a") (VStr "b")
           PyNone PyNone); reflexivity.
Defined.

(** C3 (as stated) fails: with a metadata transform the elements of the
    metadata tuple are the transformed constants, here the rank 0 for both
    sides instead of the constants ["a"] and ["b"]. *)
Lemma static_metadata_transformed :
  make_resolution_series (L:=listify_list) loaded
    (VStr "name") (VStr "name") (VStr "a") (VStr "b")
    PyNone rank_zero true
  = Ok [ (VInt 0, VTuple [VTuple [VStr "Ann"; VStr "John"];
                          VTuple [VInt 0; VInt 0]]);
         (VInt 1, VTuple [VTuple [VStr "Jon"; VStr "Anne"];
                          VTuple [VInt 0; VInt 0]]) ]
  /\ [VInt 0; VInt 0] <> [VStr "a"; VStr "b"].
Proof. split; [reflexivity|discriminate]. Qed.

(* ================================================================== *)
(** ** Direct fetches follow the pair index *)

Lemma rows_at_In (s : Series) (k : value) (e : value * value) :
  In e (rows_at s k) -> In e s /\ fst e = k.
Proof.
  unfold rows_at. intros H. apply filter_In in H as [Hin Heq].
  split; [exact Hin|]. now apply value_eqb_true_eq.
Qed.

Lemma rows_at_unique (s : Series) (k : value) :
  NoDup (series_index s) ->
  rows_at s k = []
  \/ exists e, rows_at s k = [e] /\ fst e = k /\ In e s.
Proof.
  unfold series_index.
  induction s as [|e s IH]; simpl; intros Hnd; [auto|].
  inversion Hnd as [|x xs Hnotin Hnd']; subst.
  destruct (value_eqb (fst e) k) eqn:Heq.
  - right. exists e. apply value_eqb_true_eq in Heq.
    split; [|auto].
    destruct (rows_at s k) as [|e' hits] eqn:Hhits; [reflexivity|].
    exfalso. apply Hnotin.
    assert (Hin : In e' (rows_at s k)) by (rewrite Hhits; now left).
    apply rows_at_In in Hin as [Hin Hk].
    rewrite Heq, <- Hk. now apply in_map.
  - destruct (IH Hnd') as [Hnone|(e' & Hone & Hk & Hin)]; [auto|].
    right. exists e'. auto.
Qed.

Lemma loc_unique (s : Series) (keys : list value) (rows : Series) :
  NoDup (series_index s) ->
  loc s keys = Ok rows ->
  Forall2 (fun k e => fst e = k /\ In e s) keys rows.
Proof.
  intros Hnd. revert rows. induction keys as [|k ks IH]; intros rows; simpl.
  - intros H. inversion H. constructor.
  - destruct (rows_at_unique s k Hnd) as [Hnone|(e & Hone & Hk & Hin)].
    + rewrite Hnone. discriminate.
    + rewrite Hone. intros H. ok_steps H. inversion H; subst.
      simpl. constructor; auto.
Qed.

Lemma combine_index_NoDup {B} (labels : list value) (cells : list B) :
  NoDup labels -> NoDup (map fst (combine labels cells)).
Proof.
  intros Hnd. revert cells.
  induction Hnd as [|l labels Hnotin _ IH]; intros [|c cells]; simpl;
    try constructor; auto.
  intros Hin. apply Hnotin.
  apply in_map_iff in Hin as ([l' c'] & <- & Hin).
  eapply in_combine_l; eauto.
Qed.

Lemma df_getitem_NoDup (df : DataFrame) (name : value) (col : Series) :
  NoDup (df_index df) ->
  df_getitem df name = Ok col ->
  NoDup (series_index col).
Proof.
  unfold df_getitem. intros Hnd.
  destruct (assoc name (df_columns df)); [|discriminate].
  intros H. inversion H. now apply combine_index_NoDup.
Qed.

Lemma fetch_columns_Ok (df frame : DataFrame) (level : Z)
    (ids : Series) (names : list value) (data : list Series) :
  NoDup (df_index df) ->
  df_getitem frame (VInt level) = Ok ids ->
  fetch_columns df (Some frame) level names = Ok data ->
  Forall2 (fun name s =>
             exists col,
               df_getitem df name = Ok col
               /\ Forall2 (fun id e => fst e = id /\ In e col)
                          (series_values ids) s)
          names data.
Proof.
  intros Hnd Hids. revert data.
  induction names as [|name rest IH]; intros data; simpl.
  - intros H. inversion H. constructor.
  - rewrite Hids. intros H. ok_steps H. inversion H; subst.
    simpl in *. inversion Ha0; subst.
    constructor; auto.
    exists a. split; [assumption|].
    eapply loc_unique; eauto. eapply df_getitem_NoDup; eauto.
Qed.

Lemma zip_star_length (cols : list (list value)) (n : nat) :
  cols <> [] ->
  Forall (fun col => length col = n) cols ->
  length (zip_star cols) = n.
Proof.
  intros Hne Hlen. induction Hlen as [|c rest Hc Hrest IH];
    [contradiction|].
  simpl. destruct rest as [|c' rest'].
  - now rewrite length_map.
  - rewrite length_map, length_combine, IH by discriminate. lia.
Qed.

Lemma Forall2_singletons {A} (R : A -> value -> Prop) (ids : list A)
    (col : list value) :
  Forall2 R ids col ->
  Forall2 (fun id t => exists x, t = [x] /\ R id x)
          ids (map (fun x => [x]) col).
Proof. induction 1; simpl; constructor; eauto. Qed.

Lemma Forall2_cons_tuples {A} (R : A -> value -> Prop)
    (S : A -> list value -> Prop) (ids : list A) (col : list value)
    (tuples : list (list value)) :
  Forall2 R ids col ->
  Forall2 S ids tuples ->
  Forall2 (fun id t => exists x t', t = x :: t' /\ R id x /\ S id t')
          ids (map (fun p => fst p :: snd p) (combine col tuples)).
Proof.
  intros HR. revert tuples.
  induction HR as [|id x ids col Hx _ IH]; intros tuples HS;
    inversion HS; subst; simpl; constructor; eauto.
Qed.

(** Transposition: when every column holds, row by row, a cell related to
    the row's id and the column's name, every tuple of the zip holds, name
    by name, a cell related to its row's id. *)
Lemma zip_star_transpose {A N} (P : A -> N -> value -> Prop)
    (ids : list A) (names : list N) (cols : list (list value)) :
  names <> [] ->
  Forall2 (fun name col => Forall2 (fun id x => P id name x) ids col)
          names cols ->
  Forall2 (fun id tuple => Forall2 (P id) names tuple) ids (zip_star cols).
Proof.
  intros Hne Hcols.
  induction Hcols as [|name col names cols Hcol Hrest IH]; [contradiction|].
  simpl. destruct Hrest as [|name' col' names' cols' Hcol' Hrest'].
  - apply Forall2_singletons in Hcol.
    eapply Forall2_impl; [|exact Hcol].
    intros id t (x & -> & Hx). repeat constructor. exact Hx.
  - assert (IH' := IH ltac:(discriminate)). clear IH.
    pose proof (Forall2_cons_tuples _ _ _ _ _ Hcol IH') as H.
    eapply Forall2_impl; [|exact H].
    intros id t (x & t' & -> & Hx & Ht'). constructor; auto.
Qed.

Lemma Forall2_map_l {A B C} (R : B -> C -> Prop) (f : A -> B)
    (xs : list A) (ys : list C) :
  Forall2 R (map f xs) ys <-> Forall2 (fun x y => R (f x) y) xs ys.
Proof.
  split.
  - revert ys. induction xs as [|x xs IH]; intros ys H; inversion H; subst;
      constructor; auto.
  - induction 1; simpl; constructor; auto.
Qed.

Lemma Forall2_map_r {A B C} (R : A -> C -> Prop) (f : B -> C)
    (xs : list A) (ys : list B) :
  Forall2 R xs (map f ys) <-> Forall2 (fun x y => R x (f y)) xs ys.
Proof.
  split.
  - revert xs. induction ys as [|y ys IH]; intros xs H; inversion H; subst;
      constructor; auto.
  - induction 1; simpl; constructor; auto.
Qed.

Lemma Forall2_combine_l {A B C} (R : A -> B -> Prop)
    (xs : list A) (ys : list B) (zs : list C) :
  Forall2 R xs ys ->
  length zs = length xs ->
  Forall2 (fun x p => R x (fst p)) xs (combine ys zs).
Proof.
  intros H. revert zs. induction H as [|x y xs ys Hxy _ IH]; intros [|z zs] Hl;
    simpl in *; try discriminate; constructor; auto.
Qed.

Lemma Forall2_compose {A B C} (R : A -> B -> Prop) (S : B -> C -> Prop)
    (xs : list A) (ys : list B) (zs : list C) :
  Forall2 R xs ys -> Forall2 S ys zs ->
  Forall2 (fun x z => exists y, R x y /\ S y z) xs zs.
Proof.
  intros H. revert zs. induction H as [|x y xs ys Hxy _ IH]; intros zs Hs;
    inversion Hs; subst; constructor; eauto.
Qed.

Lemma unnamed_getitem (mi : MultiIndex) :
  mi_names mi = (None, None) ->
  (exists ids, df_getitem (index_frame mi) (VInt 0) = Ok ids
               /\ series_values ids = map fst (mi_tuples mi))
  /\ (exists ids, df_getitem (index_frame mi) (VInt 1) = Ok ids
                  /\ series_values ids = map snd (mi_tuples mi)).
Proof.
  intros Hnames. unfold df_getitem, index_frame. rewrite Hnames. simpl.
  split; eexists; (split; [reflexivity|]);
    unfold series_values; apply map_snd_combine; now rewrite !length_map.
Qed.

Lemma fetched_column (df : DataFrame) (tv : pyobj) (name : value)
    (col : Series) {A} (sel : A -> value) (tuples : list A) (s s' : Series) :
  df_getitem df name = Ok col ->
  Forall2 (fun id e => fst e = id /\ In e col) (map sel tuples) s ->
  Forall2 (fun e e' : value * value =>
             fst e' = fst e /\ transformed tv (snd e) (snd e')) s s' ->
  Forall2 (fun pair x => fetched df tv (sel pair) name x)
          tuples (series_values s').
Proof.
  intros Hcol Hs Ht. apply Forall2_map_l in Hs.
  unfold series_values. apply Forall2_map_r.
  eapply Forall2_impl; [|exact (Forall2_compose _ _ _ _ _ Hs Ht)].
  intros pair e' ([l raw] & [Hl Hin] & [_ Htr]). simpl in *. subst l.
  exists col, raw. auto.
Qed.

Lemma fetched_columns (df : DataFrame) (tv : pyobj) {A} (sel : A -> value)
    (tuples : list A) (names : list value) (data data' : list Series) :
  Forall2 (fun name s =>
             exists col,
               df_getitem df name = Ok col
               /\ Forall2 (fun id e => fst e = id /\ In e col)
                          (map sel tuples) s)
          names data ->
  Forall2 (Forall2 (fun e e' : value * value =>
                      fst e' = fst e /\ transformed tv (snd e) (snd e')))
          data data' ->
  Forall2 (fun name col =>
             Forall2 (fun pair x => fetched df tv (sel pair) name x)
                     tuples col)
          names (map series_values data').
Proof.
  intros Hd. revert data'.
  induction Hd as [|name s names data (col & Hcol & Hs) _ IH];
    intros data' Ht; inversion Ht; subst; simpl; constructor; auto.
  eapply fetched_column; eauto.
Qed.

Lemma transform_columns_lens (t : pyobj) (cols cols' : list Series) :
  transform_columns t cols = Ok cols' -> lens cols' = lens cols.
Proof.
  intros H. apply transform_columns_Ok in H. unfold lens.
  induction H as [|s s' cols cols' Hs _ IH]; simpl; [reflexivity|].
  f_equal; [|exact IH]. symmetry. eapply Forall2_length; eauto.
Qed.

Lemma fetch_columns_lens (df frame : DataFrame) (level : Z) (ids : Series)
    (names : list value) (data : list Series) :
  NoDup (df_index df) ->
  df_getitem frame (VInt level) = Ok ids ->
  fetch_columns df (Some frame) level names = Ok data ->
  lens data = repeat (length ids) (length names).
Proof.
  intros Hnd Hids H.
  pose proof (fetch_columns_Ok df frame level ids names data Hnd Hids H) as Hd.
  unfold lens. clear H.
  induction Hd as [|name s names data (col & _ & Hs) _ IH]; simpl;
    [reflexivity|].
  f_equal; [|exact IH].
  apply Forall2_length in Hs. unfold series_values in Hs.
  now rewrite length_map in Hs.
Qed.

Lemma static_columns_lens (frame : DataFrame) (level : Z) (const : value)
    (n : nat) (cols : list Series) :
  static_columns (Some frame) level const n = Ok cols ->
  lens cols = repeat (df_len frame) n.
Proof.
  revert cols. induction n as [|n IH]; intros cols; simpl.
  - intros H. inversion H. reflexivity.
  - intros H. ok_steps H. inversion H; subst. simpl.
    f_equal; [|now apply IH].
    match goal with
    | Hs : series_with_index (repeat const _) _ = Ok _ |- _ =>
        unfold series_with_index in Hs;
        destruct (Nat.eqb _ _) eqn:Heq in Hs; [|discriminate];
        apply Nat.eqb_eq in Heq; inversion Hs; subst
    end.
    rewrite length_combine, <- Heq, repeat_length. apply Nat.min_id.
Qed.

Lemma zip_star_lens_length (cols : list Series) (n k : nat) :
  lens cols = repeat n k -> k <> 0%nat ->
  length (zip_star (map series_values cols)) = n.
Proof.
  intros Hlens Hk. apply zip_star_length.
  - destruct cols; [|discriminate].
    destruct k; [contradiction|discriminate].
  - apply Forall_forall. intros col Hin.
    apply in_map_iff in Hin as (s & <- & Hin).
    unfold series_values. rewrite length_map.
    assert (Hl : In (length s) (lens cols)) by (unfold lens; now apply in_map).
    rewrite Hlens in Hl. now apply repeat_spec in Hl.
Qed.

Lemma direct_flags {L : Listify} (values_a values_b meta_a meta_b : value)
    (static_meta : bool) :
  no_generalization values_a values_b meta_a meta_b static_meta ->
  let use_meta := negb (is_none meta_a && is_none meta_b) in
  let cols_a := if use_meta && negb static_meta then listify meta_a else [] in
  let cols_b := if use_meta && negb static_meta then listify meta_b else [] in
  forall gva gma gvb gmb,
    generalize_flags use_meta static_meta
      (length (listify values_a)) (length cols_a) = (gva, gma) ->
    generalize_flags use_meta static_meta
      (length (listify values_b)) (length cols_b) = (gvb, gmb) ->
    is_True gva = false /\ is_True gma = false
    /\ is_True gvb = false /\ is_True gmb = false
    /\ (use_meta && negb static_meta = true ->
        length cols_a = length (listify values_a)
        /\ length cols_b = length (listify values_b)).
Proof.
  intros Hno use_meta cols_a cols_b gva gma gvb gmb.
  unfold generalize_flags, cols_a, cols_b.
  destruct (use_meta && negb static_meta) eqn:Hmode.
  - apply andb_true_iff in Hmode as [Huse Hstatic].
    apply negb_true_iff in Hstatic. unfold use_meta in Huse.
    apply negb_true_iff in Huse.
    destruct Hno as [Hno|[Hno|[Ha Hb]]]; [congruence|congruence|].
    rewrite Ha, Hb, !Nat.ltb_irrefl.
    intros Fa Fb. inversion Fa; inversion Fb; subst. simpl. auto 10.
  - intros Fa Fb. inversion Fa; inversion Fb; subst. simpl.
    repeat split; auto; discriminate.
Qed.

Lemma split_by_side (ta tb : DataFrame) (tv : pyobj) (matched : value * value)
    (names_a names_b : list value) (tuple : list value) :
  Forall2 (fun (tagged : bool * value) x =>
             if fst tagged
             then fetched ta tv (fst matched) (snd tagged) x
             else fetched tb tv (snd matched) (snd tagged) x)
          (map (pair true) names_a ++ map (pair false) names_b) tuple ->
  exists cells_a cells_b,
    tuple = cells_a ++ cells_b
    /\ Forall2 (fetched ta tv (fst matched)) names_a cells_a
    /\ Forall2 (fetched tb tv (snd matched)) names_b cells_b.
Proof.
  intros H. apply Forall2_app_inv_l in H as (ca & cb & Ha & Hb & ->).
  apply Forall2_map_l in Ha, Hb. simpl in Ha, Hb.
  exists ca, cb. auto.
Qed.

Lemma Forall2_series_of_list {A} (Q : A -> value -> Prop) (xs : list A)
    (records : list value) :
  Forall2 Q xs records ->
  Forall2 (fun x row => Q x (snd row)) xs (series_of_list records).
Proof.
  intros H. apply (proj1 (Forall2_map_r Q snd xs (series_of_list records))).
  fold (series_values (series_of_list records)).
  now rewrite series_of_list_values.
Qed.

Lemma align_direct {L : Listify} (mi : MultiIndex)
    (table_a table_b : DataFrame) (values_a values_b meta_a meta_b : value)
    (transform_vals transform_meta : pyobj) (static_meta : bool)
    (out : Series) :
  mi_names mi = (None, None) ->
  NoDup (df_index table_a) -> NoDup (df_index table_b) ->
  no_generalization values_a values_b meta_a meta_b static_meta ->
  listify values_a ++ listify values_b <> [] ->
  align (Some (index_frame mi)) table_a table_b
        values_a values_b meta_a meta_b
        transform_vals transform_meta static_meta = Ok out ->
  Forall2 (fun matched row =>
             exists cells_a cells_b rest,
               snd row = VTuple (VTuple (cells_a ++ cells_b) :: rest)
               /\ Forall2 (fetched table_a transform_vals (fst matched))
                          (listify values_a) cells_a
               /\ Forall2 (fetched table_b transform_vals (snd matched))
                          (listify values_b) cells_b)
          (mi_tuples mi) out.
Proof.
  intros Hnames Hnda Hndb Hno Hne Hout.
  destruct (unnamed_getitem mi Hnames)
    as [(ids0 & H0 & Hv0) (ids1 & H1 & Hv1)].
  pose proof (direct_flags values_a values_b meta_a meta_b static_meta Hno)
    as Hflags. cbv zeta in Hflags.
  unfold align in Hout.
  set (va := listify values_a) in *.
  set (vb := listify values_b) in *.
  set (use_meta := negb (is_none meta_a && is_none meta_b)) in *.
  set (cols_a := if use_meta && negb static_meta then listify meta_a else [])
    in *.
  set (cols_b := if use_meta && negb static_meta then listify meta_b else [])
    in *.
  destruct (generalize_flags use_meta static_meta (length va) (length cols_a))
    as [gva gma] eqn:Fa.
  destruct (generalize_flags use_meta static_meta (length vb) (length cols_b))
    as [gvb gmb] eqn:Fb.
  destruct (Hflags gva gma gvb gmb eq_refl eq_refl)
    as (Gva & Gma & Gvb & Gmb & Hcount).
  clear Hflags.
  unfold value_columns in Hout. rewrite Gva, Gvb in Hout.
  apply rbind_Ok in Hout as (data_a & Hda & Hout).
  apply rbind_Ok in Hout as (data_b & Hdb & Hout).
  apply rbind_Ok in Hout as (value_data & Hvd & Hout).
  (* the value tuples *)
  pose proof (fetch_columns_Ok _ _ _ _ _ _ Hnda H0 Hda) as Ra.
  pose proof (fetch_columns_Ok _ _ _ _ _ _ Hndb H1 Hdb) as Rb.
  rewrite Hv0 in Ra. rewrite Hv1 in Rb.
  pose proof (transform_columns_Ok _ _ _ Hvd) as Rt.
  apply Forall2_app_inv_l in Rt as (vd_a & vd_b & Rta & Rtb & ->).
  pose proof (fetched_columns table_a transform_vals fst
                (mi_tuples mi) va data_a vd_a Ra Rta) as Ca.
  pose proof (fetched_columns table_b transform_vals snd
                (mi_tuples mi) vb data_b vd_b Rb Rtb) as Cb.
  set (cell := fun (matched : value * value) (tagged : bool * value) x =>
                 if fst tagged
                 then fetched table_a transform_vals (fst matched)
                        (snd tagged) x
                 else fetched table_b transform_vals (snd matched)
                        (snd tagged) x).
  assert (Hcols : Forall2 (fun tagged col =>
                             Forall2 (fun matched x => cell matched tagged x)
                                     (mi_tuples mi) col)
                          (map (pair true) va ++ map (pair false) vb)
                          (map series_values (vd_a ++ vd_b))).
  { rewrite map_app. apply Forall2_app; apply Forall2_map_l; assumption. }
  assert (Htagged : map (pair true) va ++ map (pair false) vb <> []).
  { intros Heq. apply app_eq_nil in Heq as [Ea Eb].
    apply map_eq_nil in Ea, Eb. apply Hne. now rewrite Ea, Eb. }
  pose proof (zip_star_transpose cell _ _ _ Htagged Hcols) as Htuples.
  set (value_tuples := zip_star (map series_values (vd_a ++ vd_b))) in *.
  assert (Hrows : Forall2 (fun matched tuple =>
                             exists cells_a cells_b,
                               tuple = cells_a ++ cells_b
                               /\ Forall2 (fetched table_a transform_vals
                                             (fst matched)) va cells_a
                               /\ Forall2 (fetched table_b transform_vals
                                             (snd matched)) vb cells_b)
                          (mi_tuples mi) value_tuples).
  { eapply Forall2_impl; [|exact Htuples].
    intros matched tuple. apply split_by_side. }
  clear Htuples Hcols.
  destruct use_meta eqn:Huse.
  - (* with metadata: as many metadata tuples as pairs *)
    apply rbind_Ok in Hout as (md_a & Hma & Hout).
    apply rbind_Ok in Hout as (md_b & Hmb & Hout).
    apply rbind_Ok in Hout as (metadata & Hmd & Hout).
    inversion Hout; subst out; clear Hout.
    assert (Hlen0 : length ids0 = length (mi_tuples mi)).
    { rewrite <- (length_map snd ids0). fold (series_values ids0).
      now rewrite Hv0, length_map. }
    assert (Hlen1 : length ids1 = length (mi_tuples mi)).
    { rewrite <- (length_map snd ids1). fold (series_values ids1).
      now rewrite Hv1, length_map. }
    assert (Hlens : lens (md_a ++ md_b)
                    = repeat (length (mi_tuples mi))
                             (length va + length vb)).
    { rewrite lens_app, repeat_app. unfold metadata_columns in Hma, Hmb.
      destruct static_meta.
      - apply static_columns_lens in Hma, Hmb.
        rewrite Hma, Hmb. unfold df_len, index_frame. simpl.
        now rewrite length_map.
      - rewrite Gma in Hma. rewrite Gmb in Hmb.
        destruct (Hcount eq_refl) as [Hca Hcb].
        rewrite (fetch_columns_lens _ _ _ _ _ _ Hnda H0 Hma).
        rewrite (fetch_columns_lens _ _ _ _ _ _ Hndb H1 Hmb).
        now rewrite Hlen0, Hlen1, Hca, Hcb. }
    rewrite <- (transform_columns_lens _ _ _ Hmd) in Hlens.
    assert (Hmt : length (zip_star (map series_values metadata))
                  = length (mi_tuples mi)).
    { eapply zip_star_lens_length; [exact Hlens|].
      intros Hz. apply Hne.
      destruct va, vb; simpl in Hz; try discriminate. reflexivity. }
    apply (Forall2_series_of_list
             (fun matched record =>
                exists cells_a cells_b rest,
                  record = VTuple (VTuple (cells_a ++ cells_b) :: rest)
                  /\ Forall2 (fetched table_a transform_vals (fst matched))
                             va cells_a
                  /\ Forall2 (fetched table_b transform_vals (snd matched))
                             vb cells_b)).
    apply (proj2 (Forall2_map_r _ _ _ _)).
    eapply Forall2_impl;
      [|exact (Forall2_combine_l _ _ _ _ Hrows Hmt)].
    intros matched [tuple meta] (ca & cb & Ht & Hca & Hcb). simpl in *.
    subst tuple. exists ca, cb, [VTuple meta]. auto.
  - (* without metadata *)
    inversion Hout; subst out; clear Hout.
    apply (Forall2_series_of_list
             (fun matched record =>
                exists cells_a cells_b rest,
                  record = VTuple (VTuple (cells_a ++ cells_b) :: rest)
                  /\ Forall2 (fetched table_a transform_vals (fst matched))
                             va cells_a
                  /\ Forall2 (fetched table_b transform_vals (snd matched))
                             vb cells_b)).
    apply (proj2 (Forall2_map_r _ _ _ _)).
    eapply Forall2_impl; [|exact Hrows].
    intros matched tuple (ca & cb & Ht & Hca & Hcb). simpl.
    subst tuple. exists ca, cb, []. auto.
Qed.

Lemma applied_rows (f : strategy) (args : list value) (g g' : rng)
    (data col : Series) :
  applied f args g data col g' ->
  Forall2 (fun row res =>
             exists gi gi', f (snd row) args gi = (Returns (snd res), gi'))
          data col.
Proof.
  induction 1 as [g|g g1 g2 l v r rest rest' Hf _ IH]; constructor; eauto.
Qed.

(** C4: for every job whose columns are fetched directly (no
    generalization), on tables keyed by record id and a pair index with
    unnamed levels, the series the job builds has one row per pair, in pair
    order: row i is labelled i and its values tuple lists, for the i-th
    pair, the cells of the side-A columns at the pair's A record in
    declared order followed by the cells of the side-B columns at the
    pair's B record (each as the value transform leaves it); and the output
    column has the same rows, row i being what the strategy returned for
    row i of that series. *)
Theorem direct_values_follow_pairs {L : Listify} (self : FuseLinks)
    (mi : MultiIndex) (table_a table_b : DataFrame)
    (values_a values_b meta_a meta_b : value)
    (transform_vals transform_meta : pyobj) (static_meta : bool)
    (out : Series) :
  index self = Some (index_frame mi) ->
  mi_names mi = (None, None) ->
  df_a self = Some table_a ->
  df_b self = Some table_b ->
  NoDup (df_index table_a) ->
  NoDup (df_index table_b) ->
  no_generalization values_a values_b meta_a meta_b static_meta ->
  listify values_a ++ listify values_b <> [] ->
  make_resolution_series self values_a values_b meta_a meta_b
    transform_vals transform_meta static_meta = Ok out ->
  series_index out = range_index (length (mi_tuples mi))
  /\ Forall2 (fun matched row =>
                exists cells_a cells_b rest,
                  snd row = VTuple (VTuple (cells_a ++ cells_b) :: rest)
                  /\ Forall2 (fetched table_a transform_vals (fst matched))
                             (listify values_a) cells_a
                  /\ Forall2 (fetched table_b transform_vals (snd matched))
                             (listify values_b) cells_b)
             (mi_tuples mi) out
  /\ forall f params g col g',
       resolve f out params g = (Ok col, g') ->
       series_index col = range_index (length (mi_tuples mi))
       /\ Forall2 (fun row res =>
                     exists gi gi',
                       f (snd row) (extra_args params) gi
                       = (Returns (snd res), gi'))
                  out col.
Proof.
  intros Hidx Hnames Hta Htb Hnda Hndb Hno Hne Hout.
  unfold make_resolution_series in Hout.
  apply rbind_Ok in Hout as ([ta tb] & Hcheck & Hout).
  pose proof (check_inputs_spec self meta_a meta_b
                transform_vals transform_meta) as Hc.
  rewrite Hcheck in Hc. destruct Hc as (_ & Ha & Hb).
  rewrite Hta in Ha. rewrite Htb in Hb.
  inversion Ha; inversion Hb; subst ta tb. simpl in Hout.
  rewrite Hidx in Hout.
  pose proof (align_direct mi table_a table_b values_a values_b
                meta_a meta_b transform_vals transform_meta static_meta out
                Hnames Hnda Hndb Hno Hne Hout) as Hrows.
  assert (Hindex : series_index out = range_index (length (mi_tuples mi))).
  { apply align_Ok_series_of_list in Hout as [records ->].
    rewrite series_of_list_index.
    apply Forall2_length in Hrows.
    rewrite series_of_list_length in Hrows. now rewrite Hrows. }
  split; [exact Hindex|]. split; [exact Hrows|].
  intros f params g col g' Hcol.
  unfold resolve in Hcol. apply series_apply_args_applied in Hcol.
  split.
  - destruct (applied_index _ _ _ _ _ _ Hcol) as [Hi _]. congruence.
  - eapply applied_rows; eauto.
Qed.

Lemma direct_values_follow_pairs_witness :
  let out :=
    [ (VInt 0, VTuple [VTuple [VStr "Ann"; VStr "John"]]);
      (VInt 1, VTuple [VTuple [VStr "Jon"; VStr "Anne"]]) ] in
  make_resolution_series (L:=listify_list) loaded
    (VStr "name") (VStr "name") VNone VNone PyNone PyNone false = Ok out
  /\ series_index out = range_index (length (mi_tuples (vec_index two_pairs)))
  /\ Forall2 (fun matched row =>
                exists cells_a cells_b rest,
                  snd row = VTuple (VTuple (cells_a ++ cells_b) :: rest)
                  /\ Forall2 (fetched sample_a PyNone (fst matched))
                             [VStr "name"] cells_a
                  /\ Forall2 (fetched sample_b PyNone (snd matched))
                             [VStr "name"] cells_b)
             (mi_tuples (vec_index two_pairs)) out.
Proof.
  split; [reflexivity|].
  assert (Hnda : NoDup (df_index sample_a)).
  { repeat constructor; simpl; intuition discriminate. }
  assert (Hndb : NoDup (df_index sample_b)).
  { repeat constructor; simpl; intuition discriminate. }
  assert (Hno : no_generalization (L:=listify_list)
                  (VStr "name") (VStr "name") VNone VNone false).
  { left. reflexivity. }
  assert (Hne : listify (Listify:=listify_list) (VStr "name")
                ++ listify (Listify:=listify_list) (VStr "name") <> []).
  { discriminate. }
  pose proof (direct_values_follow_pairs (L:=listify_list) loaded
                (vec_index two_pairs) sample_a sample_b
                (VStr "name") (VStr "name") VNone VNone PyNone PyNone false
                _ eq_refl eq_refl eq_refl eq_refl Hnda Hndb Hno Hne eq_refl)
    as (H1 & H2 & _).
  split; [exact H1|exact H2].
Defined.

(* ================================================================== *)
(** ** The index of the fused table *)

Lemma direct_series_rows {L : Listify} (self : FuseLinks) (mi : MultiIndex)
    (table_a table_b : DataFrame) (job : Job) (data : Series) :
  index self = Some (index_frame mi) ->
  mi_names mi = (None, None) ->
  df_a self = Some table_a ->
  df_b self = Some table_b ->
  NoDup (df_index table_a) ->
  NoDup (df_index table_b) ->
  direct_job job ->
  job_series self job = Ok data ->
  Forall2 (fun matched row =>
             exists cells_a cells_b rest,
               snd row = VTuple (VTuple (cells_a ++ cells_b) :: rest)
               /\ Forall2 (fetched table_a (job_transform_vals job)
                             (fst matched))
                          (listify (job_values_a job)) cells_a
               /\ Forall2 (fetched table_b (job_transform_vals job)
                             (snd matched))
                          (listify (job_values_b job)) cells_b)
          (mi_tuples mi) data.
Proof.
  intros Hidx Hnames Hta Htb Hnda Hndb [Hno Hne] Hout.
  unfold job_series, make_resolution_series in Hout.
  apply rbind_Ok in Hout as ([ta tb] & Hcheck & Hout).
  pose proof (check_inputs_spec self (job_meta_a job) (job_meta_b job)
                (job_transform_vals job) (job_transform_meta job)) as Hc.
  rewrite Hcheck in Hc. destruct Hc as (_ & Ha & Hb).
  rewrite Hta in Ha. rewrite Htb in Hb.
  inversion Ha; inversion Hb; subst ta tb. simpl in Hout.
  rewrite Hidx in Hout.
  exact (align_direct mi table_a table_b _ _ _ _ _ _ _ data
           Hnames Hnda Hndb Hno Hne Hout).
Qed.

Lemma direct_column_rows {L : Listify} (self : FuseLinks) (mi : MultiIndex)
    (table_a table_b : DataFrame) (job : Job) (data col : Series)
    (g g' : rng) :
  index self = Some (index_frame mi) ->
  mi_names mi = (None, None) ->
  df_a self = Some table_a ->
  df_b self = Some table_b ->
  NoDup (df_index table_a) ->
  NoDup (df_index table_b) ->
  direct_job job ->
  job_series self job = Ok data ->
  applied (job_fun job) (extra_args (job_params job)) g data col g' ->
  Forall2 (resolved_for table_a table_b job) (mi_tuples mi) col.
Proof.
  intros Hidx Hnames Hta Htb Hnda Hndb Hdirect Hdata Happ.
  pose proof (direct_series_rows self mi table_a table_b job data
                Hidx Hnames Hta Htb Hnda Hndb Hdirect Hdata) as Hrows.
  pose proof (applied_rows _ _ _ _ _ _ Happ) as Hres.
  pose proof (Forall2_compose _ _ _ _ _ Hrows Hres) as Hboth.
  eapply Forall2_impl; [|exact Hboth].
  intros matched res (row & (cells_a & cells_b & rest & Hrow & Fa & Fb)
                          & (gi & gi' & Hf)).
  exists cells_a, cells_b, rest, gi, gi'.
  rewrite Hrow in Hf. auto.
Qed.

(** C2 (amended): when [fuse] returns a table, every per-job output column
    is indexed by the positions 0, 1, ... of its own rows (not by the pairs
    of the pair index), and the columns of the table are labelled
    0 .. k-1, one per queued job in queue order.  When moreover the tables
    are keyed by unique record ids, the levels of the pair index are
    unnamed and every job fetches its columns directly, every output column
    has one row per pair in pair order, row i holding what the strategy of
    the job returned on the record of the i-th pair; the table is
    row-indexed by the positions 0 .. n-1 of the n pairs and holds these
    columns as they are. *)
Theorem fused_table_position_indexed {L : Listify} {P : Alignment}
    (self : FuseLinks) (vectors_ : Vectors) (df_a_ df_b_ : option DataFrame)
    (predictions_ suffix_a_ suffix_b_ : value) (g : rng) (table : DataFrame) :
  fuse_result (fuse self vectors_ df_a_ df_b_
                 predictions_ suffix_a_ suffix_b_ g) = Ok table ->
  exists cols,
    Forall2 (fun job col =>
               exists data gi gi',
                 job_series (initialized self vectors_ df_a_ df_b_
                               predictions_ suffix_a_ suffix_b_) job = Ok data
                 /\ applied (job_fun job) (extra_args (job_params job))
                            gi data col gi')
            (resolution_queue self) cols
    /\ Forall (fun col => series_index col = range_index (length col)) cols
    /\ map fst (df_columns table)
       = range_index (length (resolution_queue self))
    /\ (forall table_a table_b,
           mi_names (vec_index vectors_) = (None, None) ->
           df_a_ = Some table_a ->
           df_b_ = Some table_b ->
           NoDup (df_index table_a) ->
           NoDup (df_index table_b) ->
           Forall direct_job (resolution_queue self) ->
           Forall2 (fun job col =>
                      Forall2 (resolved_for table_a table_b job)
                              (mi_tuples (vec_index vectors_)) col)
                   (resolution_queue self) cols
           /\ df_index table
              = range_index (length (mi_tuples (vec_index vectors_)))
           /\ df_columns table
              = combine (range_index (length (resolution_queue self)))
                        (map series_values cols)).
Proof.
  intros Hok. apply fuse_Ok_columns in Hok as (cols & g1 & Hrun & Hcat).
  apply resolve_queue_Ok_jobs in Hrun.
  assert (Hidx : Forall (fun col => series_index col
                                    = range_index (length col)) cols).
  { clear Hcat. induction Hrun as [|job col rest cols' Hjob _ IH];
      constructor; auto.
    destruct Hjob as (data & gi & gi' & Hdata & Happ).
    apply applied_index in Happ as [Hi Hl].
    rewrite Hi, Hl. eapply job_series_range_index; eauto. }
  pose proof (Forall2_length Hrun) as Hlen.
  exists cols. split; [exact Hrun|]. split; [exact Hidx|]. split.
  - rewrite Hlen. now apply concat_labels.
  - intros table_a table_b Hnames -> -> Hnda Hndb Hdirect.
    assert (Hrows : Forall2 (fun job col =>
                               Forall2 (resolved_for table_a table_b job)
                                       (mi_tuples (vec_index vectors_)) col)
                            (resolution_queue self) cols).
    { clear Hcat Hidx Hlen.
      induction Hrun as [|job col rest cols' Hjob _ IH]; constructor.
      - destruct Hjob as (data & gi & gi' & Hdata & Happ).
        inversion Hdirect; subst.
        eapply direct_column_rows; eauto; reflexivity.
      - apply IH. now inversion Hdirect. }
    split; [exact Hrows|].
    rewrite Hlen. apply concat_equal_indexes; [|exact Hcat].
    clear Hcat Hlen Hdirect.
    induction Hrows as [|job col rest cols' Hcol _ IH]; constructor.
    + inversion Hidx; subst.
      apply Forall2_length in Hcol. now rewrite Hcol.
    + apply IH.
      * now inversion Hrun.
      * now inversion Hidx.
Qed.

Lemma fused_table_position_indexed_witness :
  fuse_result (fuse (L:=listify_list) (P:=object_padding)
                 names_engine two_pairs (Some sample_a) (Some sample_b)
                 VNone (VStr "_a") (VStr "_b") 0%N) = Ok names_table
  /\ exists cols,
       Forall2 (fun job col =>
                  exists data gi gi',
                    job_series (L:=listify_list)
                      (initialized names_engine two_pairs
                         (Some sample_a) (Some sample_b)
                         VNone (VStr "_a") (VStr "_b")) job = Ok data
                    /\ applied (job_fun job) (extra_args (job_params job))
                               gi data col gi')
               (resolution_queue names_engine) cols
       /\ Forall (fun col => series_index col = range_index (length col)) cols
       /\ map fst (df_columns names_table)
          = range_index (length (resolution_queue names_engine))
       /\ Forall2 (fun job col =>
                     Forall2 (resolved_for (L:=listify_list)
                                sample_a sample_b job)
                             (mi_tuples (vec_index two_pairs)) col)
                  (resolution_queue names_engine) cols
       /\ df_index names_table
          = range_index (length (mi_tuples (vec_index two_pairs)))
       /\ df_columns names_table
          = combine (range_index (length (resolution_queue names_engine)))
                    (map series_values cols).
Proof.
  split; [reflexivity|].
  destruct (fused_table_position_indexed (L:=listify_list)
              (P:=object_padding) names_engine
              two_pairs (Some sample_a) (Some sample_b)
              VNone (VStr "_a") (VStr "_b") 0%N names_table eq_refl)
    as (cols & Hjobs & Hidx & Hlabels & Hdirect).
  exists cols. split; [exact Hjobs|]. split; [exact Hidx|].
  split; [exact Hlabels|].
  apply (Hdirect sample_a sample_b); try reflexivity.
  - repeat constructor; simpl; intuition discriminate.
  - repeat constructor; simpl; intuition discriminate.
  - repeat constructor. discriminate.
Defined.

(** C2 (as stated) fails: the table [fuse] returns is row-indexed by the
    positions 0 and 1, while the pair index holds the identifiers
    [("a2", "b1")] and [("a1", "b2")]. *)
Lemma fused_table_not_pair_indexed :
  exists table,
    fuse_result (fuse (L:=listify_list) (P:=object_padding)
                   names_engine two_pairs (Some sample_a) (Some sample_b)
                   VNone (VStr "_a") (VStr "_b") 0%N) = Ok table
    /\ df_index table = [VInt 0; VInt 1]
    /\ df_index (index_frame (vec_index two_pairs))
       = [VTuple [VStr "a2"; VStr "b1"]; VTuple [VStr "a1"; VStr "b2"]]
    /\ df_index table <> df_index (index_frame (vec_index two_pairs)).
Proof.
  exists names_table. repeat split. discriminate.
Qed.

(* ================================================================== *)
(** ** Generalized values *)

(** C1: where the generalization of values applies, the code repeats the
    whole broadcast column in the row order of its table and never consults
    the pair index.  For the pairs [("a2", "b1")] and [("a1", "b2")], one
    value column and three metadata columns on side A, the first record
    holds the name of ["a1"] (the first row of table A) three times beside
    the metadata of ["a2"], where the claim asks for the name of ["a2"], the
    record matched by the first pair. *)
Theorem generalized_values_in_table_order :
  (forall df idx idx' level values cols,
      value_columns df idx level (Some true) values cols
      = value_columns df idx' level (Some true) values cols)
  /\ make_resolution_series (L:=listify_list) loaded
       (VStr "name") (VStr "name")
       (VList [VStr "t1"; VStr "t2"; VStr "t3"]) (VStr "t")
       PyNone PyNone false
     = Ok [ (VInt 0,
             VTuple [VTuple [VStr "Jon"; VStr "Jon"; VStr "Jon"; VStr "John"];
                     VTuple [VInt 4; VInt 5; VInt 6; VInt 7]]);
            (VInt 1,
             VTuple [VTuple [VStr "Ann"; VStr "Ann"; VStr "Ann"; VStr "Anne"];
                     VTuple [VInt 1; VInt 2; VInt 3; VInt 8]]) ]
  /\ fetched sample_a PyNone (VStr "a2") (VStr "name") (VStr "Ann").
Proof.
  split; [reflexivity|]. split; [reflexivity|].
  exists [(VStr "a1", VStr "Jon"); (VStr "a2", VStr "Ann")], (VStr "Ann").
  simpl. auto.
Qed.

(* ================================================================== *)
(** * Further properties of the engine *)

(** ** Lookups that fail *)

Lemma misconfigured_check_inputs (self : FuseLinks) (table_a table_b : DataFrame)
    (meta_a meta_b : value) (transform_vals transform_meta : pyobj) :
  df_a self = Some table_a ->
  df_b self = Some table_b ->
  misconfigured (df_a self) (df_b self) meta_a meta_b
    transform_vals transform_meta = false ->
  check_inputs self meta_a meta_b transform_vals transform_meta
  = Ok (table_a, table_b).
Proof.
  intros Ha Hb Hcfg.
  pose proof (check_inputs_spec self meta_a meta_b
                transform_vals transform_meta) as Hc.
  destruct (check_inputs self meta_a meta_b transform_vals transform_meta)
    as [[ta tb]|e].
  - destruct Hc as (_ & Ha' & Hb'). congruence.
  - destruct Hc as [Hm _]. congruence.
Qed.

(** X1: when the guards pass and the first value column declared for side
    A is not a column of table A, building the series raises [KeyError],
    whether the values of side A are fetched at the pair index or
    generalized, and whatever the pair index holds. *)
Theorem missing_value_column_raises {L : Listify} (self : FuseLinks)
    (table_a table_b : DataFrame)
    (values_a values_b meta_a meta_b : value)
    (transform_vals transform_meta : pyobj) (static_meta : bool)
    (name : value) (rest : list value) :
  df_a self = Some table_a ->
  df_b self = Some table_b ->
  misconfigured (df_a self) (df_b self) meta_a meta_b
    transform_vals transform_meta = false ->
  listify values_a = name :: rest ->
  has_column table_a name = false ->
  make_resolution_series self values_a values_b meta_a meta_b
    transform_vals transform_meta static_meta = Err KeyError.
Proof.
  intros Ha Hb Hcfg Hva Hcol.
  unfold make_resolution_series.
  rewrite (misconfigured_check_inputs self table_a table_b _ _ _ _ Ha Hb Hcfg).
  simpl. unfold align. rewrite Hva.
  destruct (generalize_flags _ _ (length (name :: rest)) _)
    as [gva gma] eqn:Fa.
  destruct (generalize_flags _ _ (length (listify values_b)) _) as [gvb gmb].
  unfold value_columns at 1.
  destruct (is_True gva) eqn:Ga.
  - destruct (generalize_flags_values _ _ _ _ _ _ Fa Ga) as (_ & Hlt & _).
    match goal with
    | |- context [repeat_first_column _ _ ?n] => remember n as k eqn:Hk in *
    end.
    destruct k as [|k]; [simpl in Hlt; lia|].
    simpl. now rewrite (has_column_false_getitem _ _ Hcol).
  - simpl. now rewrite (has_column_false_getitem _ _ Hcol).
Qed.

Lemma missing_value_column_raises_witness :
  df_a loaded = Some sample_a
  /\ has_column sample_a (VStr "surname") = false
  /\ make_resolution_series (L:=listify_list) loaded
       (VList [VStr "surname"; VStr "name"]) (VStr "name") VNone VNone
       PyNone PyNone false = Err KeyError.
Proof.
  split; [reflexivity|]. split; [reflexivity|].
  apply (missing_value_column_raises (L:=listify_list) loaded
           sample_a sample_b _ _ _ _ _ _ _ (VStr "surname") [VStr "name"]);
    reflexivity.
Defined.

(** The steps of a call of [align] that returns. *)
Lemma align_Ok_inv {L : Listify} (idx : option DataFrame)
    (table_a table_b : DataFrame) (values_a values_b meta_a meta_b : value)
    (transform_vals transform_meta : pyobj) (static_meta : bool)
    (out : Series) :
  align idx table_a table_b values_a values_b meta_a meta_b
        transform_vals transform_meta static_meta = Ok out ->
  let use_meta := negb (is_none meta_a && is_none meta_b) in
  let cols_a := if use_meta && negb static_meta then listify meta_a else [] in
  let cols_b := if use_meta && negb static_meta then listify meta_b else [] in
  let flags_a := generalize_flags use_meta static_meta
                   (length (listify values_a)) (length cols_a) in
  let flags_b := generalize_flags use_meta static_meta
                   (length (listify values_b)) (length cols_b) in
  exists data_a data_b value_data,
    value_columns table_a idx 0 (fst flags_a) (listify values_a) cols_a
    = Ok data_a
    /\ value_columns table_b idx 1 (fst flags_b) (listify values_b) cols_b
       = Ok data_b
    /\ transform_columns transform_vals (data_a ++ data_b) = Ok value_data
    /\ if use_meta then
         exists md_a md_b metadata,
           metadata_columns table_a idx 0 static_meta (snd flags_a)
             (listify values_a) meta_a cols_a = Ok md_a
           /\ metadata_columns table_b idx 1 static_meta (snd flags_b)
                (listify values_b) meta_b cols_b = Ok md_b
           /\ transform_columns transform_meta (md_a ++ md_b) = Ok metadata
           /\ out = series_of_list
                      (map (fun p => VTuple [VTuple (fst p); VTuple (snd p)])
                           (combine
                              (zip_star (map series_values value_data))
                              (zip_star (map series_values metadata))))
       else
         out = series_of_list
                 (map (fun t => VTuple [VTuple t])
                      (zip_star (map series_values value_data))).
Proof.
  unfold align. cbv zeta.
  destruct (generalize_flags _ _ (length (listify values_a)) _) as [gva gma].
  destruct (generalize_flags _ _ (length (listify values_b)) _) as [gvb gmb].
  cbn [fst snd]. intros H.
  apply rbind_Ok in H as (data_a & Hda & H).
  apply rbind_Ok in H as (data_b & Hdb & H).
  apply rbind_Ok in H as (value_data & Hvd & H).
  exists data_a, data_b, value_data. repeat (split; [assumption|]).
  destruct (negb (is_none meta_a && is_none meta_b)).
  - apply rbind_Ok in H as (md_a & Hma & H).
    apply rbind_Ok in H as (md_b & Hmb & H).
    apply rbind_Ok in H as (metadata & Hmd & H).
    exists md_a, md_b, metadata. repeat (split; [assumption|]).
    now inversion H.
  - now inversion H.
Qed.

Lemma make_resolution_series_Ok_inv {L : Listify} (self : FuseLinks)
    (table_a table_b : DataFrame) (values_a values_b meta_a meta_b : value)
    (transform_vals transform_meta : pyobj) (static_meta : bool)
    (out : Series) :
  df_a self = Some table_a ->
  df_b self = Some table_b ->
  make_resolution_series self values_a values_b meta_a meta_b
    transform_vals transform_meta static_meta = Ok out ->
  misconfigured (df_a self) (df_b self) meta_a meta_b
    transform_vals transform_meta = false
  /\ align (index self) table_a table_b values_a values_b meta_a meta_b
       transform_vals transform_meta static_meta = Ok out.
Proof.
  intros Ha Hb H. unfold make_resolution_series in H.
  apply rbind_Ok in H as ([ta tb] & Hcheck & H).
  pose proof (check_inputs_spec self meta_a meta_b
                transform_vals transform_meta) as Hc.
  rewrite Hcheck in Hc. destruct Hc as (Hcfg & Ha' & Hb').
  split; [exact Hcfg|].
  simpl in H. congruence.
Qed.

Lemma loc_Ok_keys (s : Series) (keys : list value) (rows : Series) :
  loc s keys = Ok rows ->
  Forall (fun k => exists v, In (k, v) s) keys.
Proof.
  revert rows. induction keys as [|k ks IH]; intros rows; simpl.
  - constructor.
  - destruct (rows_at s k) as [|[l v] hits] eqn:Hhits; [discriminate|].
    intros H. apply rbind_Ok in H as (rest & Hrest & _).
    constructor; [|eauto].
    assert (Hin : In (l, v) (rows_at s k)) by (rewrite Hhits; now left).
    apply rows_at_In in Hin as [Hin Hk]. simpl in Hk. subst l. eauto.
Qed.

Lemma df_getitem_labels (df : DataFrame) (name : value) (col : Series)
    (k v : value) :
  df_getitem df name = Ok col -> In (k, v) col -> In k (df_index df).
Proof.
  unfold df_getitem. destruct (assoc name (df_columns df)); [|discriminate].
  intros H Hin. inversion H; subst. eapply in_combine_l; eauto.
Qed.

Lemma fetch_columns_Ok_lookups (df : DataFrame) (idx : option DataFrame)
    (level : Z) (names : list value) (data : list Series) :
  fetch_columns df idx level names = Ok data ->
  forallb (has_column df) names = true
  /\ (names <> [] ->
      exists ids,
        index_getitem idx (VInt level) = Ok ids
        /\ Forall (fun k => In k (df_index df)) (series_values ids)).
Proof.
  revert data. induction names as [|name rest IH]; intros data; simpl.
  - intros _. split; [reflexivity|contradiction].
  - intros H.
    apply rbind_Ok in H as (col & Hcol & H).
    apply rbind_Ok in H as (ids & Hids & H).
    apply rbind_Ok in H as (s & Hs & H).
    apply rbind_Ok in H as (rest' & Hrest & _).
    destruct (IH _ Hrest) as [Hall _]. split.
    + unfold has_column at 1. unfold df_getitem in Hcol.
      destruct (assoc name (df_columns df)); [exact Hall|discriminate].
    + intros _. exists ids. split; [exact Hids|].
      apply loc_Ok_keys in Hs.
      eapply Forall_impl; [|exact Hs].
      intros k [v Hin]. eapply df_getitem_labels; eauto.
Qed.

Lemma fetches_side_flag {L : Listify} (values meta meta_a meta_b : value)
    (static_meta : bool) :
  fetches_side values meta meta_a meta_b static_meta = true ->
  let use_meta := negb (is_none meta_a && is_none meta_b) in
  let cols := if use_meta && negb static_meta then listify meta else [] in
  is_True (fst (generalize_flags use_meta static_meta
                  (length (listify values)) (length cols))) = false
  /\ listify values <> [].
Proof.
  unfold fetches_side. cbv zeta. intros H.
  apply andb_true_iff in H as [Hflag Hne].
  apply negb_true_iff in Hflag. split; [exact Hflag|].
  destruct (listify values); [discriminate|discriminate].
Qed.

(** X2: when a series is built, every value column of a side whose values
    are fetched at the pair index is a column of that side's table, and
    every record id that the pair index names for that side is a row label
    of that table: a missing column or a missing record id is never passed
    over in silence. *)
Theorem built_series_lookups_resolved {L : Listify} (self : FuseLinks)
    (mi : MultiIndex) (table_a table_b : DataFrame)
    (values_a values_b meta_a meta_b : value)
    (transform_vals transform_meta : pyobj) (static_meta : bool)
    (out : Series) :
  index self = Some (index_frame mi) ->
  mi_names mi = (None, None) ->
  df_a self = Some table_a ->
  df_b self = Some table_b ->
  make_resolution_series self values_a values_b meta_a meta_b
    transform_vals transform_meta static_meta = Ok out ->
  (fetches_side values_a meta_a meta_a meta_b static_meta = true ->
   forallb (has_column table_a) (listify values_a) = true
   /\ Forall (fun matched => In (fst matched) (df_index table_a))
             (mi_tuples mi))
  /\
  (fetches_side values_b meta_b meta_a meta_b static_meta = true ->
   forallb (has_column table_b) (listify values_b) = true
   /\ Forall (fun matched => In (snd matched) (df_index table_b))
             (mi_tuples mi)).
Proof.
  intros Hidx Hnames Ha Hb Hout.
  destruct (make_resolution_series_Ok_inv self table_a table_b _ _ _ _ _ _ _
              out Ha Hb Hout) as [_ Halign].
  rewrite Hidx in Halign.
  apply align_Ok_inv in Halign. cbv zeta in Halign.
  destruct Halign as (data_a & data_b & value_data & Hda & Hdb & _).
  destruct (unnamed_getitem mi Hnames)
    as [(ids0 & H0 & Hv0) (ids1 & H1 & Hv1)].
  split; intros Hfetch;
    apply fetches_side_flag in Hfetch as [Hflag Hne]; cbv zeta in Hflag.
  - unfold value_columns in Hda. rewrite Hflag in Hda.
    apply fetch_columns_Ok_lookups in Hda as [Hcols Hids].
    split; [exact Hcols|].
    destruct (Hids Hne) as (ids & Hget & Hall).
    simpl in Hget. rewrite H0 in Hget. inversion Hget; subst ids.
    rewrite Hv0 in Hall. apply Forall_map in Hall. exact Hall.
  - unfold value_columns in Hdb. rewrite Hflag in Hdb.
    apply fetch_columns_Ok_lookups in Hdb as [Hcols Hids].
    split; [exact Hcols|].
    destruct (Hids Hne) as (ids & Hget & Hall).
    simpl in Hget. rewrite H1 in Hget. inversion Hget; subst ids.
    rewrite Hv1 in Hall. apply Forall_map in Hall. exact Hall.
Qed.

Lemma built_series_lookups_resolved_witness :
  let out :=
    [ (VInt 0, VTuple [VTuple [VStr "Ann"; VStr "John"]]);
      (VInt 1, VTuple [VTuple [VStr "Jon"; VStr "Anne"]]) ] in
  make_resolution_series (L:=listify_list) loaded
    (VStr "name") (VStr "name") VNone VNone PyNone PyNone false = Ok out
  /\ fetches_side (L:=listify_list) (VStr "name") VNone VNone VNone false
     = true
  /\ forallb (has_column sample_a) [VStr "name"] = true
  /\ Forall (fun matched => In (fst matched) (df_index sample_a))
            (mi_tuples (vec_index two_pairs)).
Proof.
  split; [reflexivity|]. split; [reflexivity|].
  refine (proj1 (built_series_lookups_resolved (L:=listify_list) loaded
                   (vec_index two_pairs) sample_a sample_b
                   (VStr "name") (VStr "name") VNone VNone PyNone PyNone false
                   _ eq_refl eq_refl eq_refl eq_refl eq_refl) eq_refl).
Defined.

(** ** Generalization without a column to broadcast *)

(** X3: when the guards pass, metadata is looked up per record and side A
    declares metadata columns but no value column, building the series
    raises [IndexError]: there is no first value column to generalize. *)
Theorem generalize_without_value_column_raises {L : Listify}
    (self : FuseLinks) (table_a table_b : DataFrame)
    (values_a values_b meta_a meta_b : value)
    (transform_vals transform_meta : pyobj) :
  df_a self = Some table_a ->
  df_b self = Some table_b ->
  misconfigured (df_a self) (df_b self) meta_a meta_b
    transform_vals transform_meta = false ->
  is_none meta_a = false ->
  listify values_a = [] ->
  listify meta_a <> [] ->
  make_resolution_series self values_a values_b meta_a meta_b
    transform_vals transform_meta false = Err IndexError.
Proof.
  intros Ha Hb Hcfg Hmeta Hva Hma.
  unfold make_resolution_series.
  rewrite (misconfigured_check_inputs self table_a table_b _ _ _ _ Ha Hb Hcfg).
  simpl. unfold align. rewrite Hva, Hmeta. simpl.
  destruct (listify meta_a) as [|m ms]; [contradiction|].
  simpl. destruct (generalize_flags _ _ _ _) as [gvb gmb]. reflexivity.
Qed.

Lemma generalize_without_value_column_raises_witness :
  listify (Listify:=listify_list) (VList []) = []
  /\ listify (Listify:=listify_list) (VStr "t1") <> []
  /\ make_resolution_series (L:=listify_list) loaded
       (VList []) (VStr "name") (VStr "t1") (VStr "t")
       PyNone PyNone false = Err IndexError.
Proof.
  split; [reflexivity|]. split; [discriminate|].
  apply (generalize_without_value_column_raises (L:=listify_list) loaded
           sample_a sample_b); try reflexivity. discriminate.
Defined.

(* ================================================================== *)
(** ** What generalization puts in a record *)

Lemma nth_error_combine {A B} (xs : list A) (ys : list B) (i : nat)
    (p : A * B) :
  nth_error (combine xs ys) i = Some p ->
  nth_error xs i = Some (fst p) /\ nth_error ys i = Some (snd p).
Proof.
  revert ys i. induction xs as [|x xs IH]; intros [|y ys] [|i]; simpl;
    try discriminate.
  - intros H. inversion H. auto.
  - apply IH.
Qed.

Lemma nth_error_map_inv {A B} (f : A -> B) (l : list A) (i : nat) (y : B) :
  nth_error (map f l) i = Some y ->
  exists x, nth_error l i = Some x /\ y = f x.
Proof.
  rewrite nth_error_map. destruct (nth_error l i) as [x|]; simpl;
    [|discriminate].
  intros H. inversion H. eauto.
Qed.

Lemma zip_star_nth_error (cols : list (list value)) (i : nat)
    (t : list value) :
  nth_error (zip_star cols) i = Some t ->
  Forall2 (fun col x => nth_error col i = Some x) cols t.
Proof.
  revert t. induction cols as [|c rest IH]; intros t; simpl.
  - destruct i; discriminate.
  - destruct rest as [|c' rest'].
    + intros H. apply nth_error_map_inv in H as (x & Hx & ->).
      repeat constructor. exact Hx.
    + intros H. apply nth_error_map_inv in H as ([x t'] & Hp & ->).
      apply nth_error_combine in Hp as [Hx Ht']. simpl in *.
      constructor; auto.
Qed.

Lemma Forall2_nth_error_r {A B} (R : A -> B -> Prop) (xs : list A)
    (ys : list B) (i : nat) (y : B) :
  Forall2 R xs ys ->
  nth_error ys i = Some y ->
  exists x, nth_error xs i = Some x /\ R x y.
Proof.
  intros H. revert i. induction H as [|x0 y0 xs ys Hxy _ IH]; intros [|i];
    simpl; try discriminate.
  - intros Hy. inversion Hy; subst. eauto.
  - apply IH.
Qed.

Lemma transformed_functional (t : pyobj) (raw x y : value) :
  transformed t raw x -> transformed t raw y -> x = y.
Proof.
  destruct t as [|f|v]; simpl; [congruence|congruence|contradiction].
Qed.

Lemma repeat_first_column_Ok (df : DataFrame) (names : list value) (n : nat)
    (data : list Series) :
  repeat_first_column df names n = Ok data ->
  n <> 0%nat ->
  exists name rest col,
    names = name :: rest
    /\ df_getitem df name = Ok col
    /\ data = repeat col n.
Proof.
  intros H Hn. destruct names as [|name rest].
  - destruct n; [contradiction|discriminate].
  - destruct (df_getitem df name) as [col|e] eqn:Hcol.
    + exists name, rest, col. split; [reflexivity|]. split; [exact Hcol|].
      clear Hn. revert data H. induction n as [|n IH]; intros data; simpl.
      * intros H. now inversion H.
      * rewrite Hcol. simpl. intros H.
        apply rbind_Ok in H as (rest' & Hrest & H). inversion H.
        f_equal. now apply IH.
    + destruct n; [contradiction|]. simpl in H. rewrite Hcol in H.
      discriminate.
Qed.

Lemma nth_error_series_of_list (records : list value) (i : nat)
    (row : value * value) :
  nth_error (series_of_list records) i = Some row ->
  fst row = VInt (Z.of_nat i) /\ nth_error records i = Some (snd row).
Proof.
  unfold series_of_list. intros H.
  apply nth_error_combine in H as [Hl Hr]. split; [|exact Hr].
  unfold range_index in Hl.
  apply nth_error_map_inv in Hl as (k & Hk & ->).
  assert (Hlt : (i < length (seq 0 (length records)))%nat)
    by (apply nth_error_Some; congruence).
  rewrite length_seq in Hlt.
  apply (nth_error_nth _ _ 0%nat) in Hk.
  rewrite seq_nth in Hk by exact Hlt. simpl in Hk. now subst k.
Qed.

(** The tuple at position [i] of a zip whose first [n] columns are the
    transformed copies of one column: the transformed cell of row [i] of
    that column, [n] times, before the cells of the other columns. *)
Lemma broadcast_tuple (transform : pyobj) (col : Series) (n : nat)
    (copies others : list Series) (i : nat) (t : list value) :
  Forall2 (Forall2 (fun e e' : value * value =>
                      fst e' = fst e
                      /\ transformed transform (snd e) (snd e')))
          (repeat col n) copies ->
  n <> 0%nat ->
  nth_error (zip_star (map series_values (copies ++ others))) i = Some t ->
  exists label raw cell rest,
    nth_error col i = Some (label, raw)
    /\ transformed transform raw cell
    /\ t = repeat cell n ++ rest.
Proof.
  intros Hcopies Hn Ht.
  apply zip_star_nth_error in Ht. rewrite map_app in Ht.
  apply Forall2_app_inv_l in Ht as (ta & tb & Hta & _ & ->).
  apply Forall2_map_l in Hta.
  assert (Hlen : length copies = n).
  { apply Forall2_length in Hcopies. now rewrite repeat_length in Hcopies. }
  assert (Hcells : Forall2 (fun (s' : Series) x =>
                              exists e, nth_error col i = Some e
                                        /\ transformed transform (snd e) x)
                           copies ta).
  { assert (Hall : Forall (fun s' =>
                             Forall2 (fun e e' : value * value =>
                                        fst e' = fst e
                                        /\ transformed transform
                                             (snd e) (snd e'))
                                     col s') copies).
    { clear - Hcopies. remember (repeat col n) as cs eqn:Hcs.
      revert n Hcs. induction Hcopies as [|c s' cs copies Hc _ IH];
        intros n Hcs; constructor.
      - destruct n; inversion Hcs; subst. exact Hc.
      - destruct n; inversion Hcs; subst. eapply IH; eauto. }
    clear - Hall Hta. induction Hta as [|s' x copies ta Hx _ IH];
      constructor; inversion Hall; subst; auto.
    unfold series_values in Hx.
    apply nth_error_map_inv in Hx as (e' & He' & ->).
    destruct (Forall2_nth_error_r _ _ _ _ _ H1 He') as (e & He & _ & Htr).
    eauto. }
  destruct Hcells as [|s' x copies ta [(label & raw) [He Hx]] Hrest];
    [simpl in Hlen; congruence|].
  exists label, raw, x, tb. split; [exact He|]. split; [exact Hx|].
  f_equal. simpl in Hx.
  assert (Hsame : Forall (eq x) (x :: ta)).
  { constructor; [reflexivity|].
    clear - Hrest He Hx. induction Hrest as [|s y copies ta [e [He' Hy]] _ IH];
      constructor; auto.
    rewrite He in He'. inversion He'; subst e. simpl in Hy.
    eapply transformed_functional; eauto. }
  assert (Hcount : length (x :: ta) = n).
  { apply Forall2_length in Hrest. simpl in *. congruence. }
  rewrite <- Hcount. clear - Hsame.
  induction Hsame as [|y ys Hy _ IH]; simpl; [reflexivity|].
  subst y. now rewrite <- IH.
Qed.

Lemma flags_fewer_values (nv nm : nat) :
  (nv < nm)%nat ->
  generalize_flags true false nv nm = (Some true, Some false).
Proof.
  intros H. unfold generalize_flags. simpl.
  apply Nat.ltb_lt in H. now rewrite H.
Qed.

Lemma flags_fewer_meta (nv nm : nat) :
  (nm < nv)%nat ->
  generalize_flags true false nv nm = (Some false, Some true).
Proof.
  intros H. unfold generalize_flags. simpl.
  assert (Hge : (nv <? nm)%nat = false) by (apply Nat.ltb_ge; lia).
  apply Nat.ltb_lt in H. now rewrite Hge, H.
Qed.

Lemma rows_bound (out col : Series) :
  (forall i row, nth_error out i = Some row ->
                 exists e, nth_error col i = Some e) ->
  (length out <= length col)%nat.
Proof.
  intros H. destruct (length out) as [|k] eqn:Hlen; [lia|].
  destruct (nth_error out k) as [row|] eqn:Hrow.
  - destruct (H k row Hrow) as [e He].
    assert (k < length col)%nat by (apply nth_error_Some; congruence). lia.
  - apply nth_error_None in Hrow. lia.
Qed.

(** X4: where the generalization of values applies on side A (metadata
    looked up per record, fewer value columns than metadata columns), the
    first value column of table A is read whole, in the row order of the
    table: record i holds, once per metadata column of side A, the cell of
    row i of that column as the value transform leaves it, before the cells
    of side B; and the series has no more rows than that column, whatever
    the number of pairs. *)
Theorem generalized_values_repeat_table_rows {L : Listify} (self : FuseLinks)
    (table_a table_b : DataFrame)
    (values_a values_b meta_a meta_b : value)
    (transform_vals transform_meta : pyobj) (out : Series) :
  df_a self = Some table_a ->
  df_b self = Some table_b ->
  is_none meta_a = false ->
  (length (listify values_a) < length (listify meta_a))%nat ->
  make_resolution_series self values_a values_b meta_a meta_b
    transform_vals transform_meta false = Ok out ->
  exists name rest col,
    listify values_a = name :: rest
    /\ df_getitem table_a name = Ok col
    /\ (length out <= length col)%nat
    /\ forall i row,
         nth_error out i = Some row ->
         exists label raw cell cells_b metadata,
           nth_error col i = Some (label, raw)
           /\ transformed transform_vals raw cell
           /\ snd row
              = VTuple [VTuple (repeat cell (length (listify meta_a))
                                ++ cells_b);
                        VTuple metadata].
Proof.
  intros Ha Hb Hmeta Hlt Hout.
  destruct (make_resolution_series_Ok_inv self table_a table_b _ _ _ _ _ _ _
              out Ha Hb Hout) as [_ Halign].
  apply align_Ok_inv in Halign. cbv zeta in Halign.
  rewrite Hmeta in Halign. simpl in Halign.
  rewrite (flags_fewer_values _ _ Hlt) in Halign. cbn [fst snd] in Halign.
  destruct Halign as (data_a & data_b & value_data & Hda & Hdb & Hvd
                      & md_a & md_b & metadata & _ & _ & _ & ->).
  unfold value_columns in Hda. simpl in Hda.
  assert (Hn : length (listify meta_a) <> 0%nat) by lia.
  destruct (repeat_first_column_Ok _ _ _ _ Hda Hn)
    as (name & rest & col & Hva & Hcol & ->).
  apply transform_columns_Ok in Hvd.
  apply Forall2_app_inv_l in Hvd as (copies & others & Hcopies & _ & ->).
  assert (Hrows : forall i row,
             nth_error
               (series_of_list
                  (map (fun p => VTuple [VTuple (fst p); VTuple (snd p)])
                       (combine
                          (zip_star (map series_values (copies ++ others)))
                          (zip_star (map series_values metadata))))) i
             = Some row ->
             exists label raw cell cells_b meta,
               nth_error col i = Some (label, raw)
               /\ transformed transform_vals raw cell
               /\ snd row
                  = VTuple [VTuple (repeat cell (length (listify meta_a))
                                    ++ cells_b);
                            VTuple meta]).
  { intros i row Hrow.
    apply nth_error_series_of_list in Hrow as [_ Hrec].
    apply nth_error_map_inv in Hrec as ([t m] & Hpair & Hrec).
    apply nth_error_combine in Hpair as [Ht _]. simpl in Ht, Hrec.
    destruct (broadcast_tuple _ _ _ _ _ _ _ Hcopies Hn Ht)
      as (label & raw & cell & cells_b & He & Hx & ->).
    exists label, raw, cell, cells_b, m. auto. }
  exists name, rest, col. split; [exact Hva|]. split; [exact Hcol|].
  split; [|exact Hrows].
  apply rows_bound. intros i row Hrow.
  destruct (Hrows i row Hrow) as (label & raw & _ & _ & _ & He & _). eauto.
Qed.

Lemma generalized_values_repeat_table_rows_witness :
  let out :=
    [ (VInt 0,
       VTuple [VTuple [VStr "Jon"; VStr "Jon"; VStr "Jon"; VStr "John"];
               VTuple [VInt 4; VInt 5; VInt 6; VInt 7]]);
      (VInt 1,
       VTuple [VTuple [VStr "Ann"; VStr "Ann"; VStr "Ann"; VStr "Anne"];
               VTuple [VInt 1; VInt 2; VInt 3; VInt 8]]) ] in
  make_resolution_series (L:=listify_list) loaded
    (VStr "name") (VStr "name")
    (VList [VStr "t1"; VStr "t2"; VStr "t3"]) (VStr "t")
    PyNone PyNone false = Ok out
  /\ exists name rest col,
       listify (Listify:=listify_list) (VStr "name") = name :: rest
       /\ df_getitem sample_a name = Ok col
       /\ (length out <= length col)%nat
       /\ forall i row,
            nth_error out i = Some row ->
            exists label raw cell cells_b metadata,
              nth_error col i = Some (label, raw)
              /\ transformed PyNone raw cell
              /\ snd row
                 = VTuple [VTuple (repeat cell 3 ++ cells_b);
                           VTuple metadata].
Proof.
  split; [reflexivity|].
  apply (generalized_values_repeat_table_rows (L:=listify_list) loaded
           sample_a sample_b (VStr "name") (VStr "name")
           (VList [VStr "t1"; VStr "t2"; VStr "t3"]) (VStr "t")
           PyNone PyNone); try reflexivity.
  simpl. lia.
Defined.

(** X5: where the generalization of metadata applies on side A (metadata
    looked up per record, fewer metadata columns than value columns), the
    first metadata column of table A is read whole, in the row order of the
    table: the metadata tuple of record i holds, once per value column of
    side A, the cell of row i of that column as the metadata transform
    leaves it, before the metadata of side B; and the series has no more
    rows than that column. *)
Theorem generalized_metadata_repeat_table_rows {L : Listify}
    (self : FuseLinks) (table_a table_b : DataFrame)
    (values_a values_b meta_a meta_b : value)
    (transform_vals transform_meta : pyobj) (out : Series) :
  df_a self = Some table_a ->
  df_b self = Some table_b ->
  is_none meta_a = false ->
  (length (listify meta_a) < length (listify values_a))%nat ->
  make_resolution_series self values_a values_b meta_a meta_b
    transform_vals transform_meta false = Ok out ->
  exists name rest col,
    listify meta_a = name :: rest
    /\ df_getitem table_a name = Ok col
    /\ (length out <= length col)%nat
    /\ forall i row,
         nth_error out i = Some row ->
         exists label raw cell meta_b_cells values,
           nth_error col i = Some (label, raw)
           /\ transformed transform_meta raw cell
           /\ snd row
              = VTuple [VTuple values;
                        VTuple (repeat cell (length (listify values_a))
                                ++ meta_b_cells)].
Proof.
  intros Ha Hb Hmeta Hlt Hout.
  destruct (make_resolution_series_Ok_inv self table_a table_b _ _ _ _ _ _ _
              out Ha Hb Hout) as [_ Halign].
  apply align_Ok_inv in Halign. cbv zeta in Halign.
  rewrite Hmeta in Halign. simpl in Halign.
  rewrite (flags_fewer_meta _ _ Hlt) in Halign. cbn [fst snd] in Halign.
  destruct Halign as (data_a & data_b & value_data & _ & _ & _
                      & md_a & md_b & metadata & Hma & _ & Hmd & ->).
  unfold metadata_columns in Hma. simpl in Hma.
  assert (Hn : length (listify values_a) <> 0%nat) by lia.
  destruct (repeat_first_column_Ok _ _ _ _ Hma Hn)
    as (name & rest & col & Hcols & Hcol & ->).
  apply transform_columns_Ok in Hmd.
  apply Forall2_app_inv_l in Hmd as (copies & others & Hcopies & _ & ->).
  assert (Hrows : forall i row,
             nth_error
               (series_of_list
                  (map (fun p => VTuple [VTuple (fst p); VTuple (snd p)])
                       (combine
                          (zip_star (map series_values value_data))
                          (zip_star (map series_values (copies ++ others))))))
               i = Some row ->
             exists label raw cell meta_b_cells values,
               nth_error col i = Some (label, raw)
               /\ transformed transform_meta raw cell
               /\ snd row
                  = VTuple [VTuple values;
                            VTuple (repeat cell (length (listify values_a))
                                    ++ meta_b_cells)]).
  { intros i row Hrow.
    apply nth_error_series_of_list in Hrow as [_ Hrec].
    apply nth_error_map_inv in Hrec as ([t m] & Hpair & Hrec).
    apply nth_error_combine in Hpair as [_ Hm]. simpl in Hm, Hrec.
    destruct (broadcast_tuple _ _ _ _ _ _ _ Hcopies Hn Hm)
      as (label & raw & cell & cells_b & He & Hx & ->).
    exists label, raw, cell, cells_b, t. auto. }
  exists name, rest, col. split; [exact Hcols|]. split; [exact Hcol|].
  split; [|exact Hrows].
  apply rows_bound. intros i row Hrow.
  destruct (Hrows i row Hrow) as (label & raw & _ & _ & _ & He & _). eauto.
Qed.

Lemma generalized_metadata_repeat_table_rows_witness :
  let out :=
    [ (VInt 0,
       VTuple [VTuple [VInt 4; VInt 5; VInt 6; VStr "John"];
               VTuple [VStr "Jon"; VStr "Jon"; VStr "Jon"; VInt 7]]);
      (VInt 1,
       VTuple [VTuple [VInt 1; VInt 2; VInt 3; VStr "Anne"];
               VTuple [VStr "Ann"; VStr "Ann"; VStr "Ann"; VInt 8]]) ] in
  make_resolution_series (L:=listify_list) loaded
    (VList [VStr "t1"; VStr "t2"; VStr "t3"]) (VStr "name")
    (VStr "name") (VStr "t")
    PyNone PyNone false = Ok out
  /\ exists name rest col,
       listify (Listify:=listify_list) (VStr "name") = name :: rest
       /\ df_getitem sample_a name = Ok col
       /\ (length out <= length col)%nat
       /\ forall i row,
            nth_error out i = Some row ->
            exists label raw cell meta_b_cells values,
              nth_error col i = Some (label, raw)
              /\ transformed PyNone raw cell
              /\ snd row
                 = VTuple [VTuple values;
                           VTuple (repeat cell 3 ++ meta_b_cells)].
Proof.
  split; [reflexivity|].
  apply (generalized_metadata_repeat_table_rows (L:=listify_list) loaded
           sample_a sample_b
           (VList [VStr "t1"; VStr "t2"; VStr "t3"]) (VStr "name")
           (VStr "name") (VStr "t") PyNone PyNone); try reflexivity.
  simpl. lia.
Defined.

(* ================================================================== *)
(** ** The shape of the records *)

Lemma repeat_first_column_count (df : DataFrame) (names : list value)
    (n : nat) (data : list Series) :
  repeat_first_column df names n = Ok data -> length data = n.
Proof.
  revert data. induction n as [|n IH]; intros data; simpl.
  - intros H. now inversion H.
  - intros H. ok_steps H. inversion H. simpl. f_equal. eauto.
Qed.

Lemma fetch_columns_count (df : DataFrame) (idx : option DataFrame)
    (level : Z) (names : list value) (data : list Series) :
  fetch_columns df idx level names = Ok data -> length data = length names.
Proof.
  revert data. induction names as [|name rest IH]; intros data; simpl.
  - intros H. now inversion H.
  - intros H. ok_steps H. inversion H. simpl. f_equal. eauto.
Qed.

Lemma static_columns_count (idx : option DataFrame) (level : Z)
    (const : value) (n : nat) (cols : list Series) :
  static_columns idx level const n = Ok cols -> length cols = n.
Proof.
  intros H. apply static_columns_Ok in H. apply Forall2_length in H.
  now rewrite repeat_length in H.
Qed.

Lemma transform_columns_count (t : pyobj) (cols cols' : list Series) :
  transform_columns t cols = Ok cols' -> length cols' = length cols.
Proof.
  intros H. apply transform_columns_Ok in H. symmetry.
  eapply Forall2_length; eauto.
Qed.

Lemma zip_star_arity (cols : list Series) (t : list value) :
  In t (zip_star (map series_values cols)) -> length t = length cols.
Proof.
  intros H. apply zip_star_In in H. apply Forall2_length in H.
  now rewrite length_map in H.
Qed.

Lemma side_value_count (df : DataFrame) (idx : option DataFrame) (level : Z)
    (static_meta : bool) (values cols : list value) (data : list Series) :
  value_columns df idx level
    (fst (generalize_flags true static_meta (length values) (length cols)))
    values cols = Ok data ->
  length data = side_slots static_meta (length values) (length cols).
Proof.
  unfold value_columns, generalize_flags, side_slots.
  destruct static_meta; simpl.
  - apply fetch_columns_count.
  - destruct (length values <? length cols)%nat eqn:Hlt; simpl.
    + intros H. apply repeat_first_column_count in H.
      apply Nat.ltb_lt in Hlt. lia.
    + apply Nat.ltb_ge in Hlt.
      destruct (length cols <? length values)%nat; simpl;
        intros H; apply fetch_columns_count in H; lia.
Qed.

Lemma side_meta_count (df : DataFrame) (idx : option DataFrame) (level : Z)
    (static_meta : bool) (values : list value) (const : value)
    (cols : list value) (md : list Series) :
  metadata_columns df idx level static_meta
    (snd (generalize_flags true static_meta (length values) (length cols)))
    values const cols = Ok md ->
  length md = side_slots static_meta (length values) (length cols).
Proof.
  unfold metadata_columns, generalize_flags, side_slots.
  destruct static_meta; simpl.
  - apply static_columns_count.
  - destruct (length values <? length cols)%nat eqn:Hlt; simpl.
    + intros H. apply fetch_columns_count in H.
      apply Nat.ltb_lt in Hlt. lia.
    + apply Nat.ltb_ge in Hlt.
      destruct (length cols <? length values)%nat eqn:Hgt; simpl; intros H.
      * apply repeat_first_column_count in H.
        apply Nat.ltb_lt in Hgt. lia.
      * apply fetch_columns_count in H.
        apply Nat.ltb_ge in Hgt. lia.
Qed.

Lemma make_resolution_series_Ok_tables {L : Listify} (self : FuseLinks)
    (values_a values_b meta_a meta_b : value)
    (transform_vals transform_meta : pyobj) (static_meta : bool)
    (out : Series) :
  make_resolution_series self values_a values_b meta_a meta_b
    transform_vals transform_meta static_meta = Ok out ->
  exists table_a table_b,
    df_a self = Some table_a /\ df_b self = Some table_b
    /\ misconfigured (df_a self) (df_b self) meta_a meta_b
         transform_vals transform_meta = false
    /\ align (index self) table_a table_b values_a values_b meta_a meta_b
         transform_vals transform_meta static_meta = Ok out.
Proof.
  intros H. unfold make_resolution_series in H.
  apply rbind_Ok in H as ([ta tb] & Hcheck & H).
  pose proof (check_inputs_spec self meta_a meta_b
                transform_vals transform_meta) as Hc.
  rewrite Hcheck in Hc. destruct Hc as (Hcfg & Ha & Hb).
  exists ta, tb. auto.
Qed.

(** X6: in every record of a series built with metadata, the values tuple
    and the metadata tuple have the same number of entries: per side, the
    number of value columns when the metadata is static, and otherwise the
    larger of the numbers of value columns and of metadata columns. *)
Theorem values_and_metadata_same_arity {L : Listify} (self : FuseLinks)
    (values_a values_b meta_a meta_b : value)
    (transform_vals transform_meta : pyobj) (static_meta : bool)
    (out : Series) :
  is_none meta_a && is_none meta_b = false ->
  make_resolution_series self values_a values_b meta_a meta_b
    transform_vals transform_meta static_meta = Ok out ->
  let slots :=
    (side_slots static_meta (length (listify values_a))
                (length (listify meta_a))
     + side_slots static_meta (length (listify values_b))
                  (length (listify meta_b)))%nat in
  Forall (fun row =>
            exists values metadata,
              snd row = VTuple [VTuple values; VTuple metadata]
              /\ length values = slots
              /\ length metadata = slots)
         out.
Proof.
  intros Huse Hout slots.
  apply make_resolution_series_Ok_tables in Hout
    as (ta & tb & _ & _ & _ & Halign).
  apply align_Ok_inv in Halign. cbv zeta in Halign.
  rewrite Huse in Halign. cbn [negb andb] in Halign.
  destruct Halign as (data_a & data_b & value_data & Hda & Hdb & Hvd
                      & md_a & md_b & metadata & Hma & Hmb & Hmd & ->).
  apply side_value_count in Hda, Hdb.
  apply side_meta_count in Hma, Hmb.
  apply transform_columns_count in Hvd, Hmd.
  rewrite length_app in Hvd, Hmd.
  assert (Hslots_a : forall n,
             side_slots static_meta n
               (length (if negb static_meta then listify meta_a else []))
             = side_slots static_meta n (length (listify meta_a)))
    by (intros n; now destruct static_meta).
  assert (Hslots_b : forall n,
             side_slots static_meta n
               (length (if negb static_meta then listify meta_b else []))
             = side_slots static_meta n (length (listify meta_b)))
    by (intros n; now destruct static_meta).
  rewrite Hslots_a in Hda, Hma. rewrite Hslots_b in Hdb, Hmb.
  apply Forall_forall. intros [l record] Hrow.
  unfold series_of_list in Hrow. apply in_combine_r in Hrow.
  apply in_map_iff in Hrow as ([values meta] & <- & Hpair).
  pose proof (in_combine_l _ _ _ _ Hpair) as Hv.
  pose proof (in_combine_r _ _ _ _ Hpair) as Hm.
  apply zip_star_arity in Hv, Hm.
  exists values, meta. split; [reflexivity|].
  unfold slots. split; lia.
Qed.

Lemma values_and_metadata_same_arity_witness :
  let out :=
    [ (VInt 0,
       VTuple [VTuple [VStr "Jon"; VStr "Jon"; VStr "Jon"; VStr "John"];
               VTuple [VInt 4; VInt 5; VInt 6; VInt 7]]);
      (VInt 1,
       VTuple [VTuple [VStr "Ann"; VStr "Ann"; VStr "Ann"; VStr "Anne"];
               VTuple [VInt 1; VInt 2; VInt 3; VInt 8]]) ] in
  make_resolution_series (L:=listify_list) loaded
    (VStr "name") (VStr "name")
    (VList [VStr "t1"; VStr "t2"; VStr "t3"]) (VStr "t")
    PyNone PyNone false = Ok out
  /\ Forall (fun row =>
               exists values metadata,
                 snd row = VTuple [VTuple values; VTuple metadata]
                 /\ length values = 4%nat
                 /\ length metadata = 4%nat)
            out.
Proof.
  split; [reflexivity|].
  apply (values_and_metadata_same_arity (L:=listify_list) loaded
           (VStr "name") (VStr "name")
           (VList [VStr "t1"; VStr "t2"; VStr "t3"]) (VStr "t")
           PyNone PyNone false); reflexivity.
Defined.

Lemma plain_rows {L : Listify} (idx : option DataFrame)
    (table_a table_b : DataFrame) (values_a values_b : value)
    (meta_a meta_b : value) (transform_vals transform_meta : pyobj)
    (static_meta : bool) (out : Series) :
  is_none meta_a && is_none meta_b = true ->
  align idx table_a table_b values_a values_b meta_a meta_b
    transform_vals transform_meta static_meta = Ok out ->
  Forall (fun row =>
            exists values,
              snd row = VTuple [VTuple values]
              /\ length values
                 = (length (listify values_a)
                    + length (listify values_b))%nat)
         out.
Proof.
  intros Hnone Halign.
  apply align_Ok_inv in Halign. cbv zeta in Halign.
  rewrite Hnone in Halign. cbn [negb andb] in Halign.
  destruct Halign as (data_a & data_b & value_data & Hda & Hdb & Hvd & ->).
  unfold generalize_flags in Hda, Hdb. simpl in Hda, Hdb.
  unfold value_columns in Hda, Hdb. simpl in Hda, Hdb.
  apply fetch_columns_count in Hda, Hdb.
  apply transform_columns_count in Hvd. rewrite length_app in Hvd.
  apply Forall_forall. intros [l record] Hrow.
  unfold series_of_list in Hrow. apply in_combine_r in Hrow.
  apply in_map_iff in Hrow as (values & <- & Hv).
  apply zip_star_arity in Hv.
  exists values. split; [reflexivity|lia].
Qed.

(** X7: when no metadata is given, the flag [static_meta] has no effect on
    the call, and every record of the series that is built is a 1-tuple
    that holds the values tuple, with one entry per declared value column
    of side A and of side B. *)
Theorem no_metadata_records {L : Listify} (self : FuseLinks)
    (values_a values_b meta_a meta_b : value)
    (transform_vals transform_meta : pyobj) (static_meta : bool) :
  is_none meta_a && is_none meta_b = true ->
  make_resolution_series self values_a values_b meta_a meta_b
    transform_vals transform_meta static_meta
  = make_resolution_series self values_a values_b meta_a meta_b
      transform_vals transform_meta (negb static_meta)
  /\ forall out,
       make_resolution_series self values_a values_b meta_a meta_b
         transform_vals transform_meta static_meta = Ok out ->
       Forall (fun row =>
                 exists values,
                   snd row = VTuple [VTuple values]
                   /\ length values
                      = (length (listify values_a)
                         + length (listify values_b))%nat)
              out.
Proof.
  intros Hnone. split.
  - unfold make_resolution_series.
    destruct (check_inputs self meta_a meta_b transform_vals transform_meta)
      as [[ta tb]|e]; [|reflexivity].
    simpl. unfold align. rewrite Hnone. now destruct static_meta.
  - intros out Hout.
    apply make_resolution_series_Ok_tables in Hout
      as (ta & tb & _ & _ & _ & Halign).
    eapply plain_rows; eauto.
Qed.

Lemma no_metadata_records_witness :
  let out :=
    [ (VInt 0, VTuple [VTuple [VStr "Ann"; VStr "John"]]);
      (VInt 1, VTuple [VTuple [VStr "Jon"; VStr "Anne"]]) ] in
  make_resolution_series (L:=listify_list) loaded
    (VStr "name") (VStr "name") VNone VNone PyNone PyNone true = Ok out
  /\ Forall (fun row =>
               exists values,
                 snd row = VTuple [VTuple values]
                 /\ length values = 2%nat)
            out.
Proof.
  split; [reflexivity|].
  apply (proj2 (no_metadata_records (L:=listify_list) loaded
                  (VStr "name") (VStr "name") VNone VNone
                  PyNone PyNone true eq_refl)).
  reflexivity.
Defined.

(* ================================================================== *)
(** ** What [fuse] can raise *)

Lemma index_frame_getitem_length (mi : MultiIndex) (key : value) (ids : Series) :
  df_getitem (index_frame mi) key = Ok ids ->
  length ids = df_len (index_frame mi).
Proof.
  unfold df_getitem, df_len, index_frame. simpl.
  destruct (value_eqb _ key).
  - intros H. inversion H.
    rewrite length_combine, !length_map. apply Nat.min_id.
  - destruct (value_eqb _ key); [|discriminate].
    intros H. inversion H.
    rewrite length_combine, !length_map. apply Nat.min_id.
Qed.

Lemma static_columns_error_frame (mi : MultiIndex) (level : Z) (const : value)
    (n : nat) (e : exn) :
  static_columns (Some (index_frame mi)) level const n = Err e -> e = KeyError.
Proof.
  induction n as [|n IH]; [discriminate|].
  cbn [static_columns index_len index_getitem rbind].
  destruct (df_getitem (index_frame mi) (VInt level)) as [ids|e0] eqn:Hids.
  - cbn [rbind]. unfold series_with_index.
    rewrite repeat_length. unfold series_values. rewrite length_map.
    rewrite (index_frame_getitem_length _ _ _ Hids), Nat.eqb_refl.
    cbn [rbind]. intros H. err_steps H; [auto|discriminate].
  - cbn [rbind]. intros H. inversion H; subst.
    eapply df_getitem_error; eauto.
Qed.

Lemma transform_columns_error_checked (t : pyobj) (cols : list Series)
    (e : exn) :
  negb (py_is_none t) && negb (callable t) = false ->
  transform_columns t cols = Err e ->
  exists what, e = Raised what.
Proof.
  intros Hc H. unfold transform_columns in H. destruct t as [|f|v].
  - discriminate.
  - eapply apply_each_error; eauto.
  - discriminate.
Qed.

Lemma align_error_frame {L : Listify} (mi : MultiIndex)
    (table_a table_b : DataFrame) (values_a values_b meta_a meta_b : value)
    (transform_vals transform_meta : pyobj) (static_meta : bool) (e : exn) :
  negb (py_is_none transform_vals) && negb (callable transform_vals) = false ->
  negb (py_is_none transform_meta) && negb (callable transform_meta) = false ->
  align (Some (index_frame mi)) table_a table_b values_a values_b meta_a meta_b
        transform_vals transform_meta static_meta = Err e ->
  is_lookup_error e = true \/ exists what, e = Raised what.
Proof.
  intros Hctv Hctm. unfold align.
  destruct (generalize_flags _ _ (length (listify values_a)) _) as [gva gma].
  destruct (generalize_flags _ _ (length (listify values_b)) _) as [gvb gmb].
  assert (Hmeta : forall df level flag values const cols e',
             metadata_columns df (Some (index_frame mi)) level static_meta
               flag values const cols = Err e' ->
             is_lookup_error e' = true).
  { intros df level flag values const cols e'. unfold metadata_columns.
    destruct static_meta.
    - intros H. apply static_columns_error_frame in H. now subst.
    - destruct (is_True flag); intros H.
      + eapply repeat_first_column_error; eauto.
      + apply fetch_columns_error in H as [->|[Hn _]];
          [reflexivity|discriminate]. }
  intros H. err_steps H.
  - apply value_columns_error in H as [H|[Hn _]];
      [left; exact H|discriminate].
  - apply value_columns_error in H as [H|[Hn _]];
      [left; exact H|discriminate].
  - right. eapply transform_columns_error_checked; [exact Hctv|exact H].
  - destruct (negb (is_none meta_a && is_none meta_b)); [|discriminate].
    err_steps H.
    + left. eapply Hmeta; exact H.
    + left. eapply Hmeta; exact H.
    + right. eapply transform_columns_error_checked; [exact Hctm|exact H].
    + discriminate.
Qed.

Lemma job_series_error {L : Listify} (self : FuseLinks) (vectors_ : Vectors)
    (df_a_ df_b_ : option DataFrame)
    (predictions_ suffix_a_ suffix_b_ : value) (job : Job) (e : exn) :
  job_series (initialized self vectors_ df_a_ df_b_
                predictions_ suffix_a_ suffix_b_) job = Err e ->
  In e config_errors \/ is_lookup_error e = true
  \/ exists what, e = Raised what.
Proof.
  unfold job_series, make_resolution_series.
  pose proof (check_inputs_spec
                (initialized self vectors_ df_a_ df_b_
                   predictions_ suffix_a_ suffix_b_)
                (job_meta_a job) (job_meta_b job)
                (job_transform_vals job) (job_transform_meta job)) as Hc.
  destruct (check_inputs _ _ _ _ _) as [[ta tb]|e0].
  - destruct Hc as (Hcfg & _ & _). simpl. intros H. right.
    unfold misconfigured in Hcfg.
    apply orb_false_iff in Hcfg as [Hcfg _].
    apply orb_false_iff in Hcfg as [Hcfg Hctm].
    apply orb_false_iff in Hcfg as [_ Hctv].
    eapply align_error_frame; [exact Hctv|exact Hctm|exact H].
  - destruct Hc as [_ Hin]. simpl. intros H. inversion H; subst. auto.
Qed.

Lemma series_apply_args_error (f : strategy) (args : list value)
    (s : Series) (g g' : rng) (e : exn) :
  series_apply_args f args s g = (Err e, g') -> exists what, e = Raised what.
Proof.
  revert g. induction s as [|[l v] rest IH]; intros g; simpl.
  - unfold mret. discriminate.
  - destruct (f v args g) as [[r|w] g1].
    + unfold mbind.
      destruct (series_apply_args f args rest g1) as [[rest'|e1] g2] eqn:Hr.
      * unfold mret. discriminate.
      * intros H. inversion H; subst. eauto.
    + intros H. inversion H. eauto.
Qed.

Lemma resolve_queue_error {L : Listify} (self : FuseLinks)
    (vectors_ : Vectors) (df_a_ df_b_ : option DataFrame)
    (predictions_ suffix_a_ suffix_b_ : value) (queue : list Job)
    (g g' : rng) (e : exn) :
  resolve_queue (initialized self vectors_ df_a_ df_b_
                   predictions_ suffix_a_ suffix_b_) queue g = (Err e, g') ->
  In e config_errors \/ is_lookup_error e = true
  \/ exists what, e = Raised what.
Proof.
  revert g. induction queue as [|job rest IH]; intros g; simpl.
  - unfold mret. discriminate.
  - unfold mbind, lift.
    destruct (make_resolution_series _ _ _ _ _ _ _ _) as [data|e0] eqn:Hjob.
    + destruct (resolve (job_fun job) data (job_params job) g)
        as [[col|e1] g1] eqn:Hcol.
      * destruct (resolve_queue _ rest g1) as [[cols|e2] g2] eqn:Hrest.
        -- unfold mret. discriminate.
        -- intros H. inversion H; subst. eauto.
      * intros H. inversion H; subst. right. right.
        unfold resolve in Hcol. eapply series_apply_args_error; eauto.
    + intros H. inversion H; subst.
      eapply job_series_error. unfold job_series. exact Hjob.
Qed.

Lemma resolve_queue_count {L : Listify} (self : FuseLinks) (queue : list Job)
    (g g' : rng) (cols : list Series) :
  resolve_queue self queue g = (Ok cols, g') -> length cols = length queue.
Proof.
  intros H. apply resolve_queue_Ok_jobs in H. symmetry.
  eapply Forall2_length; eauto.
Qed.

(** X8: the exceptions that can leave [fuse].  When the two levels of the
    pair index give equal column labels it is the [ValueError] of the
    conversion of the index to a frame.  Otherwise, with an empty queue it
    is the error of the concatenation; with jobs in the queue it is one of
    the guards' exceptions, a lookup error ([KeyError] or [IndexError]) or
    an exception raised by a transform or a strategy of the caller, and
    never the error of the concatenation. *)
Theorem fuse_raises_only {L : Listify} {P : Alignment} (self : FuseLinks)
    (vectors_ : Vectors) (df_a_ df_b_ : option DataFrame)
    (predictions_ suffix_a_ suffix_b_ : value) (g : rng) (e : exn) :
  fuse_result (fuse self vectors_ df_a_ df_b_
                 predictions_ suffix_a_ suffix_b_ g) = Err e ->
  (labels_distinct (vec_index vectors_) = false
   /\ e = duplicate_labels)
  \/ (labels_distinct (vec_index vectors_) = true
      /\ resolution_queue self = []
      /\ e = ValueError "No objects to concatenate")
  \/ (labels_distinct (vec_index vectors_) = true
      /\ resolution_queue self <> []
      /\ (In e config_errors \/ is_lookup_error e = true
          \/ exists what, e = Raised what)).
Proof.
  destruct (labels_distinct (vec_index vectors_)) eqn:Hd.
  - rewrite (fuse_converted _ _ _ _ _ _ _ _ Hd).
    unfold fuse_result, mbind. simpl.
    destruct (resolve_queue _ (resolution_queue self) g)
      as [[cols|e0] g1] eqn:Hrun.
    + unfold lift. simpl. intros Hcat.
      apply resolve_queue_count in Hrun.
      destruct cols as [|c cols]; [|discriminate].
      right. left. split; [reflexivity|]. split.
      * destruct (resolution_queue self); [reflexivity|discriminate].
      * simpl in Hcat. now inversion Hcat.
    + simpl. intros H. inversion H; subst e0. right. right.
      split; [reflexivity|]. split.
      * intros Hq. rewrite Hq in Hrun. simpl in Hrun. unfold mret in Hrun.
        discriminate.
      * eapply resolve_queue_error; eauto.
  - rewrite (fuse_refused _ _ _ _ _ _ _ _ Hd). simpl.
    intros H. inversion H. left. auto.
Qed.

Lemma fuse_raises_only_witness :
  fuse_result (fuse (L:=listify_list) (P:=object_padding) names_engine
                 (same_named_pairs [(VStr "a1", VStr "b1")])
                 (Some sample_a) (Some sample_b)
                 VNone (VStr "_a") (VStr "_b") 0%N) = Err duplicate_labels
  /\ fuse_result (fuse (L:=listify_list) (P:=object_padding) names_engine
                    (named_pairs [(VStr "a1", VStr "b1")])
                    (Some sample_a) (Some sample_b)
                    VNone (VStr "_a") (VStr "_b") 0%N) = Err KeyError
  /\ ((labels_distinct (vec_index (named_pairs [(VStr "a1", VStr "b1")]))
       = false
       /\ KeyError = duplicate_labels)
      \/ (labels_distinct (vec_index (named_pairs [(VStr "a1", VStr "b1")]))
          = true
          /\ resolution_queue names_engine = []
          /\ KeyError = ValueError "No objects to concatenate")
      \/ (labels_distinct (vec_index (named_pairs [(VStr "a1", VStr "b1")]))
          = true
          /\ resolution_queue names_engine <> []
          /\ (In KeyError config_errors \/ is_lookup_error KeyError = true
              \/ exists what, KeyError = Raised what))).
Proof.
  split; [reflexivity|]. split; [reflexivity|].
  apply (fuse_raises_only (L:=listify_list) (P:=object_padding) names_engine
           (named_pairs [(VStr "a1", VStr "b1")])
           (Some sample_a) (Some sample_b)
           VNone (VStr "_a") (VStr "_b") 0%N).
  reflexivity.
Defined.

(** X9: [fuse] returns a table only when the queue is not empty, both
    source tables are present and every queued job passes the guards: one
    misconfigured job anywhere in the queue leaves no table, whatever the
    other jobs produced. *)
Theorem fuse_returns_no_partial_table {L : Listify} {P : Alignment}
    (self : FuseLinks)
    (vectors_ : Vectors) (df_a_ df_b_ : option DataFrame)
    (predictions_ suffix_a_ suffix_b_ : value) (g : rng) (table : DataFrame) :
  fuse_result (fuse self vectors_ df_a_ df_b_
                 predictions_ suffix_a_ suffix_b_ g) = Ok table ->
  resolution_queue self <> []
  /\ (exists table_a table_b, df_a_ = Some table_a /\ df_b_ = Some table_b)
  /\ Forall (fun job =>
               misconfigured df_a_ df_b_ (job_meta_a job) (job_meta_b job)
                 (job_transform_vals job) (job_transform_meta job) = false)
            (resolution_queue self).
Proof.
  intros Hok. apply fuse_Ok_columns in Hok as (cols & g1 & Hrun & Hcat).
  pose proof (resolve_queue_count _ _ _ _ _ Hrun) as Hcount.
  apply resolve_queue_Ok_jobs in Hrun.
  assert (Hne : resolution_queue self <> []).
  { intros Hq. rewrite Hq in Hcount. destruct cols; [|discriminate].
    discriminate. }
  assert (Hjobs : Forall (fun job =>
                            exists table_a table_b,
                              df_a_ = Some table_a /\ df_b_ = Some table_b
                              /\ misconfigured df_a_ df_b_
                                   (job_meta_a job) (job_meta_b job)
                                   (job_transform_vals job)
                                   (job_transform_meta job) = false)
                         (resolution_queue self)).
  { clear - Hrun. induction Hrun as [|job col rest cols' Hjob _ IH];
      constructor; auto.
    destruct Hjob as (data & _ & _ & Hdata & _).
    unfold job_series in Hdata.
    apply make_resolution_series_Ok_tables in Hdata
      as (ta & tb & Ha & Hb & Hcfg & _).
    simpl in Ha, Hb, Hcfg. eauto. }
  split; [exact Hne|]. split.
  - destruct (resolution_queue self) as [|job rest]; [contradiction|].
    inversion Hjobs as [|? ? (ta & tb & Ha & Hb & _) _]; subst. eauto.
  - eapply Forall_impl; [|exact Hjobs].
    intros job (_ & _ & _ & _ & Hcfg). exact Hcfg.
Qed.

Lemma fuse_returns_no_partial_table_witness :
  fuse_result (fuse (L:=listify_list) (P:=object_padding)
                 names_engine two_pairs (Some sample_a) (Some sample_b)
                 VNone (VStr "_a") (VStr "_b") 0%N) = Ok names_table
  /\ resolution_queue names_engine <> []
  /\ (exists table_a table_b,
         Some sample_a = Some table_a /\ Some sample_b = Some table_b)
  /\ Forall (fun job =>
               misconfigured (Some sample_a) (Some sample_b)
                 (job_meta_a job) (job_meta_b job)
                 (job_transform_vals job) (job_transform_meta job) = false)
            (resolution_queue names_engine).
Proof.
  split; [reflexivity|].
  apply (fuse_returns_no_partial_table (L:=listify_list)
           (P:=object_padding) names_engine
           two_pairs (Some sample_a) (Some sample_b)
           VNone (VStr "_a") (VStr "_b") 0%N names_table).
  reflexivity.
Defined.

(* ================================================================== *)
(** ** The conflict resolution realizations *)

Lemma static_rows {L : Listify} (idx : option DataFrame)
    (table_a table_b : DataFrame) (values_a values_b meta_a meta_b : value)
    (transform_vals : pyobj) (out : Series) :
  is_none meta_a && is_none meta_b = false ->
  align idx table_a table_b values_a values_b meta_a meta_b
    transform_vals PyNone true = Ok out ->
  Forall (fun row =>
            exists values,
              snd row
              = VTuple [VTuple values;
                        VTuple (repeat meta_a (length (listify values_a))
                                ++ repeat meta_b
                                     (length (listify values_b)))]
              /\ length values
                 = (length (listify values_a)
                    + length (listify values_b))%nat)
         out.
Proof.
  intros Huse Halign.
  apply align_Ok_inv in Halign. cbv zeta in Halign.
  rewrite Huse in Halign. cbn [negb andb] in Halign.
  destruct Halign as (data_a & data_b & value_data & Hda & Hdb & Hvd
                      & md_a & md_b & metadata & Hma & Hmb & Hmd & ->).
  apply side_value_count in Hda, Hdb.
  apply transform_columns_count in Hvd. rewrite length_app in Hvd.
  unfold side_slots in Hda, Hdb.
  unfold metadata_columns in Hma, Hmb.
  apply static_columns_Ok in Hma, Hmb.
  apply transform_columns_Ok in Hmd.
  assert (Hcols : Forall2 (fun c col => Forall (transformed PyNone c) col)
                          (repeat meta_a (length (listify values_a))
                           ++ repeat meta_b (length (listify values_b)))
                          (map series_values metadata)).
  { eapply transformed_columns; [|exact Hmd]. now apply Forall2_app. }
  apply Forall_forall. intros [l record] Hrow.
  unfold series_of_list in Hrow. apply in_combine_r in Hrow.
  apply in_map_iff in Hrow as ([values meta] & <- & Hpair).
  pose proof (in_combine_l _ _ _ _ Hpair) as Hv.
  pose proof (in_combine_r _ _ _ _ Hpair) as Hm.
  apply zip_star_arity in Hv.
  pose proof (tuple_of_transformed _ _ _ _ Hcols Hm) as Hmeta.
  assert (Heq : meta
                = repeat meta_a (length (listify values_a))
                  ++ repeat meta_b (length (listify values_b))).
  { apply Forall2_eq. clear - Hmeta.
    induction Hmeta as [|c m cs ms Hcm _ IH]; constructor; auto. }
  exists values. simpl. split; [now rewrite Heq|lia].
Qed.

(** X10: [trust_your_friends(c1, c2, trusted)] appends one job to the
    queue; the job calls [choose] with [trusted] as its only extra
    argument, and in every record of the series built for it the metadata
    tuple holds the constant ["a"] once per column of [c1] followed by the
    constant ["b"] once per column of [c2], beside a values tuple of the
    same number of entries. *)
Theorem trust_your_friends_job {L : Listify} {S : Strategies}
    (self : FuseLinks) (c1 c2 trusted : value) :
  exists job,
    resolution_queue (trust_your_friends self c1 c2 trusted)
    = resolution_queue self ++ [job]
    /\ job_fun job = choose
    /\ extra_args (job_params job) = [trusted]
    /\ forall object out,
         job_series object job = Ok out ->
         Forall (fun row =>
                   exists values,
                     snd row
                     = VTuple [VTuple values;
                               VTuple (repeat (VStr "a")
                                              (length (listify c1))
                                       ++ repeat (VStr "b")
                                                 (length (listify c2)))]
                     /\ length values
                        = (length (listify c1) + length (listify c2))%nat)
                out.
Proof.
  eexists. split; [reflexivity|]. split; [reflexivity|].
  split; [reflexivity|].
  intros object out Hout. unfold job_series in Hout. simpl in Hout.
  apply make_resolution_series_Ok_tables in Hout
    as (ta & tb & _ & _ & _ & Halign).
  eapply static_rows; [|exact Halign]. reflexivity.
Qed.

(** X11: [no_gossiping], [roll_the_dice] and [cry_with_the_wolves] each
    append one job to the queue; the job calls its conflict resolution
    function with no extra argument, and every record of the series built
    for it is a 1-tuple that holds the values tuple (no metadata), with one
    entry per column of [c1] and of [c2]. *)
Theorem plain_realizations_jobs {L : Listify} {S : Strategies}
    (self : FuseLinks) (c1 c2 : value) :
  Forall (fun queued : FuseLinks * strategy =>
            exists job,
              resolution_queue (fst queued) = resolution_queue self ++ [job]
              /\ job_fun job = snd queued
              /\ extra_args (job_params job) = []
              /\ forall object out,
                   job_series object job = Ok out ->
                   Forall (fun row =>
                             exists values,
                               snd row = VTuple [VTuple values]
                               /\ length values
                                  = (length (listify c1)
                                     + length (listify c2))%nat)
                          out)
         [ (no_gossiping self c1 c2, no_gossip);
           (roll_the_dice self c1 c2, choose_random);
           (cry_with_the_wolves self c1 c2, vote) ].
Proof.
  repeat constructor;
    (eexists; split; [reflexivity|]; split; [reflexivity|];
     split; [reflexivity|];
     intros object out Hout; unfold job_series in Hout; simpl in Hout;
     apply make_resolution_series_Ok_tables in Hout
       as (ta & tb & _ & _ & _ & Halign);
     eapply plain_rows; [|exact Halign]; reflexivity).
Qed.

Lemma trust_your_friends_job_witness :
  exists job out,
    resolution_queue
      (trust_your_friends (S:=sample_strategies) (FuseLinks_init false false)
         (VStr "name") (VStr "name") (VStr "a")) = [job]
    /\ job_series (L:=listify_list) loaded job = Ok out
    /\ out <> []
    /\ Forall (fun row =>
                 exists values,
                   snd row
                   = VTuple [VTuple values; VTuple [VStr "a"; VStr "b"]]
                   /\ length values = 2%nat)
              out.
Proof.
  destruct (trust_your_friends_job (L:=listify_list) (S:=sample_strategies)
              (FuseLinks_init false false)
              (VStr "name") (VStr "name") (VStr "a"))
    as (job & Hq & _ & _ & Hrows).
  exists job. simpl in Hq. injection Hq as Hjob. subst job.
  eexists. split; [reflexivity|]. split; [reflexivity|].
  split; [discriminate|].
  apply (Hrows loaded). reflexivity.
Defined.

(* ================================================================== *)
(** ** Queueing and failing *)

(** X12: [queue_resolve] checks nothing: a job that the guards reject is
    queued like any other, and the fault shows when [fuse] runs.  On an
    object whose queue was empty and a pair index that converts to a frame,
    [fuse] then raises one of the guards' exceptions before any strategy is
    called (the random generator is left as it was), and the object keeps
    the job in its queue.  When the conversion fails, its [ValueError] is
    raised before any guard runs. *)
Theorem misconfigured_job_fails_at_fuse {L : Listify} {P : Alignment}
    (self : FuseLinks)
    (f : strategy) (values_a values_b meta_a meta_b : value)
    (transform_vals transform_meta : pyobj) (static_meta : bool)
    (params : option (list value)) (kwargs : list (string * value))
    (vectors_ : Vectors) (df_a_ df_b_ : option DataFrame)
    (predictions_ suffix_a_ suffix_b_ : value) (g : rng) :
  resolution_queue self = [] ->
  misconfigured df_a_ df_b_ meta_a meta_b transform_vals transform_meta
  = true ->
  let queued := queue_resolve self f values_a values_b meta_a meta_b
                  transform_vals transform_meta static_meta params kwargs in
  length (resolution_queue queued) = 1%nat
  /\ (labels_distinct (vec_index vectors_) = true ->
      exists e,
        In e config_errors
        /\ fuse queued vectors_ df_a_ df_b_
             predictions_ suffix_a_ suffix_b_ g
           = (Err e,
              initialized queued vectors_ df_a_ df_b_
                predictions_ suffix_a_ suffix_b_,
              g))
  /\ (labels_distinct (vec_index vectors_) = false ->
      fuse queued vectors_ df_a_ df_b_ predictions_ suffix_a_ suffix_b_ g
      = (Err duplicate_labels, set_vectors queued vectors_, g)).
Proof.
  intros Hq Hcfg queued.
  split; [|split].
  - unfold queued, queue_resolve. simpl. now rewrite Hq.
  - intros Hd. rewrite (fuse_converted _ _ _ _ _ _ _ _ Hd).
    unfold queued, queue_resolve. simpl. rewrite Hq. simpl.
    unfold mbind, lift, make_resolution_series. simpl.
    match goal with
    | |- context [check_inputs ?s meta_a meta_b
                    transform_vals transform_meta] =>
        pose proof (check_inputs_spec s meta_a meta_b
                      transform_vals transform_meta) as Hc;
        destruct (check_inputs s meta_a meta_b transform_vals transform_meta)
          as [[ta tb]|e]
    end.
    + destruct Hc as (Hm & _ & _). simpl in Hm. congruence.
    + destruct Hc as [_ Hin]. exists e. split; [exact Hin|reflexivity].
  - intros Hd. now apply fuse_refused.
Qed.

Lemma misconfigured_job_fails_at_fuse_witness :
  let queued :=
    queue_resolve (FuseLinks_init false false) first_value
      (VStr "name") (VStr "name") (VStr "t1") VNone
      PyNone PyNone false None [] in
  resolution_queue (FuseLinks_init false false) = []
  /\ misconfigured (Some sample_a) (Some sample_b) (VStr "t1") VNone
       PyNone PyNone = true
  /\ labels_distinct (vec_index two_pairs) = true
  /\ exists e,
       In e config_errors
       /\ fuse (L:=listify_list) (P:=object_padding) queued two_pairs
            (Some sample_a) (Some sample_b) VNone (VStr "_a") (VStr "_b") 4%N
          = (Err e,
             initialized queued two_pairs (Some sample_a) (Some sample_b)
               VNone (VStr "_a") (VStr "_b"),
             4%N).
Proof.
  split; [reflexivity|]. split; [reflexivity|]. split; [reflexivity|].
  exact (proj1 (proj2
           (misconfigured_job_fails_at_fuse (L:=listify_list)
              (P:=object_padding)
              (FuseLinks_init false false) first_value
              (VStr "name") (VStr "name") (VStr "t1") VNone
              PyNone PyNone false None [] two_pairs
              (Some sample_a) (Some sample_b) VNone (VStr "_a") (VStr "_b")
              4%N eq_refl eq_refl))
           eq_refl).
Defined.

(** X13: an exception of the strategy is not caught.  When the strategy
    returns on the first rows of the series and raises on the next one,
    [resolve] raises that exception, with the random generator as that call
    left it; the rows after it are not resolved and no column is
    returned. *)
Theorem resolve_propagates_strategy_error (f : strategy)
    (params : option (list value)) (before after : Series)
    (l v : value) (col : Series) (g g1 g2 : rng) (what : string) :
  applied f (extra_args params) g before col g1 ->
  f v (extra_args params) g1 = (Raises what, g2) ->
  resolve f (before ++ (l, v) :: after) params g = (Err (Raised what), g2).
Proof.
  unfold resolve. intros Hbefore Hraise.
  induction Hbefore as [g|g ga gb l0 v0 r rest rest' Hf _ IH]; simpl.
  - now rewrite Hraise.
  - rewrite Hf. unfold mbind. now rewrite (IH Hraise).
Qed.

Lemma resolve_propagates_strategy_error_witness :
  applied first_value (extra_args None) 0%N
    [(VInt 0, VTuple [VTuple [VStr "Ann"; VStr "John"]])]
    [(VInt 0, VStr "Ann")] 0%N
  /\ first_value (VTuple [VTuple []]) (extra_args None) 0%N
     = (Raises "IndexError", 0%N)
  /\ resolve first_value
       ([(VInt 0, VTuple [VTuple [VStr "Ann"; VStr "John"]])]
        ++ (VInt 1, VTuple [VTuple []])
           :: [(VInt 2, VTuple [VTuple [VStr "Jon"]])])
       None 0%N
     = (Err (Raised "IndexError"), 0%N).
Proof.
  assert (Happ : applied first_value (extra_args None) 0%N
                   [(VInt 0, VTuple [VTuple [VStr "Ann"; VStr "John"]])]
                   [(VInt 0, VStr "Ann")] 0%N).
  { econstructor; [reflexivity|constructor]. }
  split; [exact Happ|]. split; [reflexivity|].
  apply (resolve_propagates_strategy_error first_value None
           [(VInt 0, VTuple [VTuple [VStr "Ann"; VStr "John"]])]
           [(VInt 2, VTuple [VTuple [VStr "Jon"]])]
           (VInt 1) (VTuple [VTuple []]) [(VInt 0, VStr "Ann")]
           0%N 0%N 0%N "IndexError" Happ eq_refl).
Defined.

(* ================================================================== *)
(** ** Direct metadata follows the pair index *)

Lemma Forall2_combine_r {A B C} (R : A -> C -> Prop)
    (xs : list A) (ys : list B) (zs : list C) :
  Forall2 R xs zs ->
  length (combine ys zs) = length xs ->
  Forall2 (fun x p => R x (snd p)) xs (combine ys zs).
Proof.
  intros H. revert ys. induction H as [|x z xs zs Hxz _ IH]; intros [|y ys] Hl;
    simpl in *; try discriminate; constructor; auto.
Qed.

Lemma flags_equal_counts (n : nat) :
  generalize_flags true false n n = (Some false, Some false).
Proof. unfold generalize_flags. simpl. now rewrite Nat.ltb_irrefl. Qed.

(** X14: for a job whose metadata is looked up per record with as many
    metadata columns as value columns on each side, on tables keyed by
    record id and a pair index with unnamed levels, the series has one
    record per pair, in pair order, and the metadata tuple of record i
    lists the cells of the side-A metadata columns at the A record of the
    i-th pair, in declared order, followed by the cells of the side-B
    metadata columns at its B record, each as the metadata transform
    leaves it. *)
Theorem direct_metadata_follow_pairs {L : Listify} (self : FuseLinks)
    (mi : MultiIndex) (table_a table_b : DataFrame)
    (values_a values_b meta_a meta_b : value)
    (transform_vals transform_meta : pyobj) (out : Series) :
  index self = Some (index_frame mi) ->
  mi_names mi = (None, None) ->
  df_a self = Some table_a ->
  df_b self = Some table_b ->
  NoDup (df_index table_a) ->
  NoDup (df_index table_b) ->
  is_none meta_a && is_none meta_b = false ->
  length (listify values_a) = length (listify meta_a) ->
  length (listify values_b) = length (listify meta_b) ->
  listify values_a ++ listify values_b <> [] ->
  make_resolution_series self values_a values_b meta_a meta_b
    transform_vals transform_meta false = Ok out ->
  Forall2 (fun matched row =>
             exists values cells_a cells_b,
               snd row = VTuple [VTuple values; VTuple (cells_a ++ cells_b)]
               /\ Forall2 (fetched table_a transform_meta (fst matched))
                          (listify meta_a) cells_a
               /\ Forall2 (fetched table_b transform_meta (snd matched))
                          (listify meta_b) cells_b)
          (mi_tuples mi) out.
Proof.
  intros Hidx Hnames Ha Hb Hnda Hndb Huse Hca Hcb Hne Hout.
  destruct (make_resolution_series_Ok_inv self table_a table_b _ _ _ _ _ _ _
              out Ha Hb Hout) as [_ Halign].
  rewrite Hidx in Halign.
  assert (Hlen : length out = length (mi_tuples mi)).
  { assert (Hno : no_generalization values_a values_b meta_a meta_b false)
      by (right; right; auto).
    pose proof (align_direct mi table_a table_b values_a values_b
                  meta_a meta_b transform_vals transform_meta false out
                  Hnames Hnda Hndb Hno Hne Halign) as Hrows.
    apply Forall2_length in Hrows. congruence. }
  destruct (unnamed_getitem mi Hnames)
    as [(ids0 & H0 & Hv0) (ids1 & H1 & Hv1)].
  apply align_Ok_inv in Halign. cbv zeta in Halign.
  rewrite Huse in Halign. cbn [negb andb] in Halign.
  rewrite Hca, Hcb, !flags_equal_counts in Halign. cbn [fst snd] in Halign.
  destruct Halign as (data_a & data_b & value_data & _ & _ & _
                      & md_a & md_b & metadata & Hma & Hmb & Hmd & ->).
  unfold metadata_columns in Hma, Hmb. simpl in Hma, Hmb.
  pose proof (fetch_columns_Ok _ _ _ _ _ _ Hnda H0 Hma) as Ra.
  pose proof (fetch_columns_Ok _ _ _ _ _ _ Hndb H1 Hmb) as Rb.
  rewrite Hv0 in Ra. rewrite Hv1 in Rb.
  pose proof (transform_columns_Ok _ _ _ Hmd) as Rt.
  apply Forall2_app_inv_l in Rt as (mt_a & mt_b & Rta & Rtb & ->).
  pose proof (fetched_columns table_a transform_meta fst
                (mi_tuples mi) _ md_a mt_a Ra Rta) as Ca.
  pose proof (fetched_columns table_b transform_meta snd
                (mi_tuples mi) _ md_b mt_b Rb Rtb) as Cb.
  set (cell := fun (matched : value * value) (tagged : bool * value) x =>
                 if fst tagged
                 then fetched table_a transform_meta (fst matched)
                        (snd tagged) x
                 else fetched table_b transform_meta (snd matched)
                        (snd tagged) x).
  assert (Hcols : Forall2 (fun tagged col =>
                             Forall2 (fun matched x => cell matched tagged x)
                                     (mi_tuples mi) col)
                          (map (pair true) (listify meta_a)
                           ++ map (pair false) (listify meta_b))
                          (map series_values (mt_a ++ mt_b))).
  { rewrite map_app. apply Forall2_app; apply Forall2_map_l; assumption. }
  assert (Htagged : map (pair true) (listify meta_a)
                    ++ map (pair false) (listify meta_b) <> []).
  { intros Heq. apply app_eq_nil in Heq as [Ea Eb].
    apply map_eq_nil in Ea, Eb. apply Hne.
    rewrite Ea in Hca. rewrite Eb in Hcb.
    apply length_zero_iff_nil in Hca, Hcb. now rewrite Hca, Hcb. }
  pose proof (zip_star_transpose cell _ _ _ Htagged Hcols) as Htuples.
  rewrite series_of_list_length, length_map in Hlen.
  apply (Forall2_series_of_list
           (fun matched record =>
              exists values cells_a cells_b,
                record = VTuple [VTuple values; VTuple (cells_a ++ cells_b)]
                /\ Forall2 (fetched table_a transform_meta (fst matched))
                           (listify meta_a) cells_a
                /\ Forall2 (fetched table_b transform_meta (snd matched))
                           (listify meta_b) cells_b)).
  apply (proj2 (Forall2_map_r _ _ _ _)).
  eapply Forall2_impl; [|exact (Forall2_combine_r _ _ _ _ Htuples Hlen)].
  intros matched [values meta] Hcell. simpl in Hcell |- *.
  apply split_by_side in Hcell as (ca & cb & -> & Hcella & Hcellb).
  exists values, ca, cb. auto.
Qed.

Lemma direct_metadata_follow_pairs_witness :
  let out :=
    [ (VInt 0, VTuple [VTuple [VStr "Ann"; VStr "John"];
                       VTuple [VInt 4; VInt 7]]);
      (VInt 1, VTuple [VTuple [VStr "Jon"; VStr "Anne"];
                       VTuple [VInt 1; VInt 8]]) ] in
  make_resolution_series (L:=listify_list) loaded
    (VStr "name") (VStr "name") (VStr "t1") (VStr "t")
    PyNone PyNone false = Ok out
  /\ Forall2 (fun matched row =>
                exists values cells_a cells_b,
                  snd row
                  = VTuple [VTuple values; VTuple (cells_a ++ cells_b)]
                  /\ Forall2 (fetched sample_a PyNone (fst matched))
                             [VStr "t1"] cells_a
                  /\ Forall2 (fetched sample_b PyNone (snd matched))
                             [VStr "t"] cells_b)
             (mi_tuples (vec_index two_pairs)) out.
Proof.
  split; [reflexivity|].
  assert (Hnda : NoDup (df_index sample_a)).
  { repeat constructor; simpl; intuition discriminate. }
  assert (Hndb : NoDup (df_index sample_b)).
  { repeat constructor; simpl; intuition discriminate. }
  assert (Hne : listify (Listify:=listify_list) (VStr "name")
                ++ listify (Listify:=listify_list) (VStr "name") <> []).
  { discriminate. }
  exact (direct_metadata_follow_pairs (L:=listify_list) loaded
           (vec_index two_pairs) sample_a sample_b
           (VStr "name") (VStr "name") (VStr "t1") (VStr "t") PyNone PyNone
           _ eq_refl eq_refl eq_refl eq_refl Hnda Hndb eq_refl eq_refl eq_refl
           Hne eq_refl).
Defined.
